(** * Bankbot: the outbound-call agent of [agent.py]

    A shallow embedding of the phone-number normaliser, the two retry loops
    (SIP dial and room hang-up), the greeting dialogue and the job entry
    point, then of the start-up checks, the log sanitiser and the checks of
    the dispatching script call.py, followed by the properties established
    about them.

    Python values are modelled as follows.
    - [str] is a list of Unicode code points ([char := N]); literals of the
      source that are pure ASCII are written [lit "..."].
    - [int] is [Z]; [float] is the primitive binary64 float.
    - dynamically typed values ([Optional[str]], the decoded JSON metadata)
      are the inductive [pyval].
    - exceptions are the inductive [exn] and a computation that may raise
      returns a [res].
    - the awaited collaborators (LiveKit API, session, clock) are oracles
      that answer from the history of the run so far; every call and every
      log record is appended to that history. *)

From Stdlib Require Import List ZArith NArith Bool Lia String Ascii PrimFloat.
Import ListNotations.

Set Implicit Arguments.

(** ** Strings *)

Definition char := N.
Definition str := list char.

Definition ch (a : ascii) : char := N_of_ascii a.

Definition lit (s : string) : str := map ch (list_ascii_of_string s).

Definition str_eqb (a b : str) : bool :=
  if list_eq_dec N.eq_dec a b then true else false.

(** [s.startswith(p)] *)
Fixpoint startswith (s p : str) : bool :=
  match p, s with
  | [], _ => true
  | _ :: _, [] => false
  | x :: p', y :: s' => N.eqb x y && startswith s' p'
  end.

(** [needle in s] for strings: some suffix of [s] starts with [needle]. *)
Fixpoint contains (s needle : str) : bool :=
  startswith s needle ||
  match s with
  | [] => false
  | _ :: s' => contains s' needle
  end.

Module Unicode.

(** The parts of the Unicode database that the running interpreter
    consults outside ASCII. Inside ASCII the answers are fixed below. *)
Record tables := {
  (** category Nd for a code point of 128 or more *)
  decimal : char -> bool;
  (** white space, as [str.strip] sees it, for a code point of 128 or
      more *)
  space : char -> bool;
  (** the lower-case expansion of a code point of 128 or more at its place
      in a string (Python chooses between the two small sigmas by the
      neighbours): the code points before it, the code point, those
      after it *)
  lower : str -> char -> str -> str
}.

(** A database with no decimal digit and no case mapping outside ASCII. *)
Definition ascii_only : tables :=
  {| decimal := fun _ => false;
     space := fun _ => false;
     lower := fun _ c _ => [c] |}.

(** ARABIC-INDIC DIGIT ZERO..NINE as decimals, NO-BREAK SPACE as white
    space and KELVIN SIGN lowering to "k". *)
Definition sample : tables :=
  {| decimal := fun c => (N.leb 1632 c && N.leb c 1641)%bool;
     space := fun c => N.eqb c 160;
     lower := fun _ c _ => if N.eqb c 8490 then [107%N] else [c] |}.

End Unicode.

Section Strings.

Variable U : Unicode.tables.

(** [\d] of a [str] pattern: any Unicode decimal digit. *)
Definition is_digit (c : char) : bool :=
  if N.ltb c 128 then N.leb 48 c && N.leb c 57 else Unicode.decimal U c.

(** White space for [str.strip()]: in ASCII, TAB..CR, FS..US and SPACE. *)
Definition is_space (c : char) : bool :=
  if N.ltb c 128
  then (N.leb 9 c && N.leb c 13) || (N.leb 28 c && N.leb c 32)
  else Unicode.space U c.

Fixpoint lstrip (s : str) : str :=
  match s with
  | [] => []
  | c :: s' => if is_space c then lstrip s' else s
  end.

(** [s.strip()] *)
Definition strip (s : str) : str := rev (lstrip (rev (lstrip s))).

Definition lower_char (before : str) (c : char) (after : str) : str :=
  if N.ltb c 128
  then [if N.leb 65 c && N.leb c 90 then (c + 32)%N else c]
  else Unicode.lower U before c after.

Fixpoint lower_from (before s : str) : str :=
  match s with
  | [] => []
  | c :: s' => lower_char before c s' ++ lower_from (before ++ [c]) s'
  end.

(** [s.lower()] *)
Definition lower (s : str) : str := lower_from [] s.

(** ** Regular expressions

    The fragment of Python's [re] syntax that the source uses, with a
    backtracking matcher in continuation-passing style. *)

Inductive citem :=
| CDigit                      (* \d *)
| CChar (c : ascii)           (* a literal member *)
| CRange (a b : ascii).       (* a-b *)

Inductive regex :=
| Chr (c : ascii)                         (* an escaped or plain literal *)
| Cls (negated : bool) (items : list citem)   (* [...] and [^...] *)
| Cat (r1 r2 : regex)
| Rep (r : regex) (lo hi : nat)           (* r{lo,hi}, greedy *)
| Bol                                     (* ^ *)
| Eol.                                    (* $ *)

Definition Digit : regex := Cls false [CDigit].

Definition citem_has (i : citem) (c : char) : bool :=
  match i with
  | CDigit => is_digit c
  | CChar a => N.eqb c (ch a)
  | CRange a b => N.leb (ch a) c && N.leb c (ch b)
  end.

Definition in_class (negated : bool) (items : list citem) (c : char) : bool :=
  xorb negated (existsb (fun i => citem_has i c) items).

Definition orelse {A} (x y : option A) : option A :=
  match x with Some _ => x | None => y end.

Section Matcher.

Variable A : Type.

Definition cont := nat -> str -> option A.

(** [rep m hi lo]: at most [hi] and at least [lo] further iterations of
    [m], trying one more iteration before trying to stop. *)
Fixpoint rep (m : nat -> str -> cont -> option A) (hi lo : nat)
         (pos : nat) (s : str) (k : cont) : option A :=
  match hi with
  | O => if Nat.eqb lo 0 then k pos s else None
  | S hi' =>
      orelse (m pos s (fun pos' s' => rep m hi' (pred lo) pos' s' k))
             (if Nat.eqb lo 0 then k pos s else None)
  end.

(** [matches r pos s k]: [r] matches a prefix of [s], which starts at
    offset [pos] of the subject, and [k] accepts what follows. *)
Fixpoint matches (r : regex) (pos : nat) (s : str) (k : cont) : option A :=
  match r with
  | Chr a =>
      match s with
      | c :: s' => if N.eqb c (ch a) then k (S pos) s' else None
      | [] => None
      end
  | Cls negated items =>
      match s with
      | c :: s' => if in_class negated items c then k (S pos) s' else None
      | [] => None
      end
  | Cat r1 r2 => matches r1 pos s (fun pos' s' => matches r2 pos' s' k)
  | Rep r' lo hi => rep (matches r') hi lo pos s k
  | Bol => if Nat.eqb pos 0 then k pos s else None
  | Eol =>
      (* the end of the subject, or just before a final newline *)
      match s with
      | [] => k pos s
      | [c] => if N.eqb c 10 then k pos s else None
      | _ => None
      end
  end.

End Matcher.

(** [re.match(r, s)] as a truth value *)
Definition re_match (r : regex) (s : str) : bool :=
  match matches r 0 s (fun _ _ => Some tt) with Some _ => true | None => false end.

(** [re.fullmatch(r, s)] as a truth value *)
Definition re_fullmatch (r : regex) (s : str) : bool :=
  match matches r 0 s (fun _ s' => match s' with [] => Some tt | _ => None end) with
  | Some _ => true
  | None => false
  end.

(** [re.sub(r, "", s)]: scanning from the left, every match of [r] is
    dropped. A position where [r] does not match, or matches the empty
    string, keeps its character. [fuel] bounds the scan. *)
Fixpoint sub_delete (fuel : nat) (r : regex) (pos : nat) (s : str) : str :=
  match fuel, s with
  | O, _ => s
  | _, [] => []
  | S fuel', c :: s' =>
      match matches r pos s (fun pos' rest => Some (pos', rest)) with
      | Some (pos', rest) =>
          if Nat.ltb pos pos' then sub_delete fuel' r pos' rest
          else c :: sub_delete fuel' r (S pos) s'
      | None => c :: sub_delete fuel' r (S pos) s'
      end
  end.

Definition re_sub_delete (r : regex) (s : str) : str :=
  sub_delete (List.length s) r 0 s.

End Strings.


(** ** Python values and exceptions *)

(** The values that reach the code from the job metadata: what
    [json.loads] can produce, which also covers [Optional[str]]. A [dict] is
    the list of its items; its keys are distinct. *)
#[warnings="-register-all"]
Inductive pyval :=
| PyNone
| PyBool (b : bool)
| PyInt (z : Z)
| PyFloat (f : float)
| PyStr (s : str)
| PyList (l : list pyval)
| PyDict (items : list (str * pyval)).

(** Truth value of an object, as tested by [if], [not] and [or]. *)
Definition truthy (v : pyval) : bool :=
  match v with
  | PyNone => false
  | PyBool b => b
  | PyInt z => negb (Z.eqb z 0)
  | PyFloat f => negb (PrimFloat.eqb f PrimFloat.zero)
  | PyStr s => match s with [] => false | _ => true end
  | PyList l => match l with [] => false | _ => true end
  | PyDict d => match d with [] => false | _ => true end
  end.

(** Instances of [Exception], the class that the [except Exception] clauses
    of the source catch. [TwirpError] is the error type of the LiveKit API;
    [OtherException] stands for any class not named here. The cancellation
    of a task is no such instance and is not modelled. *)
Inductive exn :=
| TwirpError (code message : str)
| RuntimeError (msg : str)
| JSONDecodeError
| TypeError
| AttributeError
| OtherException (cls msg : str).

Definition is_TwirpError (e : exn) : bool :=
  match e with TwirpError _ _ => true | _ => false end.

Definition is_JSONDecodeError (e : exn) : bool :=
  match e with JSONDecodeError => true | _ => false end.

(** Outcome of a call: a value or a raised exception. *)
Inductive res (A : Type) :=
| Ret (a : A)
| Raise (e : exn).

Arguments Ret {A} a.
Arguments Raise {A} e.

Definition res_bind {A B} (r : res A) (f : A -> res B) : res B :=
  match r with
  | Ret a => f a
  | Raise e => Raise e
  end.

(** ** normalize_phone_number *)

Section Normalize.

Variable U : Unicode.tables.

(** [r"[^\d+]"] *)
Definition not_digit_or_plus : regex := Cls true [CDigit; CChar "+"].

(** [r"\d{10}"] *)
Definition ten_digits : regex := Rep Digit 10 10.

(** [r"^\+[1-9]\d{6,14}$"] *)
Definition e164 : regex :=
  Cat Bol (Cat (Chr "+") (Cat (Cls false [CRange "1" "9"]) (Cat (Rep Digit 6 14) Eol))).

(** The body of the function once [phone] is known to be a non-empty
    [str]. *)
Definition normalize_str (phone : str) : pyval :=
  let phone := re_sub_delete U not_digit_or_plus phone in
  let phone :=
    if re_fullmatch U ten_digits phone then lit "+91" ++ phone
    else if negb (startswith phone (lit "+")) then lit "+" ++ phone
    else phone in
  if re_match U e164 phone then PyStr phone else PyNone.

(** [normalize_phone_number(phone)]. The annotation says [str], the entry
    point passes whatever the metadata holds: a false value gives [None],
    and [re.sub] raises [TypeError] on anything else that is not a [str]. *)
Definition normalize_phone_number (phone : pyval) : res pyval :=
  if negb (truthy phone) then Ret PyNone
  else match phone with
       | PyStr s => Ret (normalize_str s)
       | _ => Raise TypeError
       end.

End Normalize.

(** ** Job context, call state, events *)

Record JobContext := {
  metadata : pyval;          (* ctx.job.metadata *)
  room_name : str            (* ctx.room.name *)
}.

Record CallState := {
  customer_name : option str;
  phone_number : option str;
  is_interested : bool;
  payment_amount : option str;
  interaction_count : Z;
  call_start_time : float;
  payment_confirmed : bool
}.

(** [CallState(phone_number=p)] built at clock reading [now]. *)
Definition new_CallState (p : str) (now : float) : CallState :=
  {| customer_name := None;
     phone_number := Some p;
     is_interested := false;
     payment_amount := None;
     interaction_count := 0;
     call_start_time := now;
     payment_confirmed := false |}.

Definition set_interaction_count (n : Z) (cs : CallState) : CallState :=
  {| customer_name := customer_name cs;
     phone_number := phone_number cs;
     is_interested := is_interested cs;
     payment_amount := payment_amount cs;
     interaction_count := n;
     call_start_time := call_start_time cs;
     payment_confirmed := payment_confirmed cs |}.

Record CreateSIPParticipantRequest := {
  req_room_name : str;
  sip_trunk_id : str;
  sip_call_to : str;
  participant_identity : str;
  wait_until_answered : bool
}.

(** What [session.listen] hands back when the callee spoke. *)
Record UserResponse := { text : str }.

(** Calls to the collaborators, with their arguments. *)
Inductive call :=
| CreateSipParticipant (req : CreateSIPParticipantRequest)
| GetJobContext
| DeleteRoom (room : str)
| Sleep (secs : Z)
| WaitForConnection
| Say (utterance : str)
| Listen (timeout : Z)
| Connect
| VadLoad
| Tts (model : str) (voice : option str)
| Llm (model : str)
| Stt (model language : str)
| Time
| SessionStart
| WaitForParticipant (identity : str)
| AwaitSessionTask
| Shutdown.

(** One constructor per logging statement of [agent.py], carrying the values
    that the statement formats into its message. *)
Inductive logrec :=
| LogHangupOk                                 (* info: Call hung up successfully *)
| LogHangupError (attempt : Z) (e : exn)      (* error: Error hanging up (attempt ..): .. *)
| LogHangupFailed                             (* error: Failed to hang up after all retries *)
| LogAgentStarted                             (* info *)
| LogAudioReady                               (* info *)
| LogCustomerSaid (reply : str)               (* info *)
| LogDialing (phone : str) (attempt : Z)      (* info: Dialing .. (attempt ..) *)
| LogSipConnected                             (* info *)
| LogSipFailed (attempt : Z) (message : str)  (* error: SIP dial failed (attempt ..): .. *)
| LogRawMetadata (m : pyval)                  (* info *)
| LogInvalidJson                              (* warning *)
| LogInvalidPhone (v : pyval)                 (* error *)
| LogStartingCall (phone room : str)          (* info; the number goes through sanitize_log_data *)
| LogVadLoaded                                (* info *)
| LogTtsFallback (e : exn)                    (* warning *)
| LogParticipantJoined (identity : str)       (* info *)
| LogCallCompleted (duration : float) (interactions : Z)   (* info *)
| LogUnexpected (e : exn).                    (* exception *)

Inductive event :=
| Log (l : logrec)
| Call (c : call).

Definition history := list event.

(** The collaborators. Each answers from the history of the run up to the
    call and the call's arguments. *)
Record Env := {
  create_sip_participant : history -> CreateSIPParticipantRequest -> res unit;
  get_job_context : history -> res JobContext;
  delete_room : history -> str -> res unit;
  wait_for_connection : history -> res unit;
  say : history -> str -> res unit;
  listen : history -> Z -> res (option UserResponse);
  connect : history -> res unit;
  vad_load : history -> res unit;
  tts : history -> str -> option str -> res unit;
  llm : history -> str -> res unit;
  stt : history -> str -> str -> res unit;
  time : history -> float;
  session_start : history -> res unit;
  wait_for_participant : history -> str -> res str;
  (** the session task seen from the entry point: it runs interleaved with
      the dial, and joining it gives the user data as the task left it *)
  session_task : history -> CallState -> res CallState;
  shutdown : history -> res unit;
  (** [json.loads] *)
  json_loads : str -> res pyval;
  (** [os.getenv("SIP_OUTBOUND_TRUNK_ID")], validated at import *)
  OUTBOUND_TRUNK_ID : str
}.

(** ** The monad of the asynchronous code: history and session user data
    are threaded, exceptions propagate. *)

Record World := {
  trace : history;
  userdata : CallState       (* session.userdata *)
}.

Definition M (A : Type) := World -> res A * World.

Definition ret {A} (a : A) : M A := fun w => (Ret a, w).

Definition raise {A} (e : exn) : M A := fun w => (Raise e, w).

Definition bind {A B} (m : M A) (f : A -> M B) : M B :=
  fun w =>
    match m w with
    | (Ret a, w') => f a w'
    | (Raise e, w') => (Raise e, w')
    end.

Notation "x <- m ;; k" := (bind m (fun x => k))
  (at level 61, m at next level, right associativity).
Notation "m ;; k" := (bind m (fun _ => k))
  (at level 61, right associativity).

Definition lift {A} (r : res A) : M A := fun w => (r, w).

Definition record (e : event) (w : World) : World :=
  {| trace := trace w ++ [e]; userdata := userdata w |}.

Definition log (l : logrec) : M unit := fun w => (Ret tt, record (Log l) w).

(** An awaited or plain call to a collaborator. *)
Definition ask {A} (c : call) (oracle : history -> res A) : M A :=
  fun w => (oracle (trace w), record (Call c) w).

(** [await asyncio.sleep(secs)] *)
Definition sleep (secs : Z) : M unit :=
  fun w => (Ret tt, record (Call (Sleep secs)) w).

(** [try: body except <classes> as e: handler e] *)
Definition try_except {A} (body : M A) (caught : exn -> bool) (handler : exn -> M A) : M A :=
  fun w =>
    match body w with
    | (Ret a, w') => (Ret a, w')
    | (Raise e, w') => if caught e then handler e w' else (Raise e, w')
    end.

(** [range(n)] *)
Definition range (n : Z) : list Z := map Z.of_nat (seq 0 (Z.to_nat n)).

(** [for i in idxs: body i] followed by [after]; the body answers [Some v]
    when it executes [return v]. *)
Fixpoint for_each {A} (idxs : list Z) (body : Z -> M (option A)) (after : M A) : M A :=
  match idxs with
  | [] => after
  | i :: rest =>
      r <- body i ;;
      match r with
      | Some v => ret v
      | None => for_each rest body after
      end
  end.

Definition when (b : bool) (m : M unit) : M unit := if b then m else ret tt.

(** ** The programs *)

Section Agent.

Variable U : Unicode.tables.
Variable E : Env.

(** One turn of the loop of [hangup_call_with_retry]: [Some tt] is its
    [return]. *)
Definition hangup_attempt (max_retries i : Z) : M (option unit) :=
  try_except
    (job_ctx <- ask GetJobContext (get_job_context E) ;;
     ask (DeleteRoom (room_name job_ctx))
         (fun h => delete_room E h (room_name job_ctx)) ;;
     log LogHangupOk ;;
     ret (Some tt))
    (fun _ => true)
    (fun e =>
       log (LogHangupError (i + 1) e) ;;
       when (i <? max_retries - 1)%Z (sleep (2 ^ i)) ;;
       ret None).

(** [hangup_call_with_retry(max_retries)] *)
Definition hangup_call_with_retry (max_retries : Z) : M unit :=
  for_each (range max_retries) (hangup_attempt max_retries) (log LogHangupFailed).

(** U+2019, the apostrophe typed in two of the replies *)
Definition rsquo : str := [8217%N].

Definition greeting : str :=
  lit "Hello! This is Emily from SecureCard Financial Services. "
  ++ lit "I'm calling to remind you about your upcoming payment. "
  ++ lit "Can I confirm that I'm speaking to the account holder?".

Definition reply_yes : str :=
  lit "Great! Your balance due is $250. Would you like to make the payment now?".

Definition reply_no : str :=
  lit "No problem. I" ++ rsquo
  ++ lit "ll make a note that the account holder isn" ++ rsquo
  ++ lit "t available right now.".

Definition reply_unclear : str :=
  lit "I didn't quite catch that. Could you please repeat?".

Definition reply_silence : str :=
  lit "I didn" ++ rsquo ++ lit "t hear a response. Let" ++ rsquo
  ++ lit "s try again another time.".

Definition speak (utterance : str) : M unit :=
  ask (Say utterance) (fun h => say E h utterance).

Definition modify_userdata (f : CallState -> CallState) : M unit :=
  fun w => (Ret tt, {| trace := trace w; userdata := f (userdata w) |}).

(** [GreetingAgent.on_start(session)] *)
Definition on_start : M unit :=
  log LogAgentStarted ;;
  ask WaitForConnection (wait_for_connection E) ;;
  log LogAudioReady ;;
  speak greeting ;;
  modify_userdata (fun cs => set_interaction_count (interaction_count cs + 1) cs) ;;
  user_response <- ask (Listen 10) (fun h => listen E h 10) ;;
  match user_response with
  | Some r =>
      if truthy (PyStr (text r)) then
        let reply := lower U (text r) in
        log (LogCustomerSaid reply) ;;
        if contains reply (lit "yes") then speak reply_yes
        else if contains reply (lit "no") then speak reply_no
        else speak reply_unclear
      else speak reply_silence
  | None => speak reply_silence
  end ;;
  sleep 2 ;;
  hangup_call_with_retry 3.

Definition sip_request (ctx : JobContext) (phone : str) : CreateSIPParticipantRequest :=
  {| req_room_name := room_name ctx;
     sip_trunk_id := OUTBOUND_TRUNK_ID E;
     sip_call_to := phone;
     participant_identity := phone;
     wait_until_answered := true |}.

Definition dial_failure : exn :=
  RuntimeError (lit "Failed to connect SIP participant after retries.").

(** One turn of the loop of [create_sip_participant_with_retry]. *)
Definition dial_attempt (ctx : JobContext) (phone : str) (max_retries i : Z)
  : M (option unit) :=
  try_except
    (log (LogDialing phone (i + 1)) ;;
     ask (CreateSipParticipant (sip_request ctx phone))
         (fun h => create_sip_participant E h (sip_request ctx phone)) ;;
     log LogSipConnected ;;
     ret (Some tt))
    is_TwirpError
    (fun e =>
       log (LogSipFailed (i + 1)
              match e with TwirpError _ message => message | _ => [] end) ;;
       when (i <? max_retries - 1)%Z (sleep (2 ^ i)) ;;
       ret None).

(** [create_sip_participant_with_retry(ctx, phone, max_retries)] *)
Definition create_sip_participant_with_retry
    (ctx : JobContext) (phone : str) (max_retries : Z) : M unit :=
  for_each (range max_retries) (dial_attempt ctx phone max_retries) (raise dial_failure).

(** [d.get(key)]; only a [dict] has the method. *)
Definition py_get (d : pyval) (key : str) : res pyval :=
  match d with
  | PyDict items =>
      Ret match find (fun kv => str_eqb (fst kv) key) items with
          | Some kv => snd kv
          | None => PyNone
          end
  | _ => Raise AttributeError
  end.

(** [a.get(k1) or a.get(k2) or ...]: the lookups run left to right and stop
    at the first true value; the last value is the result otherwise. *)
Fixpoint get_first (d : pyval) (keys : list str) : res pyval :=
  match keys with
  | [] => Ret PyNone
  | [k] => py_get d k
  | k :: rest =>
      res_bind (py_get d k) (fun v => if truthy v then Ret v else get_first d rest)
  end.

(** The metadata parsing at the top of [entrypoint]: the value of
    [dial_info]. *)
Definition parse_metadata (metadata_raw : pyval) : M pyval :=
  match metadata_raw with
  | PyStr s =>
      if truthy (PyStr (strip U s)) then
        try_except (lift (json_loads E s))
          is_JSONDecodeError
          (fun _ => log LogInvalidJson ;; ret (PyDict []))
      else ret (PyDict [])
  | PyDict _ => ret metadata_raw
  | _ => ret (PyDict [])
  end.

Definition phone_keys : list str :=
  [lit "phone_number"; lit "phoneNumber"; lit "phone"; lit "number"].

(** What [entrypoint] does once the number is accepted. *)
Definition place_call (ctx : JobContext) (phone_number : str) : M unit :=
  log (LogStartingCall phone_number (room_name ctx)) ;;
  ask Connect (connect E) ;;
  ask VadLoad (vad_load E) ;;
  log LogVadLoaded ;;
  let model := lit "sonic-english" in
  let voice := lit "6f84f4b8-58a2-430c-8c79-688dad597532" in
  try_except
    (ask (Tts model (Some voice)) (fun h => tts E h model (Some voice)))
    (fun _ => true)
    (fun e =>
       log (LogTtsFallback e) ;;
       ask (Tts model None) (fun h => tts E h model None)) ;;
  ask (Llm (lit "gemini-2.5-flash")) (fun h => llm E h (lit "gemini-2.5-flash")) ;;
  ask (Stt (lit "nova-3") (lit "en-US")) (fun h => stt E h (lit "nova-3") (lit "en-US")) ;;
  now <- ask Time (fun h => Ret (time E h)) ;;
  modify_userdata (fun _ => new_CallState phone_number now) ;;
  ask SessionStart (session_start E) ;;
  create_sip_participant_with_retry ctx phone_number 3 ;;
  identity <- ask (WaitForParticipant phone_number)
                  (fun h => wait_for_participant E h phone_number) ;;
  log (LogParticipantJoined identity) ;;
  (fun w =>
     match session_task E (trace w) (userdata w) with
     | Ret cs => (Ret tt, {| trace := trace w ++ [Call AwaitSessionTask]; userdata := cs |})
     | Raise e => (Raise e, record (Call AwaitSessionTask) w)
     end) ;;
  now' <- ask Time (fun h => Ret (time E h)) ;;
  cs <- (fun w => (Ret (userdata w), w)) ;;
  log (LogCallCompleted (PrimFloat.sub now' (call_start_time cs)) (interaction_count cs)).

(** [entrypoint(ctx)] *)
Definition entrypoint (ctx : JobContext) : M unit :=
  try_except
    (let metadata_raw := metadata ctx in
     log (LogRawMetadata metadata_raw) ;;
     dial_info <- parse_metadata metadata_raw ;;
     phone_number <- lift (get_first dial_info phone_keys) ;;
     phone_number <- lift (normalize_phone_number U phone_number) ;;
     if negb (truthy phone_number) then
       log (LogInvalidPhone phone_number)
     else
       match phone_number with
       | PyStr p => place_call ctx p
       | _ => raise TypeError   (* sanitize_log_data on a true value that is not a str *)
       end)
    (fun _ => true)
    (fun e =>
       log (LogUnexpected e) ;;
       ask Shutdown (shutdown E)).

End Agent.

(** ** Reading a history *)

(** The world with further events appended to its history. *)
Definition extend (w : World) (es : history) : World :=
  {| trace := trace w ++ es; userdata := userdata w |}.

(** The events of a history that an observer [f] is interested in. *)
Fixpoint view {A} (f : event -> option A) (h : history) : list A :=
  match h with
  | [] => []
  | e :: h' => match f e with Some a => a :: view f h' | None => view f h' end
  end.

(** The dial as the telephony bridge and the clock see it. *)
Inductive dial_step :=
| Attempted
| Slept (secs : Z).

Definition dial_view (e : event) : option dial_step :=
  match e with
  | Call (CreateSipParticipant _) => Some Attempted
  | Call (Sleep secs) => Some (Slept secs)
  | _ => None
  end.

(** Number of SIP participant-creation calls made so far. *)
Definition dials (h : history) : nat :=
  List.length (view (fun e => match e with
                              | Call (CreateSipParticipant r) => Some r
                              | _ => None
                              end) h).

(** Number of room-deletion calls made so far. *)
Definition deletions (h : history) : nat :=
  List.length (view (fun e => match e with
                              | Call (DeleteRoom r) => Some r
                              | _ => None
                              end) h).

(** The dialogue as the callee hears it. *)
Inductive turn :=
| Said (utterance : str)
| Listened (timeout : Z).

Definition dialogue_view (e : event) : option turn :=
  match e with
  | Call (Say u) => Some (Said u)
  | Call (Listen t) => Some (Listened t)
  | _ => None
  end.

Definition call_of (e : event) : option call :=
  match e with Call c => Some c | Log _ => None end.

(** Every call made to a collaborator. *)
Definition calls (h : history) : list call := view call_of h.

(** The E.164 shape: "+", a digit from 1 to 9, then 6 to 14 digits. *)
Definition e164_shape (U : Unicode.tables) (s : str) : bool :=
  match s with
  | p :: d :: rest =>
      N.eqb p (ch "+") && (N.leb (ch "1") d && N.leb d (ch "9"))
      && forallb (is_digit U) rest
      && (Nat.leb 6 (List.length rest) && Nat.leb (List.length rest) 14)
  | _ => false
  end.

(** A computation is quiet for an observer when, from every world, it only
    appends events the observer ignores and leaves the user data alone. *)
Definition quiet {A B} (f : event -> option B) (m : M A) : Prop :=
  forall w, exists new, snd (m w) = extend w new /\ view f new = [].

(** ** Sample collaborators, for running the programs on concrete inputs *)

(** Collaborators that all answer normally, except for the SIP call, the
    room deletion, the listening and the JSON decoder, which are given. *)
Definition scripted_env
    (sip : history -> res unit) (deletion : history -> res unit)
    (heard : res (option UserResponse)) (loads : str -> res pyval) : Env :=
  {| create_sip_participant := fun h _ => sip h;
     get_job_context := fun _ => Ret {| metadata := PyNone; room_name := lit "room-1" |};
     delete_room := fun h _ => deletion h;
     wait_for_connection := fun _ => Ret tt;
     say := fun _ _ => Ret tt;
     listen := fun _ _ => heard;
     connect := fun _ => Ret tt;
     vad_load := fun _ => Ret tt;
     tts := fun _ _ _ => Ret tt;
     llm := fun _ _ => Ret tt;
     stt := fun _ _ _ => Ret tt;
     time := fun _ => PrimFloat.zero;
     session_start := fun _ => Ret tt;
     wait_for_participant := fun _ identity => Ret identity;
     session_task := fun _ cs => Ret cs;
     shutdown := fun _ => Ret tt;
     json_loads := loads;
     OUTBOUND_TRUNK_ID := lit "ST_trunk" |}.

Definition busy : res unit := Raise (TwirpError (lit "unavailable") (lit "busy")).

(** The SIP call fails with a [TwirpError] on its first [k] invocations and
    then answers [r]. *)
Definition sip_after (k : nat) (r : res unit) (h : history) : res unit :=
  if Nat.ltb (dials h) k then busy else r.

(** A decoder that knows one document, the empty object. *)
Definition loads_empty_object (s : str) : res pyval :=
  if str_eqb s (lit "{}") then Ret (PyDict []) else Raise JSONDecodeError.

Definition fresh_world : World :=
  {| trace := []; userdata := new_CallState (lit "+919876543210") PrimFloat.zero |}.

Definition sample_job (m : pyval) : JobContext :=
  {| metadata := m; room_name := lit "room-1" |}.

(** What a retry loop that fails on each of its [n] attempts shows: every
    attempt, followed by a sleep of [2 ^ i] unless it was the last one. *)
Definition exhausted_schedule (n : Z) : list dial_step :=
  flat_map (fun i => if (i =? n - 1)%Z then [Attempted] else [Attempted; Slept (2 ^ i)])
           (range n).

(** What [k] failed attempts that are each retried show. *)
Definition retried_schedule (k : nat) : list dial_step :=
  flat_map (fun i => [Attempted; Slept (2 ^ i)]) (range (Z.of_nat k)).

(** Closes an equation between two worlds that differ by the bracketing of
    their histories. *)
Ltac same_world :=
  unfold extend, record; cbn [trace userdata];
  repeat rewrite <- app_assoc; cbn [app]; try rewrite app_nil_r; reflexivity.

(** ** sanitize_log_data

    Its two patterns use word boundaries, which look at the character before
    the position, so they get a matcher of their own that carries it. *)

Module Masking.

Inductive pitem :=
| PDigit                      (* \d *)
| PSpace                      (* \s *)
| PChar (c : ascii).          (* a literal *)

Inductive pattern :=
| PCls (items : list pitem)               (* a literal, an escape or [...] *)
| PCat (r1 r2 : pattern)
| PRep (r : pattern) (lo hi : nat)        (* r{lo,hi} and r? *)
| PWordB.                                 (* \b *)

Section Matcher.

Variable U : Unicode.tables.

(** Alphanumeric code points of 128 or more that are not decimal digits. *)
Variable alnum : char -> bool.

(** [\w] of a [str] pattern: alphanumeric or underscore. *)
Definition is_word (c : char) : bool :=
  if N.ltb c 128
  then (N.leb 48 c && N.leb c 57) || (N.leb 65 c && N.leb c 90)
       || (N.leb 97 c && N.leb c 122) || N.eqb c 95
  else Unicode.decimal U c || alnum c.

Definition pitem_has (i : pitem) (c : char) : bool :=
  match i with
  | PDigit => is_digit U c
  | PSpace => is_space U c
  | PChar a => N.eqb c (ch a)
  end.

Definition in_items (items : list pitem) (c : char) : bool :=
  existsb (fun i => pitem_has i c) items.

Definition word_before (prev : option char) : bool :=
  match prev with Some c => is_word c | None => false end.

Definition word_at (s : str) : bool :=
  match s with c :: _ => is_word c | [] => false end.

Section Cont.

Variable A : Type.

Definition pcont := option char -> str -> option A.

Fixpoint prep (m : option char -> str -> pcont -> option A) (hi lo : nat)
         (prev : option char) (s : str) (k : pcont) : option A :=
  match hi with
  | O => if Nat.eqb lo 0 then k prev s else None
  | S hi' =>
      orelse (m prev s (fun prev' s' => prep m hi' (pred lo) prev' s' k))
             (if Nat.eqb lo 0 then k prev s else None)
  end.

(** [pmatches r prev s k]: [r] matches a prefix of [s], which follows the
    character [prev] in the subject, and [k] accepts what follows. *)
Fixpoint pmatches (r : pattern) (prev : option char) (s : str) (k : pcont) : option A :=
  match r with
  | PCls items =>
      match s with
      | c :: s' => if in_items items c then k (Some c) s' else None
      | [] => None
      end
  | PCat r1 r2 => pmatches r1 prev s (fun prev' s' => pmatches r2 prev' s' k)
  | PRep r' lo hi => prep (pmatches r') hi lo prev s k
  | PWordB => if xorb (word_before prev) (word_at s) then k prev s else None
  end.

End Cont.

(** [re.sub(r, repl, s)] for a literal [repl]: scanning from the left, each
    match of [r] is replaced and the scan goes on after it. The source's
    patterns need nine digits or more to match; a position where [r] matches
    nothing, or only the empty string, keeps its character. *)
Fixpoint sub_replace (fuel : nat) (r : pattern) (repl : str)
         (prev : option char) (s : str) : str :=
  match fuel, s with
  | O, _ => s
  | _, [] => []
  | S fuel', c :: s' =>
      match pmatches r prev s (fun prev' rest => Some (prev', rest)) with
      | Some (prev', rest) =>
          if Nat.ltb (List.length rest) (List.length s)
          then repl ++ sub_replace fuel' r repl prev' rest
          else c :: sub_replace fuel' r repl (Some c) s'
      | None => c :: sub_replace fuel' r repl (Some c) s'
      end
  end.

Definition re_sub (r : pattern) (repl : str) (s : str) : str :=
  sub_replace (List.length s) r repl None s.

Definition digit4 : pattern := PRep (PCls [PDigit]) 4 4.
Definition separator : pattern := PRep (PCls [PChar "-"; PSpace]) 0 1.
Definition dash : pattern := PCls [PChar "-"].

(** [r"\b\d{4}[-\s]?\d{4}[-\s]?\d{4}[-\s]?\d{4}\b"] *)
Definition card_number : pattern :=
  PCat PWordB
    (PCat digit4 (PCat separator
       (PCat digit4 (PCat separator
          (PCat digit4 (PCat separator
             (PCat digit4 PWordB))))))).

(** [r"\b\d{3}-\d{2}-\d{4}\b"] *)
Definition social_security_number : pattern :=
  PCat PWordB
    (PCat (PRep (PCls [PDigit]) 3 3) (PCat dash
       (PCat (PRep (PCls [PDigit]) 2 2) (PCat dash
          (PCat digit4 PWordB))))).

(** [sanitize_log_data(data)] *)
Definition sanitize_log_data (data : str) : str :=
  match data with
  | [] => []
  | _ :: _ =>
      fold_left (fun data pr => re_sub (fst pr) (snd pr) data)
                [(card_number, lit "****-****-****-****");
                 (social_security_number, lit "***-**-****")]
                data
  end.

End Matcher.

(** Four ASCII digits. *)
Definition four_digits (g : str) : bool :=
  Nat.eqb (List.length g) 4 && forallb (fun c => N.leb 48 c && N.leb c 57) g.

(** Nothing, or one "-" or white-space character. *)
Definition optional_separator (U : Unicode.tables) (s : str) : bool :=
  match s with
  | [] => true
  | [c] => N.eqb c (ch "-") || is_space U c
  | _ => false
  end.

(** The least number of digits that a match of the pattern consumes. *)
Fixpoint min_digits (r : pattern) : nat :=
  match r with
  | PCls [PDigit] => 1
  | PCls _ => 0
  | PCat r1 r2 => min_digits r1 + min_digits r2
  | PRep r' lo _ => lo * min_digits r'
  | PWordB => 0
  end.

(** Whether every match of the pattern consumes a "-". *)
Fixpoint needs_dash (r : pattern) : bool :=
  match r with
  | PCls [PChar c] => N.eqb (ch c) (ch "-")
  | PCls _ => false
  | PCat r1 r2 => needs_dash r1 || needs_dash r2
  | PRep r' lo _ => negb (Nat.eqb lo 0) && needs_dash r'
  | PWordB => false
  end.

End Masking.

(** ** Start-up checks of agent.py *)

(** [os.getenv] once [load_dotenv] has run: the value of a variable, if it
    is set. *)
Definition environ := str -> option str.

Definition REQUIRED_ENV_VARS : list str :=
  [lit "LIVEKIT_API_KEY"; lit "LIVEKIT_API_SECRET"; lit "LIVEKIT_URL";
   lit "SIP_OUTBOUND_TRUNK_ID"].

(** [not os.getenv(v)]: unset, or set to the empty string. *)
Definition env_missing (getenv : environ) (v : str) : bool :=
  match getenv v with
  | Some (_ :: _) => false
  | _ => true
  end.

(** [sep.join(xs)] *)
Fixpoint join (sep : str) (xs : list str) : str :=
  match xs with
  | [] => []
  | [x] => x
  | x :: rest => x ++ sep ++ join sep rest
  end.

Definition ValueError (msg : str) : exn := OtherException (lit "ValueError") msg.

Definition missing_message (missing : list str) : str :=
  lit "Missing required environment variables: " ++ join (lit ", ") missing.

(** The one record that [validate_environment] logs. *)
Inductive startup_record :=
| LogEnvironmentValidated.     (* info: All required environment variables validated *)

(** [validate_environment()] of agent.py: the records it logs, unless it
    raises. *)
Definition validate_environment (getenv : environ) : res (list startup_record) :=
  let missing := filter (env_missing getenv) REQUIRED_ENV_VARS in
  match missing with
  | _ :: _ => Raise (ValueError (missing_message missing))
  | [] => Ret [LogEnvironmentValidated]
  end.

(** The two statements that follow the definition at module level:
    [validate_environment()] and
    [OUTBOUND_TRUNK_ID = os.getenv("SIP_OUTBOUND_TRUNK_ID")]. *)
Definition module_OUTBOUND_TRUNK_ID (getenv : environ) : res (option str) :=
  res_bind (validate_environment getenv)
           (fun _ => Ret (getenv (lit "SIP_OUTBOUND_TRUNK_ID"))).

(** ** call.py: the checks of the dispatching script *)

Module CallPy.

(** [r'^\+[1-9]\d{1,14}$'] *)
Definition number_pattern : regex :=
  Cat Bol (Cat (Chr "+") (Cat (Cls false [CRange "1" "9"]) (Cat (Rep Digit 1 14) Eol))).

(** [validate_phone_number(phone)] *)
Definition validate_phone_number (U : Unicode.tables) (phone : str) : bool :=
  re_match U number_pattern phone.

(** [d[key] = value] on a dict given by its items. *)
Fixpoint dict_set (d : list (str * str)) (key value : str) : list (str * str) :=
  match d with
  | [] => [(key, value)]
  | (k, v) :: rest =>
      if str_eqb k key then (k, value) :: rest else (k, v) :: dict_set rest key value
  end.

(** The loop of [validate_environment()]: [env_vars] and [missing_vars]
    after the given variables. *)
Fixpoint collect (getenv : environ) (vars : list str)
         (env_vars : list (str * str)) (missing_vars : list str)
  : list (str * str) * list str :=
  match vars with
  | [] => (env_vars, missing_vars)
  | var :: rest =>
      match getenv var with
      | Some (c :: value) =>
          collect getenv rest (dict_set env_vars var (c :: value)) missing_vars
      | _ => collect getenv rest env_vars (missing_vars ++ [var])
      end
  end.

(** [validate_environment()] of call.py *)
Definition validate_environment (getenv : environ) : res (list (str * str)) :=
  let (env_vars, missing_vars) := collect getenv REQUIRED_ENV_VARS [] [] in
  match missing_vars with
  | _ :: _ => Raise (ValueError (missing_message missing_vars))
  | [] => Ret env_vars
  end.

(** The [metadata_dict] that [create_payment_call] serialises for the
    agent, for the number [PHONE_NUMBER_TO_CALL] (a placeholder in the
    source, to be replaced) and the time stamp it read. *)
Definition metadata_dict (PHONE_NUMBER_TO_CALL : str) (timestamp : Z) : pyval :=
  PyDict [(lit "phoneNumber", PyStr PHONE_NUMBER_TO_CALL);
          (lit "callType", PyStr (lit "credit_card_payment"));
          (lit "company", PyStr (lit "SecureCard Financial Services"));
          (lit "agentName", PyStr (lit "John"));
          (lit "createdAt", PyInt timestamp);
          (lit "purpose", PyStr (lit "payment_collection"))].

End CallPy.

(** ** Further readings of a history *)

(** The hang-up as the room service and the clock see it. *)
Definition deletion_view (e : event) : option dial_step :=
  match e with
  | Call (DeleteRoom _) => Some Attempted
  | Call (Sleep secs) => Some (Slept secs)
  | _ => None
  end.

(** The requests of the SIP participant-creation calls made so far. *)
Definition sip_requests (h : history) : list CreateSIPParticipantRequest :=
  view (fun e => match e with
                 | Call (CreateSipParticipant r) => Some r
                 | _ => None
                 end) h.

(** The rooms of the room-deletion calls made so far. *)
Definition deleted_rooms (h : history) : list str :=
  view (fun e => match e with
                 | Call (DeleteRoom r) => Some r
                 | _ => None
                 end) h.

(** The room deletion raises on its first [k] invocations and then answers
    [r]. *)
Definition deletion_after (k : nat) (r : res unit) (h : history) : res unit :=
  if Nat.ltb (deletions h) k
  then Raise (OtherException (lit "ServerError") (lit "unreachable"))
  else r.

(** The collaborators [E] with another answer to the construction of the
    voice. *)
Definition with_tts (E : Env) (voice : history -> str -> option str -> res unit) : Env :=
  {| create_sip_participant := create_sip_participant E;
     get_job_context := get_job_context E;
     delete_room := delete_room E;
     wait_for_connection := wait_for_connection E;
     say := say E;
     listen := listen E;
     connect := connect E;
     vad_load := vad_load E;
     tts := voice;
     llm := llm E;
     stt := stt E;
     time := time E;
     session_start := session_start E;
     wait_for_participant := wait_for_participant E;
     session_task := session_task E;
     shutdown := shutdown E;
     json_loads := json_loads E;
     OUTBOUND_TRUNK_ID := OUTBOUND_TRUNK_ID E |}.

(** A voice that cannot be built with a voice id. *)
Definition voice_id_refused (h : history) (model : str) (voice : option str) : res unit :=
  match voice with
  | Some _ => Raise (OtherException (lit "APIError") (lit "unknown voice"))
  | None => Ret tt
  end.

(** * Properties *)

(** ** The matcher on digit runs *)

Section MatcherFacts.

Variable U : Unicode.tables.

Lemma in_class_Digit (c : char) : in_class U false [CDigit] c = is_digit U c.
Proof. unfold in_class; simpl. now rewrite orb_false_r. Qed.

Lemma forallb_Digit (s : str) :
  forallb (in_class U false [CDigit]) s = forallb (is_digit U) s.
Proof.
  induction s as [|c s IH]; [reflexivity|].
  cbn [forallb]. now rewrite in_class_Digit, IH.
Qed.

Lemma ascii_digit_is_digit (c : char) :
  (49 <= c)%N -> (c <= 57)%N -> is_digit U c = true.
Proof.
  intros Hlo Hhi. unfold is_digit.
  assert (Hlt : N.ltb c 128 = true) by (apply N.ltb_lt; lia).
  rewrite Hlt. apply andb_true_iff; split; apply N.leb_le; lia.
Qed.

Lemma plus_not_digit : is_digit U (ch "+") = false.
Proof. reflexivity. Qed.

Lemma matches_Cls_cons (A : Type) negated items pos c (s : str) (k : cont A) :
  matches U (Cls negated items) pos (c :: s) k
  = if in_class U negated items c then k (S pos) s else None.
Proof. reflexivity. Qed.

Lemma matches_Chr_cons (A : Type) a pos c (s : str) (k : cont A) :
  matches U (Chr a) pos (c :: s) k = if N.eqb c (ch a) then k (S pos) s else None.
Proof. reflexivity. Qed.

Lemma matches_Cat (A : Type) r1 r2 pos (s : str) (k : cont A) :
  matches U (Cat r1 r2) pos s k
  = matches U r1 pos s (fun pos' s' => matches U r2 pos' s' k).
Proof. reflexivity. Qed.

Lemma matches_Rep (A : Type) r lo hi pos (s : str) (k : cont A) :
  matches U (Rep r lo hi) pos s k = rep (matches U r) hi lo pos s k.
Proof. reflexivity. Qed.

Lemma matches_Bol_0 (A : Type) (s : str) (k : cont A) :
  matches U Bol 0 s k = k 0 s.
Proof. reflexivity. Qed.

(** A run of class members of an admissible length, reaching the end of the
    subject, is taken whole by a bounded repetition. *)
Lemma rep_class_all (A : Type) (negated : bool) (items : list citem) :
  forall (hi lo pos : nat) (a : str) (k : cont A) (x : A),
    forallb (in_class U negated items) a = true ->
    lo <= List.length a ->
    List.length a <= hi ->
    k (pos + List.length a) [] = Some x ->
    rep (matches U (Cls negated items)) hi lo pos a k = Some x.
Proof.
  induction hi as [|hi IH]; intros lo pos a k x Hall Hlo Hhi Hk.
  - destruct a as [|c a]; [|simpl in Hhi; lia].
    simpl in Hlo, Hk. assert (lo = 0) by lia; subst lo.
    simpl. now rewrite Nat.add_0_r in Hk.
  - destruct a as [|c a].
    + simpl in Hlo, Hk. assert (lo = 0) by lia; subst lo.
      simpl. now rewrite Nat.add_0_r in Hk.
    + simpl in Hall. apply andb_true_iff in Hall as [Hc Hall].
      cbn [rep]. rewrite matches_Cls_cons, Hc.
      rewrite (IH (pred lo) (S pos) a k x); simpl in *; try lia; auto.
      now rewrite <- Nat.add_succ_comm in Hk.
Qed.

(** Deleting the matches of a one-character class is a filter. *)
Lemma sub_delete_class (negated : bool) (items : list citem) :
  forall (fuel pos : nat) (s : str),
    List.length s <= fuel ->
    sub_delete U fuel (Cls negated items) pos s
    = filter (fun c => negb (in_class U negated items c)) s.
Proof.
  induction fuel as [|fuel IH]; intros pos s Hlen.
  - destruct s; [reflexivity | simpl in Hlen; lia].
  - destruct s as [|c s]; [reflexivity|].
    simpl in Hlen. cbn [sub_delete filter]. rewrite matches_Cls_cons.
    destruct (in_class U negated items c); simpl.
    + assert (Hlt : Nat.ltb pos (S pos) = true) by (apply Nat.ltb_lt; lia).
      rewrite Hlt. apply IH; lia.
    + f_equal. apply IH; lia.
Qed.

(** The first step of the normaliser keeps the digits and every "+". *)
Lemma strip_spec (s : str) :
  re_sub_delete U not_digit_or_plus s
  = filter (fun c => is_digit U c || N.eqb c (ch "+")) s.
Proof.
  unfold re_sub_delete, not_digit_or_plus.
  rewrite sub_delete_class by lia.
  apply filter_ext. intro c. unfold in_class. cbn [existsb citem_has].
  rewrite orb_false_r. now destruct (is_digit U c || N.eqb c (ch "+")).
Qed.

Lemma filter_all (A : Type) (p : A -> bool) (l : list A) :
  forallb p l = true -> filter p l = l.
Proof.
  induction l as [|x l IH]; simpl; [reflexivity|].
  intro H. apply andb_true_iff in H as [Hx Hl]. rewrite Hx. f_equal. auto.
Qed.

Lemma ten_digits_accepts (D : str) :
  List.length D = 10 -> forallb (is_digit U) D = true ->
  re_fullmatch U ten_digits D = true.
Proof.
  intros Hlen Hall. unfold re_fullmatch, ten_digits, Digit.
  rewrite matches_Rep.
  erewrite rep_class_all; [reflexivity | | lia | lia | reflexivity].
  now rewrite forallb_Digit.
Qed.

Lemma ten_digits_rejects_plus (s : str) :
  re_fullmatch U ten_digits (ch "+" :: s) = false.
Proof. reflexivity. Qed.

Lemma e164_accepts (d : char) (rest : str) :
  (49 <= d)%N -> (d <= 57)%N ->
  forallb (is_digit U) rest = true ->
  6 <= List.length rest -> List.length rest <= 14 ->
  re_match U e164 (ch "+" :: d :: rest) = true.
Proof.
  intros Hlo Hhi Hall Hmin Hmax. unfold re_match, e164, Digit.
  rewrite matches_Cat, matches_Bol_0, matches_Cat, matches_Chr_cons.
  change (N.eqb (ch "+") (ch "+")) with true. cbv iota.
  rewrite matches_Cat, matches_Cls_cons.
  assert (Hd : in_class U false [CRange "1" "9"] d = true).
  { unfold in_class; simpl. rewrite orb_false_r.
    apply andb_true_iff; split; apply N.leb_le; assumption. }
  rewrite Hd, matches_Cat, matches_Rep.
  erewrite rep_class_all; [reflexivity | | lia | lia | ].
  - now rewrite forallb_Digit.
  - reflexivity.
Qed.

End MatcherFacts.

(** ** The normaliser *)

Section NormalizeFacts.

Variable U : Unicode.tables.

Lemma normalize_nonempty (s : str) :
  s <> [] -> normalize_phone_number U (PyStr s) = Ret (normalize_str U s).
Proof. destruct s; [congruence | reflexivity]. Qed.

Lemma digits_survive (s : str) :
  forallb (is_digit U) s = true ->
  forallb (fun c => is_digit U c || N.eqb c (ch "+")) s = true.
Proof.
  induction s as [|c s IH]; [reflexivity|].
  cbn [forallb]. intro H. apply andb_true_iff in H as [Hc Hs].
  now rewrite Hc, IH.
Qed.

(** C6: a string of exactly ten digits is normalised to "+91" followed by
    that string. *)
Theorem normalize_ten_digits (D : str) :
  List.length D = 10 ->
  forallb (is_digit U) D = true ->
  normalize_phone_number U (PyStr D) = Ret (PyStr (lit "+91" ++ D)).
Proof.
  intros Hlen Hall.
  rewrite normalize_nonempty by (intro; subst; discriminate).
  unfold normalize_str.
  rewrite strip_spec, filter_all.
  - rewrite ten_digits_accepts by assumption.
    change (lit "+91" ++ D) with (ch "+" :: 57%N :: 49%N :: D).
    rewrite e164_accepts; try reflexivity; try lia.
    + cbn [forallb]. rewrite Hall. reflexivity.
    + simpl; lia.
    + simpl; lia.
  - now apply digits_survive.
Qed.

Lemma filter_digits_no_plus (s : str) :
  existsb (N.eqb (ch "+")) s = false ->
  filter (fun c => is_digit U c || N.eqb c (ch "+")) s = filter (is_digit U) s.
Proof.
  induction s as [|c s IH]; [reflexivity|].
  cbn [existsb filter]. intro H. apply orb_false_iff in H as [Hc Hs].
  rewrite N.eqb_sym in Hc. rewrite Hc, orb_false_r, IH by assumption.
  reflexivity.
Qed.

Lemma filter_digits_twice (s : str) :
  filter (fun c => is_digit U c || N.eqb c (ch "+")) (filter (is_digit U) s)
  = filter (is_digit U) s.
Proof.
  apply filter_all, digits_survive.
  induction s as [|c s IH]; [reflexivity|].
  cbn [filter]. destruct (is_digit U c) eqn:Hc; [|assumption].
  cbn [forallb]. now rewrite Hc, IH.
Qed.

(** C7, as the code has it: the first step keeps the digits and every "+",
    wherever it stands; hence an input without any "+" is normalised like
    its digits alone. *)
Theorem strip_keeps_every_plus (s : str) :
  re_sub_delete U not_digit_or_plus s
  = filter (fun c => is_digit U c || N.eqb c (ch "+")) s
  /\ (existsb (N.eqb (ch "+")) s = false ->
      normalize_phone_number U (PyStr s)
      = normalize_phone_number U (PyStr (filter (is_digit U) s))).
Proof.
  split; [apply strip_spec|]. intro Hplus.
  destruct s as [|c s]; [reflexivity|].
  rewrite normalize_nonempty by discriminate.
  remember (c :: s) as t eqn:Ht. clear Ht.
  destruct (filter (is_digit U) t) as [|d ds] eqn:Hd.
  - unfold normalize_str.
    rewrite strip_spec, filter_digits_no_plus, Hd by assumption.
    reflexivity.
  - rewrite normalize_nonempty by discriminate.
    unfold normalize_str.
    rewrite !strip_spec, <- Hd, filter_digits_twice, filter_digits_no_plus
      by assumption.
    reflexivity.
Qed.

(** C8: on a string of the E.164 shape the normaliser returns the string
    itself, so normalising its result again changes nothing. *)
Theorem normalize_idempotent_on_e164 (s : str) :
  e164_shape U s = true ->
  res_bind (normalize_phone_number U (PyStr s)) (normalize_phone_number U)
  = normalize_phone_number U (PyStr s)
  /\ normalize_phone_number U (PyStr s) = Ret (PyStr s).
Proof.
  intro Hshape.
  assert (Hfix : normalize_phone_number U (PyStr s) = Ret (PyStr s)).
  { destruct s as [|p [|d rest]]; try discriminate.
    cbn [e164_shape] in Hshape.
    repeat match goal with
           | H : _ && _ = true |- _ => apply andb_true_iff in H; destruct H
           end.
    match goal with H : N.eqb p _ = true |- _ => apply N.eqb_eq in H; subst p end.
    repeat match goal with
           | H : N.leb _ _ = true |- _ => apply N.leb_le in H
           | H : Nat.leb _ _ = true |- _ => apply Nat.leb_le in H
           end.
    change (ch "1") with 49%N in *. change (ch "9") with 57%N in *.
    rewrite normalize_nonempty by discriminate.
    unfold normalize_str.
    rewrite strip_spec, filter_all.
    - rewrite ten_digits_rejects_plus.
      change (startswith (ch "+" :: d :: rest) (lit "+")) with true.
      cbn [negb].
      now rewrite e164_accepts.
    - cbn [forallb]. rewrite plus_not_digit.
      rewrite ascii_digit_is_digit by assumption.
      now rewrite digits_survive. }
  split; [|exact Hfix].
  rewrite Hfix. exact Hfix.
Qed.

End NormalizeFacts.

Lemma normalize_ten_digits_witness :
  List.length (lit "9876543210") = 10
  /\ normalize_phone_number Unicode.sample (PyStr (lit "9876543210"))
     = Ret (PyStr (lit "+919876543210")).
Proof.
  split; [reflexivity|].
  apply (normalize_ten_digits Unicode.sample (lit "9876543210")); reflexivity.
Defined.

(** A ten-digit number followed by a stray "+": the "+" survives the first
    step, the number is rejected, and its digits alone are accepted. *)
Lemma stray_plus_is_kept :
  let s := lit "9876543210+" in
  re_sub_delete Unicode.ascii_only not_digit_or_plus s = s
  /\ normalize_phone_number Unicode.ascii_only (PyStr s) = Ret PyNone
  /\ normalize_phone_number Unicode.ascii_only
       (PyStr (filter (is_digit Unicode.ascii_only) s))
     = Ret (PyStr (lit "+919876543210"))
  /\ normalize_phone_number Unicode.ascii_only (PyStr s)
     <> normalize_phone_number Unicode.ascii_only
          (PyStr (filter (is_digit Unicode.ascii_only) s)).
Proof.
  repeat split; try reflexivity. vm_compute. discriminate.
Qed.

Lemma strip_keeps_every_plus_witness :
  normalize_phone_number Unicode.ascii_only (PyStr (lit "98765 432-10"))
  = normalize_phone_number Unicode.ascii_only (PyStr (lit "9876543210")).
Proof.
  apply (proj2 (strip_keeps_every_plus Unicode.ascii_only (lit "98765 432-10"))).
  reflexivity.
Defined.

Lemma normalize_idempotent_on_e164_witness :
  res_bind (normalize_phone_number Unicode.ascii_only (PyStr (lit "+14155552671")))
           (normalize_phone_number Unicode.ascii_only)
  = normalize_phone_number Unicode.ascii_only (PyStr (lit "+14155552671")).
Proof.
  apply (proj1 (normalize_idempotent_on_e164 Unicode.ascii_only (lit "+14155552671")
                  eq_refl)).
Defined.

(** ** Histories *)

Lemma view_app (A : Type) (f : event -> option A) (h1 h2 : history) :
  view f (h1 ++ h2) = view f h1 ++ view f h2.
Proof.
  induction h1 as [|e h1 IH]; [reflexivity|].
  cbn [app view]. destruct (f e); cbn [app]; now rewrite IH.
Qed.

Lemma extend_extend (w : World) (a b : history) :
  extend (extend w a) b = extend w (a ++ b).
Proof. same_world. Qed.

Lemma dials_app (h1 h2 : history) : dials (h1 ++ h2) = dials h1 + dials h2.
Proof. unfold dials. now rewrite view_app, length_app. Qed.

Lemma range_of_nat (k : nat) : range (Z.of_nat k) = map Z.of_nat (seq 0 k).
Proof. unfold range. now rewrite Nat2Z.id. Qed.

(** ** The dial loop *)

Section Dial.

Variable E : Env.
Variable ctx : JobContext.
Variable phone : str.
Variable n : Z.

Local Abbreviation req := (sip_request E ctx phone).
Local Abbreviation dialing i := (Log (LogDialing phone (i + 1))).

(** The three ways one turn of the loop can go. *)
Lemma dial_attempt_outcome (i : Z) (w : World) :
  dial_attempt E ctx phone n i w =
  match create_sip_participant E (trace w ++ [dialing i]) req with
  | Ret _ =>
      (Ret (Some tt), extend w [dialing i; Call (CreateSipParticipant req); Log LogSipConnected])
  | Raise (TwirpError c m) =>
      (Ret None,
       extend w ([dialing i; Call (CreateSipParticipant req); Log (LogSipFailed (i + 1) m)]
                 ++ if (i <? n - 1)%Z then [Call (Sleep (2 ^ i))] else []))
  | Raise e =>
      (Raise e, extend w [dialing i; Call (CreateSipParticipant req)])
  end.
Proof.
  unfold dial_attempt, try_except, bind, log, ask, ret, when, sleep.
  cbn [trace record].
  destruct (create_sip_participant E (trace w ++ [dialing i]) req) as [[]|e].
  - f_equal. same_world.
  - destruct e; cbn [is_TwirpError]; try (f_equal; same_world).
    destruct (i <? n - 1)%Z; f_equal; same_world.
Qed.

Lemma dials_dialing (i : Z) (w : World) : dials (trace w ++ [dialing i]) = dials (trace w).
Proof. rewrite dials_app. cbn. lia. Qed.

(** The first [j] turns, when each of them meets a [TwirpError] and at
    least one more turn is left: each is followed by its sleep, and the loop
    goes on with the remaining turns. *)
Lemma dial_failures_prefix :
  forall (j a len : nat) (w : World) (after : M unit),
    j < len ->
    Z.of_nat (a + len) = n ->
    (forall h, dials h < dials (trace w) + j ->
               exists c m, create_sip_participant E h req = Raise (TwirpError c m)) ->
    exists w1,
      for_each (map Z.of_nat (seq a len)) (dial_attempt E ctx phone n) after w
      = for_each (map Z.of_nat (seq (a + j) (len - j))) (dial_attempt E ctx phone n) after w1
      /\ view dial_view (trace w1)
         = view dial_view (trace w)
           ++ flat_map (fun i => [Attempted; Slept (2 ^ i)]) (map Z.of_nat (seq a j))
      /\ dials (trace w1) = dials (trace w) + j.
Proof.
  induction j as [|j IH]; intros a len w after Hj Hn Hfail.
  - exists w. rewrite !Nat.add_0_r, Nat.sub_0_r, app_nil_r. auto.
  - destruct len as [|len]; [lia|].
    destruct (Hfail (trace w ++ [dialing (Z.of_nat a)])) as (c & m & Hc).
    { rewrite dials_dialing. lia. }
    assert (Hlt : (Z.of_nat a <? n - 1)%Z = true) by (apply Z.ltb_lt; lia).
    cbn [seq map for_each]. unfold bind at 1.
    rewrite dial_attempt_outcome, Hc, Hlt.
    match goal with |- context [for_each _ _ _ ?w2] => set (w2' := w2) end.
    destruct (IH (S a) len w2' after) as (w1 & Hrun & Hview & Hdials).
    + lia.
    + rewrite <- Hn. f_equal. lia.
    + intros h Hh. apply Hfail.
      subst w2'. cbn [extend trace] in Hh. rewrite dials_app in Hh. cbn in Hh. lia.
    + exists w1. split; [|split].
      * rewrite Hrun. replace (a + S j) with (S a + j) by lia. reflexivity.
      * rewrite Hview. subst w2'. cbn [extend trace].
        rewrite view_app, <- app_assoc. reflexivity.
      * rewrite Hdials. subst w2'. cbn [extend trace]. rewrite dials_app. cbn. lia.
Qed.

(** Every turn meets a [TwirpError]. *)
Lemma dial_all_fail :
  forall (len a : nat) (w : World),
    Z.of_nat (a + len) = n ->
    (forall h, exists c m, create_sip_participant E h req = Raise (TwirpError c m)) ->
    exists w',
      for_each (map Z.of_nat (seq a len)) (dial_attempt E ctx phone n) (raise dial_failure) w
      = (Raise dial_failure, w')
      /\ view dial_view (trace w')
         = view dial_view (trace w)
           ++ flat_map (fun i => if (i =? n - 1)%Z then [Attempted]
                                 else [Attempted; Slept (2 ^ i)])
                       (map Z.of_nat (seq a len))
      /\ dials (trace w') = dials (trace w) + len.
Proof.
  induction len as [|len IH]; intros a w Hn Hfail.
  - exists w. cbn. rewrite app_nil_r. auto.
  - destruct (Hfail (trace w ++ [dialing (Z.of_nat a)])) as (c & m & Hc).
    cbn [seq map for_each]. unfold bind at 1.
    rewrite dial_attempt_outcome, Hc.
    match goal with |- context [for_each _ _ _ ?w2] => set (w2' := w2) end.
    destruct (IH (S a) w2') as (w' & Hrun & Hview & Hdials); [lia | assumption |].
    exists w'. split; [exact Hrun | split].
    + rewrite Hview. subst w2'. cbn [extend trace flat_map].
      rewrite view_app, <- app_assoc. f_equal.
      destruct (Z.ltb_spec (Z.of_nat a) (n - 1)), (Z.eqb_spec (Z.of_nat a) (n - 1));
        try lia; reflexivity.
    + rewrite Hdials. subst w2'. cbn [extend trace]. rewrite dials_app.
      destruct (Z.of_nat a <? n - 1)%Z; cbn; lia.
Qed.

Lemma exhausted_schedule_eq :
  exhausted_schedule n
  = flat_map (fun i => if (i =? n - 1)%Z then [Attempted] else [Attempted; Slept (2 ^ i)])
             (map Z.of_nat (seq 0 (Z.to_nat n))).
Proof. reflexivity. Qed.

(** The loop reaches turn [k] when the turns before it each met a
    [TwirpError]. *)
Lemma dial_reaches_turn (w : World) (k : nat) :
  (Z.of_nat k < n)%Z ->
  (forall h, dials h < dials (trace w) + k ->
             exists c m, create_sip_participant E h req = Raise (TwirpError c m)) ->
  exists w1 rest,
    create_sip_participant_with_retry E ctx phone n w
    = (r <- dial_attempt E ctx phone n (Z.of_nat k) ;;
       match r with
       | Some v => ret v
       | None => for_each rest (dial_attempt E ctx phone n) (raise dial_failure)
       end) w1
    /\ view dial_view (trace w1) = view dial_view (trace w) ++ retried_schedule k
    /\ dials (trace w1) = dials (trace w) + k.
Proof.
  intros Hk Hfail.
  destruct (@dial_failures_prefix k 0 (Z.to_nat n) w (raise dial_failure)) as (w1 & Hrun & Hview & Hdials);
    [lia | cbn [Nat.add]; lia | exact Hfail |].
  destruct (Z.to_nat n - k) as [|m] eqn:Hm; [lia|].
  cbn [Nat.add seq map for_each] in Hrun.
  exists w1, (map Z.of_nat (seq (S k) m)). split; [exact Hrun | split].
  - rewrite Hview. unfold retried_schedule. now rewrite range_of_nat.
  - exact Hdials.
Qed.

(** C1: when every invocation meets a [TwirpError], the operation is invoked
    [n] times, the loop sleeps [2 ^ i] after attempt [i] unless it was the
    last, and the terminal [RuntimeError] is raised; when attempt [k] is the
    first to succeed, the loop returns at once after [k + 1]
    invocations. *)
Theorem dial_retries_then_fails (w : World) :
  (0 <= n)%Z ->
  ((forall h, exists c m,
       create_sip_participant E h (sip_request E ctx phone) = Raise (TwirpError c m)) ->
   exists w',
     create_sip_participant_with_retry E ctx phone n w
     = (Raise (RuntimeError (lit "Failed to connect SIP participant after retries.")), w')
     /\ Z.of_nat (dials (trace w')) = (Z.of_nat (dials (trace w)) + n)%Z
     /\ view dial_view (trace w') = view dial_view (trace w) ++ exhausted_schedule n)
  /\ (forall k : nat,
        (Z.of_nat k < n)%Z ->
        (forall h, dials h < dials (trace w) + k ->
                   exists c m,
                     create_sip_participant E h (sip_request E ctx phone)
                     = Raise (TwirpError c m)) ->
        (forall h, dials h = dials (trace w) + k ->
                   create_sip_participant E h (sip_request E ctx phone) = Ret tt) ->
        exists w',
          create_sip_participant_with_retry E ctx phone n w = (Ret tt, w')
          /\ dials (trace w') = dials (trace w) + k + 1
          /\ view dial_view (trace w')
             = view dial_view (trace w) ++ retried_schedule k ++ [Attempted]).
Proof.
  intro Hn. split.
  - intro Hfail.
    destruct (@dial_all_fail (Z.to_nat n) 0 w) as (w' & Hrun & Hview & Hdials);
      [cbn [Nat.add]; lia | exact Hfail |].
    exists w'. split; [exact Hrun | split].
    + rewrite Hdials. lia.
    + rewrite Hview. reflexivity.
  - intros k Hk Hfail Hok.
    destruct (@dial_reaches_turn w k Hk Hfail) as (w1 & rest & Hrun & Hview & Hdials).
    rewrite Hrun. unfold bind at 1.
    rewrite dial_attempt_outcome, Hok by (rewrite dials_dialing; lia).
    eexists. split; [reflexivity | split].
    + cbn [extend trace]. rewrite dials_app, Hdials. cbn. lia.
    + cbn [extend trace]. rewrite view_app, Hview, <- app_assoc. reflexivity.
Qed.

(** C10: an exception of another class than [TwirpError], met at attempt
    [k], leaves the loop at once: it is the outcome of the whole call, the
    failed invocation is the last event, and no attempt or sleep follows. *)
Theorem dial_other_exception_propagates (w : World) (k : nat) (e : exn) :
  (Z.of_nat k < n)%Z ->
  is_TwirpError e = false ->
  (forall h, dials h < dials (trace w) + k ->
             exists c m,
               create_sip_participant E h (sip_request E ctx phone)
               = Raise (TwirpError c m)) ->
  (forall h, dials h = dials (trace w) + k ->
             create_sip_participant E h (sip_request E ctx phone) = Raise e) ->
  exists w',
    create_sip_participant_with_retry E ctx phone n w = (Raise e, w')
    /\ dials (trace w') = dials (trace w) + k + 1
    /\ view dial_view (trace w')
       = view dial_view (trace w) ++ retried_schedule k ++ [Attempted]
    /\ exists before,
         trace w' = before ++ [Call (CreateSipParticipant (sip_request E ctx phone))].
Proof.
  intros Hk He Hfail Hraise.
  destruct (@dial_reaches_turn w k Hk Hfail) as (w1 & rest & Hrun & Hview & Hdials).
  rewrite Hrun. unfold bind at 1.
  rewrite dial_attempt_outcome, Hraise by (rewrite dials_dialing; lia).
  destruct e; try discriminate He;
    (eexists; split; [reflexivity | split; [|split]];
     [ cbn [extend trace]; rewrite dials_app, Hdials; cbn; lia
     | cbn [extend trace]; rewrite view_app, Hview, <- app_assoc; reflexivity
     | exists (trace w1 ++ [dialing (Z.of_nat k)]);
       cbn [extend trace]; rewrite <- app_assoc; reflexivity ]).
Qed.

End Dial.

Lemma dial_retries_then_fails_witness :
  (exists w',
      create_sip_participant_with_retry
        (scripted_env (fun _ => busy) (fun _ => Ret tt) (Ret None) loads_empty_object)
        (sample_job PyNone) (lit "+919876543210") 3 fresh_world
      = (Raise (RuntimeError (lit "Failed to connect SIP participant after retries.")), w')
      /\ view dial_view (trace w') = [Attempted; Slept 1; Attempted; Slept 2; Attempted])
  /\ (exists w',
        create_sip_participant_with_retry
          (scripted_env (sip_after 1 (Ret tt)) (fun _ => Ret tt) (Ret None) loads_empty_object)
          (sample_job PyNone) (lit "+919876543210") 3 fresh_world
        = (Ret tt, w')
        /\ view dial_view (trace w') = [Attempted; Slept 1; Attempted]).
Proof.
  split.
  - destruct (@dial_retries_then_fails
                (scripted_env (fun _ => busy) (fun _ => Ret tt) (Ret None) loads_empty_object)
                (sample_job PyNone) (lit "+919876543210") 3 fresh_world)
      as [Hall _]; [lia|].
    destruct Hall as (w' & Hrun & _ & Hview).
    + intro h. eexists. eexists. reflexivity.
    + exists w'. split; [exact Hrun | exact Hview].
  - destruct (@dial_retries_then_fails
                (scripted_env (sip_after 1 (Ret tt)) (fun _ => Ret tt) (Ret None)
                   loads_empty_object)
                (sample_job PyNone) (lit "+919876543210") 3 fresh_world)
      as [_ Hfirst]; [lia|].
    destruct (Hfirst 1) as (w' & Hrun & _ & Hview).
    + lia.
    + intros h Hh. cbn in Hh. cbn [scripted_env create_sip_participant]. unfold sip_after.
      apply Nat.ltb_lt in Hh. rewrite Hh. eexists. eexists. reflexivity.
    + intros h Hh. cbn in Hh. cbn [scripted_env create_sip_participant]. unfold sip_after.
      rewrite Hh. reflexivity.
    + exists w'. split; [exact Hrun | exact Hview].
Defined.

Lemma dial_other_exception_propagates_witness :
  exists w',
    create_sip_participant_with_retry
      (scripted_env (sip_after 1 (Raise (OtherException (lit "ConnectionError") (lit "reset"))))
         (fun _ => Ret tt) (Ret None) loads_empty_object)
      (sample_job PyNone) (lit "+919876543210") 3 fresh_world
    = (Raise (OtherException (lit "ConnectionError") (lit "reset")), w')
    /\ view dial_view (trace w') = [Attempted; Slept 1; Attempted].
Proof.
  destruct (@dial_other_exception_propagates
              (scripted_env
                 (sip_after 1 (Raise (OtherException (lit "ConnectionError") (lit "reset"))))
                 (fun _ => Ret tt) (Ret None) loads_empty_object)
              (sample_job PyNone) (lit "+919876543210") 3 fresh_world 1
              (OtherException (lit "ConnectionError") (lit "reset")))
    as (w' & Hrun & _ & Hview & _).
  - lia.
  - reflexivity.
  - intros h Hh. cbn in Hh. cbn [scripted_env create_sip_participant]. unfold sip_after.
    apply Nat.ltb_lt in Hh. rewrite Hh. eexists. eexists. reflexivity.
  - intros h Hh. cbn in Hh. cbn [scripted_env create_sip_participant]. unfold sip_after.
    rewrite Hh. reflexivity.
  - exists w'. split; [exact Hrun | exact Hview].
Defined.

(** ** Quiet computations *)

Section Quiet.

Variable B : Type.
Variable f : event -> option B.

Lemma extend_nil (w : World) : extend w [] = w.
Proof. destruct w. same_world. Qed.

Lemma quiet_ret (A : Type) (a : A) : quiet f (ret a).
Proof. intro w. exists []. split; [symmetry; apply extend_nil | reflexivity]. Qed.

Lemma quiet_raise (A : Type) (e : exn) : quiet f (@raise A e).
Proof. intro w. exists []. split; [symmetry; apply extend_nil | reflexivity]. Qed.

Lemma quiet_lift (A : Type) (r : res A) : quiet f (lift r).
Proof. intro w. exists []. split; [symmetry; apply extend_nil | reflexivity]. Qed.

Lemma quiet_log (l : logrec) : f (Log l) = None -> quiet f (log l).
Proof. intros H w. exists [Log l]. split; [reflexivity | cbn; now rewrite H]. Qed.

Lemma quiet_ask (A : Type) (c : call) (oracle : history -> res A) :
  f (Call c) = None -> quiet f (ask c oracle).
Proof. intros H w. exists [Call c]. split; [reflexivity | cbn; now rewrite H]. Qed.

Lemma quiet_sleep (secs : Z) : f (Call (Sleep secs)) = None -> quiet f (sleep secs).
Proof. intros H w. exists [Call (Sleep secs)]. split; [reflexivity | cbn; now rewrite H]. Qed.

Lemma quiet_bind (A C : Type) (m : M A) (k : A -> M C) :
  quiet f m -> (forall a, quiet f (k a)) -> quiet f (bind m k).
Proof.
  intros Hm Hk w. unfold bind.
  destruct (Hm w) as (new1 & Hw1 & Hv1).
  destruct (m w) as [[a|e] w1]; cbn [snd] in *; subst w1.
  - destruct (Hk a (extend w new1)) as (new2 & Hw2 & Hv2).
    exists (new1 ++ new2). rewrite Hw2, extend_extend, view_app, Hv1, Hv2. auto.
  - exists new1. auto.
Qed.

Lemma quiet_try_except (A : Type) (body : M A) (caught : exn -> bool)
      (handler : exn -> M A) :
  quiet f body -> (forall e, quiet f (handler e)) -> quiet f (try_except body caught handler).
Proof.
  intros Hb Hh w. unfold try_except.
  destruct (Hb w) as (new1 & Hw1 & Hv1).
  destruct (body w) as [[a|e] w1]; cbn [snd] in *; subst w1.
  - exists new1. auto.
  - destruct (caught e).
    + destruct (Hh e (extend w new1)) as (new2 & Hw2 & Hv2).
      exists (new1 ++ new2). rewrite Hw2, extend_extend, view_app, Hv1, Hv2. auto.
    + exists new1. auto.
Qed.

Lemma quiet_when (b : bool) (m : M unit) : quiet f m -> quiet f (when b m).
Proof. destruct b; [auto | intros _; apply quiet_ret]. Qed.

Lemma quiet_for_each (A : Type) (idxs : list Z) (body : Z -> M (option A)) (after : M A) :
  (forall i, quiet f (body i)) -> quiet f after -> quiet f (for_each idxs body after).
Proof.
  intros Hb Ha. induction idxs as [|i idxs IH]; [exact Ha|].
  cbn [for_each]. apply quiet_bind; [apply Hb|].
  intros [v|]; [apply quiet_ret | exact IH].
Qed.

End Quiet.

(** ** The hang-up loop *)

Section Hangup.

Variable E : Env.
Variable n : Z.

(** The three ways one turn of the loop can go; none of them raises. *)
Lemma hangup_attempt_outcome (i : Z) (w : World) :
  hangup_attempt E n i w =
  let pause := if (i <? n - 1)%Z then [Call (Sleep (2 ^ i))] else [] in
  match get_job_context E (trace w) with
  | Ret job_ctx =>
      let room := room_name job_ctx in
      match delete_room E (trace w ++ [Call GetJobContext]) room with
      | Ret _ =>
          (Ret (Some tt),
           extend w [Call GetJobContext; Call (DeleteRoom room); Log LogHangupOk])
      | Raise e =>
          (Ret None,
           extend w ([Call GetJobContext; Call (DeleteRoom room);
                      Log (LogHangupError (i + 1) e)] ++ pause))
      end
  | Raise e =>
      (Ret None, extend w ([Call GetJobContext; Log (LogHangupError (i + 1) e)] ++ pause))
  end.
Proof.
  unfold hangup_attempt, try_except, bind, log, ask, ret, when, sleep.
  cbn [trace record].
  destruct (get_job_context E (trace w)) as [job_ctx|e].
  - destruct (delete_room E (trace w ++ [Call GetJobContext]) (room_name job_ctx)) as [[]|e].
    + f_equal. same_world.
    + cbn [trace record]. destruct (i <? n - 1)%Z; f_equal; same_world.
  - cbn [trace record]. destruct (i <? n - 1)%Z; f_equal; same_world.
Qed.

Lemma hangup_loop_returns (idxs : list Z) :
  forall w, exists w', for_each idxs (hangup_attempt E n) (log LogHangupFailed) w = (Ret tt, w').
Proof.
  induction idxs as [|i idxs IH]; intro w.
  - eexists. reflexivity.
  - cbn [for_each]. unfold bind at 1. rewrite hangup_attempt_outcome. cbv zeta.
    destruct (get_job_context E (trace w)) as [job_ctx|e].
    + destruct (delete_room E _ (room_name job_ctx)) as [[]|e].
      * eexists. reflexivity.
      * apply IH.
    + apply IH.
Qed.

Lemma hangup_loop_exhausted (idxs : list Z) :
  (forall h room, exists e, delete_room E h room = Raise e) ->
  forall w, exists new,
    for_each idxs (hangup_attempt E n) (log LogHangupFailed) w
    = (Ret tt, extend w (new ++ [Log LogHangupFailed]))
    /\ deletions new <= List.length idxs.
Proof.
  intro Hfail. induction idxs as [|i idxs IH]; intro w.
  - exists []. split; [reflexivity | cbn; lia].
  - cbn [for_each]. unfold bind at 1. rewrite hangup_attempt_outcome. cbv zeta.
    destruct (get_job_context E (trace w)) as [job_ctx|e].
    + destruct (Hfail (trace w ++ [Call GetJobContext]) (room_name job_ctx)) as (e & He).
      rewrite He.
      match goal with |- context [for_each _ _ _ ?w2] => destruct (IH w2) as (new & Hrun & Hcount) end.
      rewrite Hrun, extend_extend.
      eexists. split; [rewrite app_assoc; reflexivity|].
      unfold deletions in *. rewrite view_app, length_app.
      destruct (i <? n - 1)%Z; cbn in *; lia.
    + match goal with |- context [for_each _ _ _ ?w2] => destruct (IH w2) as (new & Hrun & Hcount) end.
      rewrite Hrun, extend_extend.
      eexists. split; [rewrite app_assoc; reflexivity|].
      unfold deletions in *. rewrite view_app, length_app.
      destruct (i <? n - 1)%Z; cbn in *; lia.
Qed.

(** C2: whatever the room deletion does, the hang-up returns normally; when
    the deletion raises each time, the last thing it does is to log the
    final failure. *)
Theorem hangup_never_raises (w : World) :
  (exists w', hangup_call_with_retry E n w = (Ret tt, w'))
  /\ ((forall h room, exists e, delete_room E h room = Raise e) ->
      exists new,
        hangup_call_with_retry E n w = (Ret tt, extend w (new ++ [Log LogHangupFailed]))).
Proof.
  split.
  - apply hangup_loop_returns.
  - intro Hfail.
    destruct (hangup_loop_exhausted (range n) Hfail w) as (new & Hrun & _).
    exists new. exact Hrun.
Qed.

Lemma hangup_quiet (B : Type) (f : event -> option B) :
  (forall l, f (Log l) = None) ->
  f (Call GetJobContext) = None ->
  (forall room, f (Call (DeleteRoom room)) = None) ->
  (forall secs, f (Call (Sleep secs)) = None) ->
  quiet f (hangup_call_with_retry E n).
Proof.
  intros Hlog Hget Hdel Hsleep.
  apply quiet_for_each; [|apply quiet_log, Hlog].
  intro i. apply quiet_try_except.
  - apply quiet_bind; [apply quiet_ask, Hget|]. intro job_ctx.
    apply quiet_bind; [apply quiet_ask, Hdel|]. intros _.
    apply quiet_bind; [apply quiet_log, Hlog|]. intros _. apply quiet_ret.
  - intro e. apply quiet_bind; [apply quiet_log, Hlog|]. intros _.
    apply quiet_bind; [apply quiet_when, quiet_sleep, Hsleep|]. intros _. apply quiet_ret.
Qed.

End Hangup.

Lemma hangup_never_raises_witness :
  exists new,
    hangup_call_with_retry
      (scripted_env (fun _ => Ret tt)
         (fun _ => Raise (OtherException (lit "ServerError") (lit "unreachable")))
         (Ret None) loads_empty_object)
      3 fresh_world
    = (Ret tt, extend fresh_world (new ++ [Log LogHangupFailed])).
Proof.
  apply (proj2 (@hangup_never_raises
                  (scripted_env (fun _ => Ret tt)
                     (fun _ => Raise (OtherException (lit "ServerError") (lit "unreachable")))
                     (Ret None) loads_empty_object)
                  3 fresh_world)).
  intros h room. eexists. reflexivity.
Defined.

(** ** The greeting dialogue *)

Section Dialogue.

Variable U : Unicode.tables.
Variable E : Env.

Lemma hangup_run (n : Z) (w : World) :
  exists new,
    hangup_call_with_retry E n w = (Ret tt, extend w new)
    /\ view dialogue_view new = [].
Proof.
  destruct (hangup_loop_returns E n (range n) w) as (w' & Hrun).
  destruct (@hangup_quiet E n turn dialogue_view) with (w := w) as (new & Hw & Hview);
    try reflexivity.
  exists new. split; [|exact Hview].
  unfold hangup_call_with_retry in *. rewrite Hrun in *. cbn [snd] in Hw. now subst.
Qed.

(** The reply that [on_start] picks for what [listen] returned. *)
Lemma on_start_run (w : World) (o : option UserResponse) :
  (forall h, wait_for_connection E h = Ret tt) ->
  (forall h u, say E h u = Ret tt) ->
  (forall h, listen E h 10 = Ret o) ->
  exists new,
    on_start U E w
    = (Ret tt,
       {| trace := trace w ++ new;
          userdata := set_interaction_count (interaction_count (userdata w) + 1)
                                            (userdata w) |})
    /\ view dialogue_view new
       = [Said greeting; Listened 10;
          Said match o with
               | Some r =>
                   match text r with
                   | [] => reply_silence
                   | _ :: _ =>
                       if contains (lower U (text r)) (lit "yes") then reply_yes
                       else if contains (lower U (text r)) (lit "no") then reply_no
                       else reply_unclear
                   end
               | None => reply_silence
               end].
Proof.
  intros Hwait Hsay Hlisten.
  unfold on_start, speak, bind, log, ask, modify_userdata, sleep.
  cbn [trace userdata record]. rewrite Hwait. cbn [trace userdata record].
  rewrite Hsay. cbn [trace userdata record]. rewrite Hlisten.
  assert (Hfinish : forall (u : str) (w0 : World),
             exists new2,
               (let (r, w') := (say E (trace w0) u, record (Call (Say u)) w0) in
                match r with
                | Ret _ => hangup_call_with_retry E 3 (record (Call (Sleep 2)) w')
                | Raise e => (Raise e, w')
                end)
               = (Ret tt, extend w0 ([Call (Say u); Call (Sleep 2)] ++ new2))
               /\ view dialogue_view new2 = []).
  { intros u w0. rewrite Hsay.
    destruct (hangup_run 3 (record (Call (Sleep 2)) (record (Call (Say u)) w0)))
      as (new2 & Hrun & Hview).
    exists new2. rewrite Hrun. split; [f_equal; same_world | exact Hview]. }
  destruct o as [[[|c t]]|]; cbn [text truthy];
    [ | destruct (contains (lower U (c :: t)) (lit "yes"));
        [ | destruct (contains (lower U (c :: t)) (lit "no")) ] | ];
    match goal with
    | |- context [say E (trace ?w0) ?u] =>
        destruct (Hfinish u w0) as (new2 & Hrun & Hview)
    end;
    rewrite Hrun;
    (eexists; split;
     [ f_equal; unfold extend, record; cbn [trace userdata];
       repeat rewrite <- app_assoc; reflexivity
     | repeat rewrite view_app; rewrite Hview; reflexivity ]).
Qed.

(** C4: a non-empty reply is answered by the keywords it contains, "yes"
    before "no", and a listen that times out by the message of its own. *)
Theorem reply_follows_keywords (w : World) :
  (forall h, wait_for_connection E h = Ret tt) ->
  (forall h u, say E h u = Ret tt) ->
  let heard := fun w' => view dialogue_view (trace w') in
  (forall r : UserResponse,
     text r <> [] ->
     (forall h, listen E h 10 = Ret (Some r)) ->
     let reply := lower U (text r) in
     let w' := snd (on_start U E w) in
     (contains reply (lit "yes") = true ->
      heard w' = heard w ++ [Said greeting; Listened 10; Said reply_yes])
     /\ (contains reply (lit "yes") = false ->
         contains reply (lit "no") = true ->
         heard w' = heard w ++ [Said greeting; Listened 10; Said reply_no])
     /\ (contains reply (lit "yes") = false ->
         contains reply (lit "no") = false ->
         heard w' = heard w ++ [Said greeting; Listened 10; Said reply_unclear]))
  /\ ((forall h, listen E h 10 = Ret None) ->
      heard (snd (on_start U E w))
      = heard w ++ [Said greeting; Listened 10; Said reply_silence])
  /\ reply_silence <> reply_yes /\ reply_silence <> reply_no
  /\ reply_silence <> reply_unclear.
Proof.
  intros Hwait Hsay heard. split; [|split].
  - intros r Hr Hlisten reply w'.
    destruct (on_start_run w Hwait Hsay Hlisten) as (new & Hrun & Hview).
    subst w' heard. cbv beta. rewrite Hrun. cbn [snd trace].
    rewrite view_app, Hview.
    destruct (text r) as [|c t] eqn:Ht; [congruence|]. fold reply.
    repeat split.
    + intros ->. reflexivity.
    + intros -> ->. reflexivity.
    + intros -> ->. reflexivity.
  - intro Hlisten.
    destruct (on_start_run w Hwait Hsay Hlisten) as (new & Hrun & Hview).
    subst heard. cbv beta. rewrite Hrun. cbn [snd trace].
    now rewrite view_app, Hview.
  - repeat split; intro H; vm_compute in H; discriminate H.
Qed.

(** C5, as the code has it: a response whose text is empty is answered like
    no response at all, by the message for silence. *)
Theorem empty_text_counts_as_silence (w : World) (r : UserResponse) :
  text r = [] ->
  (forall h, wait_for_connection E h = Ret tt) ->
  (forall h u, say E h u = Ret tt) ->
  (forall h, listen E h 10 = Ret (Some r)) ->
  view dialogue_view (trace (snd (on_start U E w)))
  = view dialogue_view (trace w) ++ [Said greeting; Listened 10; Said reply_silence].
Proof.
  intros Hr Hwait Hsay Hlisten.
  destruct (on_start_run w Hwait Hsay Hlisten) as (new & Hrun & Hview).
  rewrite Hrun. cbn [snd trace]. rewrite view_app, Hview, Hr. reflexivity.
Qed.

(** The user data at the end of any run: the count has gone up, by one,
    exactly when the greeting was spoken, whatever came after it. *)
Lemma on_start_userdata (w : World) :
  userdata (snd (on_start U E w))
  = match wait_for_connection E (trace w ++ [Log LogAgentStarted]) with
    | Ret _ =>
        match say E (trace w ++ [Log LogAgentStarted; Call WaitForConnection;
                                 Log LogAudioReady]) greeting with
        | Ret _ => set_interaction_count (interaction_count (userdata w) + 1) (userdata w)
        | Raise _ => userdata w
        end
    | Raise _ => userdata w
    end.
Proof.
  assert (Hfinish : forall (u : str) (w0 : World),
             userdata
               (snd (let (r, w') := (say E (trace w0) u, record (Call (Say u)) w0) in
                     match r with
                     | Ret _ => hangup_call_with_retry E 3 (record (Call (Sleep 2)) w')
                     | Raise e => (Raise e, w')
                     end))
             = userdata w0).
  { intros u w0. destruct (say E (trace w0) u) as [[]|e]; [|reflexivity].
    destruct (hangup_run 3 (record (Call (Sleep 2)) (record (Call (Say u)) w0)))
      as (new2 & Hrun & _).
    rewrite Hrun. reflexivity. }
  replace (trace w ++ [Log LogAgentStarted; Call WaitForConnection; Log LogAudioReady])
    with (((trace w ++ [Log LogAgentStarted]) ++ [Call WaitForConnection])
          ++ [Log LogAudioReady])
    by (repeat rewrite <- app_assoc; reflexivity).
  unfold on_start, speak, bind, log, ask, modify_userdata, sleep.
  unfold record at 1 2. cbn [trace userdata].
  destruct (wait_for_connection E (trace w ++ [Log LogAgentStarted])) as [[]|e1];
    [|reflexivity].
  unfold record at 1 2. cbn [trace userdata].
  destruct (say E (((trace w ++ [Log LogAgentStarted]) ++ [Call WaitForConnection])
                   ++ [Log LogAudioReady]) greeting) as [[]|e2];
    [|reflexivity].
  cbn [trace userdata record].
  destruct (listen E _ 10) as [o|e3]; [|reflexivity].
  destruct o as [[[|c t]]|]; cbn [text truthy];
    [ | destruct (contains (lower U (c :: t)) (lit "yes"));
        [ | destruct (contains (lower U (c :: t)) (lit "no")) ] | ];
    match goal with
    | |- context [say E (trace ?w0) ?u] => rewrite (Hfinish u w0)
    end;
    reflexivity.
Qed.

(** C9, as the code has it: in every run the count goes up exactly once,
    right after the greeting has been spoken and before the agent listens;
    it stays as it was in a run that fails before or while speaking the
    greeting, and the reply that follows is spoken without counting. *)
Theorem interaction_counted_after_greeting_only (w : World) :
  let before := interaction_count (userdata w) in
  let after := interaction_count (userdata (snd (on_start U E w))) in
  let h_wait := trace w ++ [Log LogAgentStarted] in
  let h_greet := trace w ++ [Log LogAgentStarted; Call WaitForConnection;
                             Log LogAudioReady] in
  (* the audio never got ready: nothing is counted *)
  ((exists e, wait_for_connection E h_wait = Raise e) -> after = before)
  (* speaking the greeting failed: nothing is counted *)
  /\ (wait_for_connection E h_wait = Ret tt ->
      (exists e, say E h_greet greeting = Raise e) ->
      after = before)
  (* the greeting was spoken: counted once, whatever listening, the reply
     and the hang-up do afterwards, an exception from any of them included *)
  /\ (wait_for_connection E h_wait = Ret tt ->
      say E h_greet greeting = Ret tt ->
      after = (before + 1)%Z)
  (* a complete run: two utterances, one count *)
  /\ (forall o : option UserResponse,
        (forall h, wait_for_connection E h = Ret tt) ->
        (forall h u, say E h u = Ret tt) ->
        (forall h, listen E h 10 = Ret o) ->
        after = (before + 1)%Z
        /\ exists reply,
             view dialogue_view (trace (snd (on_start U E w)))
             = view dialogue_view (trace w) ++ [Said greeting; Listened 10; Said reply]).
Proof.
  cbv zeta. rewrite on_start_userdata. split; [|split; [|split]].
  - intros (e & ->). reflexivity.
  - intros -> (e & ->). reflexivity.
  - intros -> ->. reflexivity.
  - intros o Hwait Hsay Hlisten. split.
    + rewrite Hwait, Hsay. reflexivity.
    + destruct (on_start_run w Hwait Hsay Hlisten) as (new & Hrun & Hview).
      rewrite Hrun. cbn [snd trace]. eexists. rewrite view_app, Hview. reflexivity.
Qed.

End Dialogue.

Lemma reply_follows_keywords_witness :
  view dialogue_view
    (trace (snd (on_start Unicode.ascii_only
                   (scripted_env (fun _ => Ret tt) (fun _ => Ret tt)
                      (Ret (Some {| text := lit "No, YES speaking" |})) loads_empty_object)
                   fresh_world)))
  = [Said greeting; Listened 10; Said reply_yes].
Proof.
  refine (proj1 (proj1 (@reply_follows_keywords Unicode.ascii_only
                         (scripted_env (fun _ => Ret tt) (fun _ => Ret tt)
                            (Ret (Some {| text := lit "No, YES speaking" |}))
                            loads_empty_object)
                         fresh_world _ _)
                   {| text := lit "No, YES speaking" |} _ _) _).
  - intro h. reflexivity.
  - intros h u. reflexivity.
  - discriminate.
  - intro h. reflexivity.
  - reflexivity.
Defined.

(** A transcribed response with empty text: the agent speaks the message for
    silence, not the request to repeat. *)
Lemma empty_text_is_not_asked_to_repeat :
  let heard :=
    view dialogue_view
      (trace (snd (on_start Unicode.ascii_only
                     (scripted_env (fun _ => Ret tt) (fun _ => Ret tt)
                        (Ret (Some {| text := [] |})) loads_empty_object)
                     fresh_world))) in
  heard = [Said greeting; Listened 10; Said reply_silence]
  /\ heard <> [Said greeting; Listened 10; Said reply_unclear].
Proof.
  split; [reflexivity|]. vm_compute. discriminate.
Qed.

Lemma empty_text_counts_as_silence_witness :
  view dialogue_view
    (trace (snd (on_start Unicode.ascii_only
                   (scripted_env (fun _ => Ret tt) (fun _ => Ret tt)
                      (Ret (Some {| text := [] |})) loads_empty_object)
                   fresh_world)))
  = [Said greeting; Listened 10; Said reply_silence].
Proof.
  apply (@empty_text_counts_as_silence Unicode.ascii_only
           (scripted_env (fun _ => Ret tt) (fun _ => Ret tt)
              (Ret (Some {| text := [] |})) loads_empty_object)
           fresh_world {| text := [] |}); reflexivity.
Defined.

(** A run in which the callee says "yes": the agent speaks twice and the
    count ends at 1. *)
Lemma reply_is_not_counted :
  let w' :=
    snd (on_start Unicode.ascii_only
           (scripted_env (fun _ => Ret tt) (fun _ => Ret tt)
              (Ret (Some {| text := lit "yes" |})) loads_empty_object)
           fresh_world) in
  interaction_count (userdata fresh_world) = 0%Z
  /\ view dialogue_view (trace w') = [Said greeting; Listened 10; Said reply_yes]
  /\ interaction_count (userdata w') = 1%Z
  /\ interaction_count (userdata w') <> 2%Z.
Proof.
  repeat split; try reflexivity. vm_compute. discriminate.
Qed.

Lemma interaction_counted_after_greeting_only_witness :
  (* the callee says "yes": two utterances, count 1 *)
  interaction_count
    (userdata (snd (on_start Unicode.ascii_only
                      (scripted_env (fun _ => Ret tt) (fun _ => Ret tt)
                         (Ret (Some {| text := lit "yes" |})) loads_empty_object)
                      fresh_world)))
  = 1%Z
  (* listening raises: the greeting has been counted already *)
  /\ interaction_count
       (userdata (snd (on_start Unicode.ascii_only
                         (scripted_env (fun _ => Ret tt) (fun _ => Ret tt)
                            (Raise (OtherException (lit "STTError") (lit "stream closed")))
                            loads_empty_object)
                         fresh_world)))
     = 1%Z.
Proof.
  split.
  - apply (proj1 (proj2 (proj2 (proj2
             (@interaction_counted_after_greeting_only Unicode.ascii_only
                (scripted_env (fun _ => Ret tt) (fun _ => Ret tt)
                   (Ret (Some {| text := lit "yes" |})) loads_empty_object)
                fresh_world)))
             (Some {| text := lit "yes" |})
             (fun _ => eq_refl) (fun _ _ => eq_refl) (fun _ => eq_refl))).
  - apply (proj1 (proj2 (proj2
             (@interaction_counted_after_greeting_only Unicode.ascii_only
                (scripted_env (fun _ => Ret tt) (fun _ => Ret tt)
                   (Raise (OtherException (lit "STTError") (lit "stream closed")))
                   loads_empty_object)
                fresh_world)))
             eq_refl eq_refl).
Defined.

(** ** The entry point *)

Section Entrypoint.

Variable U : Unicode.tables.
Variable E : Env.

Lemma parse_metadata_quiet (m : pyval) : quiet call_of (parse_metadata U E m).
Proof.
  destruct m; try apply quiet_ret.
  cbn [parse_metadata]. destruct (truthy (PyStr (strip U s))); [|apply quiet_ret].
  apply quiet_try_except; [apply quiet_lift|].
  intros _. apply quiet_bind; [now apply quiet_log | intros _; apply quiet_ret].
Qed.

(** The decoded metadata does not depend on the world it is decoded in. *)
Lemma parse_metadata_value (m : pyval) (w1 w2 : World) :
  fst (parse_metadata U E m w1) = fst (parse_metadata U E m w2).
Proof.
  destruct m; try reflexivity.
  cbn [parse_metadata]. destruct (truthy (PyStr (strip U s))); [|reflexivity].
  unfold try_except, lift. destruct (json_loads E s) as [v|e]; [reflexivity|].
  destruct (is_JSONDecodeError e); reflexivity.
Qed.

(** C3: when the metadata gives no number, or one that the normaliser
    rejects, the entry point returns after logging only: no room connection,
    no SIP call, no session start, no call to any collaborator. *)
Theorem invalid_number_aborts_before_any_call
    (ctx : JobContext) (w : World) (dial_info v : pyval) :
  fst (parse_metadata U E (metadata ctx) w) = Ret dial_info ->
  get_first dial_info phone_keys = Ret v ->
  normalize_phone_number U v = Ret PyNone ->
  exists new,
    entrypoint U E ctx w = (Ret tt, extend w new)
    /\ calls new = [].
Proof.
  intros Hparse Hget Hnorm.
  unfold entrypoint, try_except. unfold bind at 1. unfold log at 1.
  unfold bind at 1.
  set (w0 := record (Log (LogRawMetadata (metadata ctx))) w).
  destruct (parse_metadata_quiet (metadata ctx) w0) as (new1 & Hw1 & Hcalls).
  pose proof (parse_metadata_value (metadata ctx) w0 w) as Hval.
  rewrite Hparse in Hval.
  destruct (parse_metadata U E (metadata ctx) w0) as [r1 w1].
  cbn [fst snd] in *. subst r1 w1.
  unfold bind, lift. rewrite Hget, Hnorm. cbn [truthy negb]. unfold log.
  exists ([Log (LogRawMetadata (metadata ctx))] ++ new1 ++ [Log (LogInvalidPhone PyNone)]).
  split.
  - f_equal. subst w0. same_world.
  - unfold calls. rewrite !view_app, Hcalls. reflexivity.
Qed.

End Entrypoint.

Lemma invalid_number_aborts_before_any_call_witness :
  exists new,
    entrypoint Unicode.ascii_only
      (scripted_env (fun _ => Ret tt) (fun _ => Ret tt) (Ret None) loads_empty_object)
      (sample_job (PyStr (lit "{}"))) fresh_world
    = (Ret tt, extend fresh_world new)
    /\ calls new = [].
Proof.
  apply (@invalid_number_aborts_before_any_call Unicode.ascii_only
           (scripted_env (fun _ => Ret tt) (fun _ => Ret tt) (Ret None) loads_empty_object)
           (sample_job (PyStr (lit "{}"))) fresh_world (PyDict []) PyNone);
    reflexivity.
Defined.

(** Metadata that cannot be decoded is treated as empty, and a number that
    is too short is rejected: both jobs end after logging. *)
Example undecodable_or_short_number_only_logs :
  let E := scripted_env (fun _ => Ret tt) (fun _ => Ret tt) (Ret None) loads_empty_object in
  trace (snd (entrypoint Unicode.ascii_only E (sample_job (PyStr (lit "[1]"))) fresh_world))
  = [Log (LogRawMetadata (PyStr (lit "[1]"))); Log LogInvalidJson;
     Log (LogInvalidPhone PyNone)]
  /\ trace (snd (entrypoint Unicode.ascii_only E
                   (sample_job (PyDict [(lit "phone", PyStr (lit "123"))])) fresh_world))
     = [Log (LogRawMetadata (PyDict [(lit "phone", PyStr (lit "123"))]));
        Log (LogInvalidPhone PyNone)].
Proof. split; reflexivity. Qed.

(** A job with a valid number, for contrast: the room is joined, the session
    is started and the number is dialled. *)
Example valid_number_is_dialled :
  let E := scripted_env (fun _ => Ret tt) (fun _ => Ret tt) (Ret None) loads_empty_object in
  let phone := lit "+919876543210" in
  calls (trace (snd (entrypoint Unicode.ascii_only E
                       (sample_job (PyDict [(lit "phoneNumber", PyStr (lit "98765 43210"))]))
                       fresh_world)))
  = [Connect; VadLoad;
     Tts (lit "sonic-english") (Some (lit "6f84f4b8-58a2-430c-8c79-688dad597532"));
     Llm (lit "gemini-2.5-flash"); Stt (lit "nova-3") (lit "en-US"); Time; SessionStart;
     CreateSipParticipant (sip_request E (sample_job PyNone) phone);
     WaitForParticipant phone; AwaitSessionTask; Time].
Proof. reflexivity. Qed.

(** * Further properties *)

(** ** What the matcher accepts *)

Section MatcherSoundness.

Variable U : Unicode.tables.

(** A bounded repetition of a class consumes a run of class members of an
    admissible length. *)
Lemma rep_class_sound (A : Type) (negated : bool) (items : list citem) :
  forall (hi lo pos : nat) (s : str) (k : cont A) (x : A),
    rep (matches U (Cls negated items)) hi lo pos s k = Some x ->
    exists a b,
      s = a ++ b
      /\ forallb (in_class U negated items) a = true
      /\ lo <= List.length a /\ List.length a <= hi
      /\ k (pos + List.length a) b = Some x.
Proof.
  induction hi as [|hi IH]; intros lo pos s k x H.
  - cbn [rep] in H. destruct (Nat.eqb_spec lo 0); [|discriminate].
    exists [], s. rewrite Nat.add_0_r. cbn. repeat split; auto; lia.
  - cbn [rep] in H.
    destruct (matches U (Cls negated items) pos s
                (fun pos' s' => rep (matches U (Cls negated items)) hi (pred lo) pos' s' k))
      as [y|] eqn:Hm.
    + cbn [orelse] in H. rewrite H in Hm. clear H y.
      destruct s as [|c s]; [discriminate|].
      rewrite matches_Cls_cons in Hm.
      destruct (in_class U negated items c) eqn:Hc; [|discriminate].
      apply IH in Hm. destruct Hm as (a & b & -> & Hall & Hlo & Hhi & Hk).
      exists (c :: a), b. cbn [app forallb List.length]. rewrite Hc, Hall.
      repeat split; auto; try lia.
      now rewrite <- Nat.add_succ_comm.
    + cbn [orelse] in H. destruct (Nat.eqb_spec lo 0); [|discriminate].
      exists [], s. rewrite Nat.add_0_r. cbn. repeat split; auto; lia.
Qed.

(** Conversely, such a run is consumed whole when the repetition cannot go
    on after it. *)
Lemma rep_class_complete (A : Type) (negated : bool) (items : list citem) :
  forall (hi lo pos : nat) (a b : str) (k : cont A) (x : A),
    forallb (in_class U negated items) a = true ->
    lo <= List.length a ->
    List.length a <= hi ->
    List.length a = hi \/ b = []
      \/ (exists c b', b = c :: b' /\ in_class U negated items c = false) ->
    k (pos + List.length a) b = Some x ->
    rep (matches U (Cls negated items)) hi lo pos (a ++ b) k = Some x.
Proof.
  induction hi as [|hi IH]; intros lo pos a b k x Hall Hlo Hhi Hstop Hk.
  - destruct a as [|c a]; [|cbn in Hhi; lia].
    cbn in Hlo, Hk |- *. assert (lo = 0) by lia; subst lo.
    cbn. now rewrite Nat.add_0_r in Hk.
  - destruct a as [|c a].
    + cbn in Hlo, Hk. assert (lo = 0) by lia; subst lo.
      rewrite Nat.add_0_r in Hk. cbn [app rep Nat.eqb].
      destruct Hstop as [Hlen | [-> | (c & b' & -> & Hc)]].
      * cbn in Hlen. lia.
      * cbn. exact Hk.
      * rewrite matches_Cls_cons, Hc. cbn. exact Hk.
    + cbn [forallb] in Hall. apply andb_true_iff in Hall as [Hc Hall].
      cbn [app rep]. rewrite matches_Cls_cons, Hc.
      rewrite (IH (pred lo) (S pos) a b k x); cbn in *; auto; try lia.
      * destruct Hstop as [Hlen | Hstop]; [left; lia | right; exact Hstop].
      * now rewrite <- Nat.add_succ_comm in Hk.
Qed.

(** The patterns [^\+[1-9]\d{lo,hi}$] accept exactly a "+", a digit from 1
    to 9 and [lo] to [hi] digits, with or without one final newline. *)
Lemma plus_number_iff (lo hi : nat) (s : str) :
  re_match U (Cat Bol (Cat (Chr "+") (Cat (Cls false [CRange "1" "9"])
                                         (Cat (Rep Digit lo hi) Eol)))) s = true
  <-> exists d a b,
        s = ch "+" :: d :: a ++ b
        /\ (49 <= d)%N /\ (d <= 57)%N
        /\ forallb (is_digit U) a = true
        /\ lo <= List.length a /\ List.length a <= hi
        /\ (b = [] \/ b = [10%N]).
Proof.
  unfold re_match, Digit.
  rewrite matches_Cat, matches_Bol_0, matches_Cat.
  split.
  - intro H.
    destruct s as [|p s]; [discriminate|]. rewrite matches_Chr_cons in H.
    destruct (N.eqb_spec p (ch "+")) as [->|]; [|discriminate].
    rewrite matches_Cat in H.
    destruct s as [|d s]; [discriminate|]. rewrite matches_Cls_cons in H.
    destruct (in_class U false [CRange "1" "9"] d) eqn:Hd; [|discriminate].
    unfold in_class in Hd. cbn [existsb citem_has xorb] in Hd.
    rewrite orb_false_r in Hd. apply andb_true_iff in Hd as [Hd1 Hd2].
    apply N.leb_le in Hd1, Hd2. change (ch "1") with 49%N in Hd1.
    change (ch "9") with 57%N in Hd2.
    rewrite matches_Cat, matches_Rep in H.
    destruct (rep (matches U (Cls false [CDigit])) hi lo 2 s
                (fun pos' s' => matches U Eol pos' s' (fun _ _ => Some tt)))
      as [[]|] eqn:Hrep; [|discriminate].
    apply rep_class_sound in Hrep.
    destruct Hrep as (a & b & -> & Hall & Hlo & Hhi & Hk).
    rewrite forallb_Digit in Hall.
    exists d, a, b. repeat split; auto.
    destruct b as [|c [|c' b]]; cbn in Hk; auto; try discriminate.
    destruct (N.eqb_spec c 10) as [->|]; [auto | discriminate].
  - intros (d & a & b & -> & Hd1 & Hd2 & Hall & Hlo & Hhi & Hb).
    rewrite matches_Chr_cons. change (N.eqb (ch "+") (ch "+")) with true. cbv iota.
    rewrite matches_Cat, matches_Cls_cons.
    assert (Hd : in_class U false [CRange "1" "9"] d = true).
    { unfold in_class. cbn [existsb citem_has xorb]. rewrite orb_false_r.
      apply andb_true_iff; split; apply N.leb_le; assumption. }
    rewrite Hd, matches_Cat, matches_Rep.
    erewrite rep_class_complete; [reflexivity | | exact Hlo | exact Hhi | | ].
    + now rewrite forallb_Digit.
    + destruct Hb as [->| ->]; [auto|].
      right; right. exists 10%N, []. split; [reflexivity|].
      rewrite in_class_Digit. reflexivity.
    + destruct Hb as [->| ->]; reflexivity.
Qed.

Lemma ten_digits_iff (s : str) :
  re_fullmatch U ten_digits s = true
  <-> List.length s = 10 /\ forallb (is_digit U) s = true.
Proof.
  split.
  - unfold re_fullmatch, ten_digits, Digit. rewrite matches_Rep. intro H.
    destruct (rep (matches U (Cls false [CDigit])) 10 10 0 s
                (fun _ s' => match s' with [] => Some tt | _ :: _ => None end))
      as [[]|] eqn:Hrep; [|discriminate].
    apply rep_class_sound in Hrep.
    destruct Hrep as (a & b & -> & Hall & Hlo & Hhi & Hk).
    destruct b; [|discriminate]. rewrite app_nil_r.
    rewrite forallb_Digit in Hall. split; [lia | exact Hall].
  - intros [Hlen Hall]. now apply ten_digits_accepts.
Qed.

End MatcherSoundness.

(** ** The normaliser, further *)

Section NormalizeMore.

Variable U : Unicode.tables.

Local Abbreviation kept := (fun c => is_digit U c || N.eqb c (ch "+")).

Lemma forallb_app_iff (A : Type) (p : A -> bool) (l1 l2 : list A) :
  forallb p (l1 ++ l2) = true <-> forallb p l1 = true /\ forallb p l2 = true.
Proof.
  induction l1 as [|x l1 IH]; cbn [app forallb].
  - tauto.
  - rewrite !andb_true_iff, IH. tauto.
Qed.

Lemma forallb_filter_same (A : Type) (p : A -> bool) (l : list A) :
  forallb p (filter p l) = true.
Proof.
  induction l as [|x l IH]; [reflexivity|].
  cbn [filter]. destruct (p x) eqn:Hx; [|exact IH].
  cbn [forallb]. now rewrite Hx, IH.
Qed.

Lemma filter_digit_kept (s : str) :
  filter (is_digit U) (filter kept s) = filter (is_digit U) s.
Proof.
  induction s as [|c s IH]; [reflexivity|].
  cbn [filter]. destruct (is_digit U c) eqn:Hc; cbn [orb].
  - cbn [filter]. now rewrite Hc, IH.
  - destruct (N.eqb c (ch "+")); [|exact IH].
    cbn [filter]. now rewrite Hc, IH.
Qed.

(** When only digits survive the first step, the input had no "+". *)
Lemma kept_all_digits_no_plus (s : str) :
  forallb (is_digit U) (filter kept s) = true ->
  existsb (N.eqb (ch "+")) s = false.
Proof.
  induction s as [|c s IH]; [reflexivity|].
  cbn [filter existsb]. destruct (N.eqb_spec c (ch "+")) as [->|Hne].
  - rewrite orb_true_r. cbn [forallb]. rewrite plus_not_digit. discriminate.
  - rewrite orb_false_r. intro H.
    assert (Hc : N.eqb (ch "+") c = false) by (apply N.eqb_neq; congruence).
    rewrite Hc. cbn [orb]. apply IH.
    destruct (is_digit U c); [|exact H].
    cbn [forallb] in H. now apply andb_true_iff in H.
Qed.

(** When a "+" survives the first step, the input had one. *)
Lemma kept_plus_has_plus (s t : str) :
  filter kept s = ch "+" :: t -> existsb (N.eqb (ch "+")) s = true.
Proof.
  intro H. apply existsb_exists. exists (ch "+"). split; [|apply N.eqb_refl].
  assert (Hin : In (ch "+") (filter kept s)) by (rewrite H; left; reflexivity).
  apply filter_In in Hin. tauto.
Qed.

Lemma normalize_str_none_or_str (s : str) :
  normalize_str U s = PyNone \/ exists p, normalize_str U s = PyStr p.
Proof.
  unfold normalize_str.
  match goal with |- context [re_match U e164 ?p] => destruct (re_match U e164 p) end;
    [right; eexists; reflexivity | left; reflexivity].
Qed.

(** How a returned number is built from what survives the first step. *)
Lemma normalize_str_inv (s p : str) :
  normalize_str U s = PyStr p ->
  re_match U e164 p = true
  /\ ((re_fullmatch U ten_digits (filter kept s) = true
       /\ p = lit "+91" ++ filter kept s)
      \/ (re_fullmatch U ten_digits (filter kept s) = false
          /\ startswith (filter kept s) (lit "+") = false
          /\ p = ch "+" :: filter kept s)
      \/ (re_fullmatch U ten_digits (filter kept s) = false
          /\ startswith (filter kept s) (lit "+") = true
          /\ p = filter kept s)).
Proof.
  unfold normalize_str. rewrite strip_spec.
  destruct (re_fullmatch U ten_digits (filter kept s)) eqn:Hten.
  - destruct (re_match U e164 (lit "+91" ++ filter kept s)) eqn:Hm; [|discriminate].
    intro H; injection H as <-. split; [exact Hm | left; auto].
  - destruct (startswith (filter kept s) (lit "+")) eqn:Hplus; cbn [negb].
    + destruct (re_match U e164 (filter kept s)) eqn:Hm; [|discriminate].
      intro H; injection H as <-. split; [exact Hm | right; right; auto].
    + destruct (re_match U e164 (lit "+" ++ filter kept s)) eqn:Hm; [|discriminate].
      intro H; injection H as <-. split; [exact Hm | right; left; auto].
Qed.

Lemma e164_shape_iff (p : str) :
  e164_shape U p = true
  <-> exists d a,
        p = ch "+" :: d :: a /\ (49 <= d)%N /\ (d <= 57)%N
        /\ forallb (is_digit U) a = true
        /\ 6 <= List.length a /\ List.length a <= 14.
Proof.
  split.
  - destruct p as [|c [|d a]]; try discriminate. cbn [e164_shape]. intro H.
    repeat match goal with
           | H : _ && _ = true |- _ => apply andb_true_iff in H; destruct H
           end.
    match goal with H : N.eqb c _ = true |- _ => apply N.eqb_eq in H; subst c end.
    repeat match goal with
           | H : N.leb _ _ = true |- _ => apply N.leb_le in H
           | H : Nat.leb _ _ = true |- _ => apply Nat.leb_le in H
           end.
    exists d, a. repeat split; auto.
  - intros (d & a & -> & Hd1 & Hd2 & Hall & Hlo & Hhi). cbn [e164_shape].
    rewrite Hall, N.eqb_refl.
    apply N.leb_le in Hd1, Hd2. apply Nat.leb_le in Hlo, Hhi.
    change (ch "1") with 49%N. change (ch "9") with 57%N.
    now rewrite Hd1, Hd2, Hlo, Hhi.
Qed.

(** A string of kept characters that the final pattern accepts has the
    E.164 shape: no newline can end it. *)
Lemma e164_match_kept (p : str) :
  forallb kept p = true -> re_match U e164 p = true -> e164_shape U p = true.
Proof.
  intros Hkept Hm. apply (proj1 (plus_number_iff U 6 14 p)) in Hm.
  destruct Hm as (d & a & b & -> & Hd1 & Hd2 & Hall & Hlo & Hhi & Hb).
  destruct Hb as [->| ->].
  - rewrite app_nil_r. apply e164_shape_iff. exists d, a. auto 10.
  - exfalso. cbn [forallb] in Hkept.
    apply andb_true_iff in Hkept as [_ Hkept].
    apply andb_true_iff in Hkept as [_ Hkept].
    apply forallb_app_iff in Hkept as [_ Hkept]. discriminate Hkept.
Qed.

Lemma normalize_str_shape (s p : str) :
  normalize_str U s = PyStr p -> e164_shape U p = true.
Proof.
  intro H. apply normalize_str_inv in H as [Hm Hcases].
  apply e164_match_kept; [|exact Hm].
  pose proof (forallb_filter_same kept s) as Hk.
  destruct Hcases as [[_ ->] | [(_ & _ & ->) | (_ & _ & ->)]].
  - change (lit "+91" ++ filter kept s) with (43%N :: 57%N :: 49%N :: filter kept s).
    cbn [forallb]. rewrite Hk. reflexivity.
  - cbn [forallb]. rewrite Hk. reflexivity.
  - exact Hk.
Qed.

(** The normaliser leaves a string of the E.164 shape as it is. *)
Lemma normalize_fixes_e164 (p : str) :
  e164_shape U p = true -> normalize_phone_number U (PyStr p) = Ret (PyStr p).
Proof.
  intro H. apply e164_shape_iff in H.
  destruct H as (d & a & -> & Hd1 & Hd2 & Hall & Hlo & Hhi).
  rewrite normalize_nonempty by discriminate.
  unfold normalize_str. rewrite strip_spec, filter_all.
  - rewrite ten_digits_rejects_plus.
    change (startswith (ch "+" :: d :: a) (lit "+")) with true. cbn [negb].
    now rewrite e164_accepts.
  - cbn [forallb]. rewrite plus_not_digit, (ascii_digit_is_digit U) by assumption.
    now rewrite digits_survive.
Qed.

(** X1: whatever is passed in, a returned number has the E.164 shape. *)
Theorem normalize_returns_none_or_e164 (v r : pyval) :
  normalize_phone_number U v = Ret r ->
  r = PyNone \/ exists p, r = PyStr p /\ e164_shape U p = true.
Proof.
  unfold normalize_phone_number.
  destruct (truthy v); cbn [negb]; [|intro H; injection H as <-; auto].
  destruct v; try discriminate. intro H; injection H as <-.
  destruct (normalize_str_none_or_str s) as [-> | (p & Hp)]; [auto|].
  right. exists p. split; [exact Hp | now apply normalize_str_shape with s].
Qed.

(** X2: normalising a result of the normaliser gives that result back. *)
Theorem normalize_idempotent (v r : pyval) :
  normalize_phone_number U v = Ret r ->
  normalize_phone_number U r = Ret r.
Proof.
  unfold normalize_phone_number at 1.
  destruct (truthy v); cbn [negb]; [|intro H; injection H as <-; reflexivity].
  destruct v; try discriminate. intro H; injection H as <-.
  destruct (normalize_str_none_or_str s) as [-> | (p & Hp)]; [reflexivity|].
  rewrite Hp. apply normalize_fixes_e164. now apply normalize_str_shape with s.
Qed.

Lemma normalize_str_form (s p : str) :
  normalize_str U s = PyStr p ->
  p = ch "+"
      :: (if Nat.eqb (List.length (filter (is_digit U) s)) 10
             && negb (existsb (N.eqb (ch "+")) s)
          then lit "91" else [])
      ++ filter (is_digit U) s.
Proof.
  intro H.
  pose proof (normalize_str_shape _ H) as Hshape.
  apply e164_shape_iff in Hshape.
  destruct Hshape as (d & a & Hp & Hd1 & Hd2 & Hall & Hlo & Hhi).
  apply normalize_str_inv in H as [_ Hcases].
  destruct Hcases as [[Hten Hp'] | [(Hten & Hplus & Hp') | (Hten & Hplus & Hp')]].
  - apply ten_digits_iff in Hten as [Hlen Hdig].
    pose proof (kept_all_digits_no_plus s Hdig) as Hno.
    rewrite <- (filter_digits_no_plus U s Hno), Hlen, Hno. exact Hp'.
  - assert (Hdig : forallb (is_digit U) (filter kept s) = true).
    { rewrite Hp' in Hp. injection Hp as Ht.
      change (filter kept s = d :: a) in Ht. rewrite Ht. cbn [forallb].
      now rewrite (ascii_digit_is_digit U), Hall. }
    pose proof (kept_all_digits_no_plus s Hdig) as Hno.
    rewrite <- (filter_digits_no_plus U s Hno), Hno.
    destruct (Nat.eqb_spec (List.length (filter kept s)) 10) as [Hlen|_].
    + assert (re_fullmatch U ten_digits (filter kept s) = true)
        by (apply ten_digits_iff; auto).
      congruence.
    + exact Hp'.
  - rewrite Hp' in Hp. rewrite (kept_plus_has_plus s Hp). cbn [negb].
    rewrite andb_false_r. cbn [app].
    rewrite <- filter_digit_kept, Hp, Hp'. rewrite Hp. cbn [filter].
    rewrite plus_not_digit, (ascii_digit_is_digit U) by assumption.
    now rewrite filter_all.
Qed.

(** X3: a returned number is "+", then "91" if the input had exactly ten
    digits and no "+", then the digits of the input in their order. *)
Theorem normalize_keeps_the_digits (s p : str) :
  normalize_phone_number U (PyStr s) = Ret (PyStr p) ->
  p = ch "+"
      :: (if Nat.eqb (List.length (filter (is_digit U) s)) 10
             && negb (existsb (N.eqb (ch "+")) s)
          then lit "91" else [])
      ++ filter (is_digit U) s.
Proof.
  destruct s as [|c0 s0]; [discriminate|].
  rewrite normalize_nonempty by discriminate.
  intro H; injection H as H.
  now apply normalize_str_form.
Qed.

(** X4: a number is returned only for an input with 7 to 15 digits. *)
Theorem normalize_needs_7_to_15_digits (s p : str) :
  normalize_phone_number U (PyStr s) = Ret (PyStr p) ->
  7 <= List.length (filter (is_digit U) s) <= 15.
Proof.
  destruct s as [|c0 s0]; [discriminate|].
  rewrite normalize_nonempty by discriminate.
  remember (c0 :: s0) as s eqn:Hs. clear Hs c0 s0.
  intro H; injection H as H.
  pose proof (normalize_str_shape _ H) as Hshape.
  apply e164_shape_iff in Hshape.
  destruct Hshape as (d & a & Hp & _ & _ & _ & Hlo & Hhi).
  apply normalize_str_form in H. rewrite Hp in H. injection H as H.
  destruct (Nat.eqb_spec (List.length (filter (is_digit U) s)) 10) as [Hten|Hten];
    [lia|].
  cbn [andb app] in H. rewrite <- H. cbn [List.length]. lia.
Qed.

(** X5: a "+" that comes after a digit or after another "+" makes the
    normaliser reject the input. *)
Theorem normalize_rejects_inner_plus (a b rest : str) (c : char) :
  is_digit U c || N.eqb c (ch "+") = true ->
  normalize_phone_number U (PyStr (a ++ c :: b ++ ch "+" :: rest)) = Ret PyNone.
Proof.
  intro Hc.
  rewrite normalize_nonempty by (destruct a; discriminate).
  destruct (normalize_str_none_or_str (a ++ c :: b ++ ch "+" :: rest))
    as [-> | (p & Hp)]; [reflexivity|].
  exfalso.
  pose proof (normalize_str_shape _ Hp) as Hshape.
  apply e164_shape_iff in Hshape.
  destruct Hshape as (d & a' & Hpd & Hd1 & Hd2 & Hall & _ & _).
  assert (Hd : is_digit U d = true) by now apply ascii_digit_is_digit.
  apply normalize_str_inv in Hp as [_ Hcases].
  remember (filter kept (a ++ c :: b ++ ch "+" :: rest)) as t eqn:Ht.
  assert (Htl : forall l : str, forallb (is_digit U) l = true ->
                                forallb (is_digit U) (tl l) = true).
  { intros [|x l] Hl; [reflexivity|]. cbn [tl]. cbn [forallb] in Hl.
    now apply andb_true_iff in Hl. }
  assert (Htail : forallb (is_digit U) (tl t) = true).
  { destruct Hcases as [[_ Hp'] | [(_ & _ & Hp') | (_ & _ & Hp')]];
      rewrite Hp' in Hpd.
    - change (lit "+91" ++ t) with (43%N :: 57%N :: 49%N :: t) in Hpd.
      injection Hpd as _ Ha. rewrite <- Ha in Hall. cbn [forallb] in Hall.
      apply andb_true_iff in Hall as [_ Hall]. now apply Htl.
    - injection Hpd as Ha. rewrite Ha. cbn [tl]. exact Hall.
    - rewrite Hpd. cbn [tl forallb]. now rewrite Hd, Hall. }
  subst t.
  rewrite filter_app in Htail. cbn [filter] in Htail. rewrite Hc in Htail.
  rewrite filter_app in Htail. cbn [filter] in Htail.
  rewrite plus_not_digit, N.eqb_refl in Htail. cbn [orb] in Htail.
  assert (Hbad : forall t1 t2 t3 : str,
             forallb (is_digit U) (tl (t1 ++ c :: t2 ++ ch "+" :: t3)) = true -> False).
  { intros t1 t2 t3 Ht. destruct t1 as [|x t1]; cbn [app tl] in Ht.
    - apply forallb_app_iff in Ht as [_ Ht]. cbn [forallb] in Ht.
      rewrite plus_not_digit in Ht. discriminate.
    - apply forallb_app_iff in Ht as [_ Ht]. cbn [forallb] in Ht.
      apply andb_true_iff in Ht as [_ Ht].
      apply forallb_app_iff in Ht as [_ Ht]. cbn [forallb] in Ht.
      rewrite plus_not_digit in Ht. discriminate. }
  exact (Hbad _ _ _ Htail).
Qed.

(** X6: the dispatching script accepts exactly "+", a digit from 1 to 9 and
    1 to 14 further digits, with or without one final newline. *)
Theorem validate_phone_number_iff (phone : str) :
  CallPy.validate_phone_number U phone = true
  <-> exists d a b,
        phone = ch "+" :: d :: a ++ b
        /\ (49 <= d)%N /\ (d <= 57)%N
        /\ forallb (is_digit U) a = true
        /\ 1 <= List.length a /\ List.length a <= 14
        /\ (b = [] \/ b = [10%N]).
Proof.
  unfold CallPy.validate_phone_number, CallPy.number_pattern.
  apply plus_number_iff.
Qed.

(** X7: every number that the agent's normaliser returns passes the check of
    the dispatching script. *)
Theorem normalized_number_is_dispatchable (v : pyval) (p : str) :
  normalize_phone_number U v = Ret (PyStr p) ->
  CallPy.validate_phone_number U p = true.
Proof.
  unfold normalize_phone_number.
  destruct (truthy v); cbn [negb]; [|discriminate].
  destruct v; try discriminate. intro H; injection H as H.
  apply normalize_str_shape, e164_shape_iff in H.
  destruct H as (d & a & -> & Hd1 & Hd2 & Hall & Hlo & Hhi).
  unfold CallPy.validate_phone_number, CallPy.number_pattern.
  apply plus_number_iff. exists d, a, [].
  rewrite app_nil_r. repeat split; auto; lia.
Qed.

End NormalizeMore.

Lemma normalize_returns_none_or_e164_witness :
  normalize_phone_number Unicode.ascii_only (PyStr (lit "+1 (415) 555-2671"))
  = Ret (PyStr (lit "+14155552671"))
  /\ (PyStr (lit "+14155552671") = PyNone
      \/ exists p, PyStr (lit "+14155552671") = PyStr p
                   /\ e164_shape Unicode.ascii_only p = true).
Proof.
  split; [reflexivity|].
  apply (@normalize_returns_none_or_e164 Unicode.ascii_only
           (PyStr (lit "+1 (415) 555-2671"))).
  reflexivity.
Defined.

Lemma normalize_idempotent_witness :
  normalize_phone_number Unicode.ascii_only (PyStr (lit "98765 43210"))
  = Ret (PyStr (lit "+919876543210"))
  /\ normalize_phone_number Unicode.ascii_only (PyStr (lit "+919876543210"))
     = Ret (PyStr (lit "+919876543210")).
Proof.
  split; [reflexivity|].
  apply (@normalize_idempotent Unicode.ascii_only (PyStr (lit "98765 43210"))).
  reflexivity.
Defined.

Lemma normalize_keeps_the_digits_witness :
  lit "+4915123456789"
  = ch "+" :: [] ++ filter (is_digit Unicode.ascii_only) (lit "+49 151 2345-6789").
Proof.
  apply (@normalize_keeps_the_digits Unicode.ascii_only (lit "+49 151 2345-6789")).
  reflexivity.
Defined.

Lemma normalize_needs_7_to_15_digits_witness :
  7 <= List.length (filter (is_digit Unicode.ascii_only) (lit "+49 151 2345-6789")) <= 15.
Proof.
  apply (@normalize_needs_7_to_15_digits Unicode.ascii_only (lit "+49 151 2345-6789")
           (lit "+4915123456789")).
  reflexivity.
Defined.

Lemma normalize_rejects_inner_plus_witness :
  normalize_phone_number Unicode.ascii_only (PyStr (lit "+49 (+151) 2345678"))
  = Ret PyNone.
Proof.
  apply (@normalize_rejects_inner_plus Unicode.ascii_only
           [] (lit "49 (") (lit "151) 2345678") (ch "+")).
  reflexivity.
Defined.

Lemma validate_phone_number_iff_witness :
  CallPy.validate_phone_number Unicode.ascii_only [43; 49; 50; 10]%N = true.
Proof.
  apply (proj2 (@validate_phone_number_iff Unicode.ascii_only [43; 49; 50; 10]%N)).
  exists 49%N, [50%N], [10%N]. cbn. repeat split; auto; lia.
Defined.

Lemma normalized_number_is_dispatchable_witness :
  CallPy.validate_phone_number Unicode.ascii_only (lit "+919876543210") = true.
Proof.
  apply (@normalized_number_is_dispatchable Unicode.ascii_only
           (PyStr (lit "98765 43210"))).
  reflexivity.
Defined.

(** ** The hang-up loop, further *)

Lemma deletions_app (h1 h2 : history) :
  deletions (h1 ++ h2) = deletions h1 + deletions h2.
Proof. unfold deletions. now rewrite view_app, length_app. Qed.

Section HangupMore.

Variable E : Env.
Variable n : Z.

(** The first [j] turns, when the job context is found and each deletion
    raises, with at least one more turn left. *)
Lemma hangup_failures_prefix :
  forall (j a len : nat) (w : World) (after : M unit),
    j < len ->
    Z.of_nat (a + len) = n ->
    (forall h, exists job_ctx, get_job_context E h = Ret job_ctx) ->
    (forall h room, deletions h < deletions (trace w) + j ->
                    exists e, delete_room E h room = Raise e) ->
    exists new,
      for_each (map Z.of_nat (seq a len)) (hangup_attempt E n) after w
      = for_each (map Z.of_nat (seq (a + j) (len - j))) (hangup_attempt E n) after
                 (extend w new)
      /\ view deletion_view new
         = flat_map (fun i => [Attempted; Slept (2 ^ i)]) (map Z.of_nat (seq a j))
      /\ deletions new = j.
Proof.
  induction j as [|j IH]; intros a len w after Hj Hn Hget Hfail.
  - exists []. rewrite extend_nil, !Nat.add_0_r, Nat.sub_0_r. auto.
  - destruct len as [|len]; [lia|].
    destruct (Hget (trace w)) as (job_ctx & Hctx).
    destruct (Hfail (trace w ++ [Call GetJobContext]) (room_name job_ctx)) as (e & He).
    { rewrite deletions_app. cbn. lia. }
    assert (Hlt : (Z.of_nat a <? n - 1)%Z = true) by (apply Z.ltb_lt; lia).
    cbn [seq map for_each]. unfold bind at 1.
    rewrite hangup_attempt_outcome, Hctx. cbv zeta. rewrite He, Hlt.
    match goal with |- context [for_each _ _ _ (extend w ?es)] => set (es' := es) end.
    destruct (IH (S a) len (extend w es') after) as (new & Hrun & Hview & Hdel).
    + lia.
    + rewrite <- Hn. f_equal. lia.
    + exact Hget.
    + intros h room Hh. apply Hfail.
      cbn [extend trace] in Hh. rewrite deletions_app in Hh. subst es'. cbn in Hh. lia.
    + exists (es' ++ new). split; [|split].
      * rewrite Hrun, extend_extend. replace (a + S j) with (S a + j) by lia. reflexivity.
      * rewrite view_app, Hview. subst es'. reflexivity.
      * rewrite deletions_app, Hdel. subst es'. cbn. lia.
Qed.

(** X8: when the job context is found and the deletion raises each time, the
    room is asked to be deleted [n] times, with a sleep of [2 ^ i] after
    attempt [i] unless it was the last, and the final failure is logged. *)
Theorem hangup_exhausted_schedule (w : World) :
  (0 <= n)%Z ->
  (forall h, exists job_ctx, get_job_context E h = Ret job_ctx) ->
  (forall h room, exists e, delete_room E h room = Raise e) ->
  exists new,
    hangup_call_with_retry E n w = (Ret tt, extend w (new ++ [Log LogHangupFailed]))
    /\ view deletion_view new = exhausted_schedule n.
Proof.
  intros Hn Hget Hfail. unfold hangup_call_with_retry, exhausted_schedule, range.
  assert (Hgen : forall (len a : nat) (w0 : World),
             Z.of_nat (a + len) = n ->
             exists new,
               for_each (map Z.of_nat (seq a len)) (hangup_attempt E n)
                        (log LogHangupFailed) w0
               = (Ret tt, extend w0 (new ++ [Log LogHangupFailed]))
               /\ view deletion_view new
                  = flat_map (fun i => if (i =? n - 1)%Z then [Attempted]
                                       else [Attempted; Slept (2 ^ i)])
                             (map Z.of_nat (seq a len))).
  { induction len as [|len IH]; intros a w0 Ha.
    - exists []. split; reflexivity.
    - destruct (Hget (trace w0)) as (job_ctx & Hctx).
      destruct (Hfail (trace w0 ++ [Call GetJobContext]) (room_name job_ctx)) as (e & He).
      cbn [seq map for_each]. unfold bind at 1.
      rewrite hangup_attempt_outcome, Hctx. cbv zeta. rewrite He.
      match goal with |- context [for_each _ _ _ (extend w0 ?es)] => set (es' := es) end.
      destruct (IH (S a) (extend w0 es')) as (new & Hrun & Hview); [lia|].
      exists (es' ++ new). split.
      + rewrite Hrun, extend_extend, app_assoc. reflexivity.
      + rewrite view_app, Hview. cbn [flat_map]. f_equal. subst es'.
        destruct (Z.ltb_spec (Z.of_nat a) (n - 1)), (Z.eqb_spec (Z.of_nat a) (n - 1));
          try lia; reflexivity. }
  apply Hgen. cbn [Nat.add]. lia.
Qed.

(** X9: when attempt [k] is the first whose deletion succeeds, the hang-up
    logs the success and returns at once, after [k + 1] deletion calls and
    the [k] sleeps between them. *)
Theorem hangup_stops_at_first_success (w : World) (k : nat) :
  (Z.of_nat k < n)%Z ->
  (forall h, exists job_ctx, get_job_context E h = Ret job_ctx) ->
  (forall h room, deletions h < deletions (trace w) + k ->
                  exists e, delete_room E h room = Raise e) ->
  (forall h room, deletions h = deletions (trace w) + k ->
                  delete_room E h room = Ret tt) ->
  exists new,
    hangup_call_with_retry E n w = (Ret tt, extend w (new ++ [Log LogHangupOk]))
    /\ view deletion_view new = retried_schedule k ++ [Attempted].
Proof.
  intros Hk Hget Hfail Hok. unfold hangup_call_with_retry, range.
  destruct (@hangup_failures_prefix k 0 (Z.to_nat n) w (log LogHangupFailed))
    as (new & Hrun & Hview & Hdel); [lia | cbn [Nat.add]; lia | exact Hget | exact Hfail |].
  rewrite Hrun. destruct (Z.to_nat n - k) as [|m] eqn:Hm; [lia|].
  cbn [Nat.add seq map for_each]. unfold bind at 1.
  rewrite hangup_attempt_outcome.
  destruct (Hget (trace (extend w new))) as (job_ctx & Hctx). rewrite Hctx. cbv zeta.
  rewrite Hok by (cbn [extend trace]; rewrite !deletions_app, Hdel; cbn; lia).
  unfold ret. rewrite extend_extend.
  exists (new ++ [Call GetJobContext; Call (DeleteRoom (room_name job_ctx))]).
  split.
  - f_equal. f_equal. rewrite <- app_assoc. reflexivity.
  - rewrite view_app, Hview. unfold retried_schedule. now rewrite range_of_nat.
Qed.

(** X10: whatever the collaborators do, the hang-up makes at most [n]
    deletion calls, each for the room of the job context it was given. *)
Theorem hangup_attempts_bounded (w : World) :
  exists new,
    hangup_call_with_retry E n w = (Ret tt, extend w new)
    /\ List.length (deleted_rooms new) <= Z.to_nat n
    /\ forall room, In room (deleted_rooms new) ->
                    exists h job_ctx,
                      get_job_context E h = Ret job_ctx /\ room = room_name job_ctx.
Proof.
  unfold hangup_call_with_retry, range.
  assert (Hgen : forall (idxs : list Z) (w0 : World),
             exists new,
               for_each idxs (hangup_attempt E n) (log LogHangupFailed) w0
               = (Ret tt, extend w0 new)
               /\ List.length (deleted_rooms new) <= List.length idxs
               /\ forall room, In room (deleted_rooms new) ->
                               exists h job_ctx,
                                 get_job_context E h = Ret job_ctx
                                 /\ room = room_name job_ctx).
  { induction idxs as [|i idxs IH]; intro w0.
    - exists [Log LogHangupFailed]. split; [reflexivity|].
      split; [cbn; lia | intros room []].
    - cbn [for_each]. unfold bind at 1. rewrite hangup_attempt_outcome. cbv zeta.
      destruct (get_job_context E (trace w0)) as [job_ctx|e] eqn:Hctx.
      + destruct (delete_room E _ (room_name job_ctx)) as [[]|e].
        * eexists. split; [reflexivity|]. split; [cbn; lia|].
          intros room [<-|[]]. eauto.
        * match goal with |- context [for_each _ _ _ (extend w0 ?es)] => set (es' := es) end.
          destruct (IH (extend w0 es')) as (new & Hrun & Hlen & Hrooms).
          exists (es' ++ new). rewrite Hrun, extend_extend. split; [reflexivity|].
          unfold deleted_rooms in *. rewrite view_app, length_app.
          subst es'. destruct (i <? n - 1)%Z; cbn [view app List.length];
            (split; [cbn; lia|]);
            intros room [<-|Hin]; eauto.
      + match goal with |- context [for_each _ _ _ (extend w0 ?es)] => set (es' := es) end.
        destruct (IH (extend w0 es')) as (new & Hrun & Hlen & Hrooms).
        exists (es' ++ new). rewrite Hrun, extend_extend. split; [reflexivity|].
        unfold deleted_rooms in *. rewrite view_app, length_app.
        subst es'. destruct (i <? n - 1)%Z; cbn [view app List.length];
          (split; [cbn; lia | exact Hrooms]). }
  destruct (Hgen (map Z.of_nat (seq 0 (Z.to_nat n))) w) as (new & Hrun & Hlen & Hrooms).
  exists new. rewrite length_map, length_seq in Hlen. auto.
Qed.

End HangupMore.

(** ** The dial loop, further *)

Section DialMore.

Variable E : Env.
Variable ctx : JobContext.
Variable phone : str.
Variable n : Z.

Local Abbreviation req := (sip_request E ctx phone).

(** Any run of the loop over any turns, whatever the bridge answers. *)
Lemma dial_loop_general :
  forall (idxs : list Z) (w : World),
  exists new k,
    snd (for_each idxs (dial_attempt E ctx phone n) (raise dial_failure) w) = extend w new
    /\ k <= List.length idxs
    /\ sip_requests new = repeat req k
    /\ (fst (for_each idxs (dial_attempt E ctx phone n) (raise dial_failure) w) = Ret tt
        \/ fst (for_each idxs (dial_attempt E ctx phone n) (raise dial_failure) w)
           = Raise dial_failure
        \/ exists e h,
             fst (for_each idxs (dial_attempt E ctx phone n) (raise dial_failure) w)
             = Raise e
             /\ is_TwirpError e = false
             /\ create_sip_participant E h req = Raise e).
Proof.
  induction idxs as [|i idxs IH]; intro w.
  - exists [], 0. rewrite extend_nil. cbn [for_each raise fst snd].
    split; [reflexivity|]. split; [lia|]. split; [reflexivity|].
    right; left; reflexivity.
  - cbn [for_each]. unfold bind. rewrite dial_attempt_outcome.
    destruct (create_sip_participant E (trace w ++ [Log (LogDialing phone (i + 1))]) req)
      as [[]|e] eqn:Hcall.
    + eexists. exists 1. cbn [fst snd ret]. split; [reflexivity|].
      split; [cbn; lia|]. split; [reflexivity | left; reflexivity].
    + destruct e;
        try (eexists; exists 1; cbn [fst snd]; split; [reflexivity|];
             split; [cbn; lia|]; split; [reflexivity|];
             right; right; eexists; eexists; split; [reflexivity|];
             split; [reflexivity | exact Hcall]).
      match goal with |- context [for_each _ _ _ (extend w ?es)] => set (es' := es) end.
      destruct (IH (extend w es')) as (new & k & Hw & Hk & Hreq & Hres).
      exists (es' ++ new), (S k). rewrite Hw, extend_extend.
      split; [reflexivity|]. split; [cbn; lia|]. split; [|exact Hres].
      unfold sip_requests in *. rewrite view_app, Hreq. subst es'.
      destruct (i <? n - 1)%Z; reflexivity.
Qed.

(** X11: whatever the bridge does, the dial makes at most [n] calls, and
    each of them asks for the same thing: the given number as the callee and
    as the participant identity, in the room of the job, through the
    configured trunk, waiting for the answer. *)
Theorem dial_attempts_bounded (w : World) :
  exists new k,
    snd (create_sip_participant_with_retry E ctx phone n w) = extend w new
    /\ k <= Z.to_nat n
    /\ sip_requests new
       = repeat {| req_room_name := room_name ctx;
                   sip_trunk_id := OUTBOUND_TRUNK_ID E;
                   sip_call_to := phone;
                   participant_identity := phone;
                   wait_until_answered := true |} k.
Proof.
  unfold create_sip_participant_with_retry, range.
  destruct (dial_loop_general (map Z.of_nat (seq 0 (Z.to_nat n))) w)
    as (new & k & Hw & Hk & Hreq & _).
  rewrite length_map, length_seq in Hk.
  exists new, k. split; [exact Hw|]. split; [exact Hk | exact Hreq].
Qed.

(** X12: a [TwirpError] never leaves the dial: it ends in a normal return,
    in the terminal [RuntimeError], or in an exception of another class that
    the SIP call itself raised. *)
Theorem dial_outcomes (w : World) :
  let outcome := fst (create_sip_participant_with_retry E ctx phone n w) in
  outcome = Ret tt
  \/ outcome = Raise (RuntimeError (lit "Failed to connect SIP participant after retries."))
  \/ exists e h,
       outcome = Raise e /\ is_TwirpError e = false
       /\ create_sip_participant E h (sip_request E ctx phone) = Raise e.
Proof.
  unfold create_sip_participant_with_retry, range. cbv zeta.
  destruct (dial_loop_general (map Z.of_nat (seq 0 (Z.to_nat n))) w)
    as (_ & _ & _ & _ & _ & Hres).
  destruct Hres as [H | [H | (e & h & H & He & Hcall)]].
  - left. exact H.
  - right; left. exact H.
  - right; right. exists e, h. auto.
Qed.

End DialMore.

Lemma hangup_exhausted_schedule_witness :
  exists new,
    hangup_call_with_retry
      (scripted_env (fun _ => Ret tt)
         (fun _ => Raise (OtherException (lit "ServerError") (lit "unreachable")))
         (Ret None) loads_empty_object)
      3 fresh_world
    = (Ret tt, extend fresh_world (new ++ [Log LogHangupFailed]))
    /\ view deletion_view new = [Attempted; Slept 1; Attempted; Slept 2; Attempted].
Proof.
  destruct (@hangup_exhausted_schedule
              (scripted_env (fun _ => Ret tt)
                 (fun _ => Raise (OtherException (lit "ServerError") (lit "unreachable")))
                 (Ret None) loads_empty_object)
              3 fresh_world) as (new & Hrun & Hview).
  - lia.
  - intro h. eexists. reflexivity.
  - intros h room. eexists. reflexivity.
  - exists new. split; [exact Hrun | exact Hview].
Defined.

Lemma hangup_stops_at_first_success_witness :
  exists new,
    hangup_call_with_retry
      (scripted_env (fun _ => Ret tt) (deletion_after 1 (Ret tt)) (Ret None)
         loads_empty_object)
      3 fresh_world
    = (Ret tt, extend fresh_world (new ++ [Log LogHangupOk]))
    /\ view deletion_view new = [Attempted; Slept 1; Attempted].
Proof.
  destruct (@hangup_stops_at_first_success
              (scripted_env (fun _ => Ret tt) (deletion_after 1 (Ret tt)) (Ret None)
                 loads_empty_object)
              3 fresh_world 1) as (new & Hrun & Hview).
  - lia.
  - intro h. eexists. reflexivity.
  - intros h room Hh. cbn in Hh. cbn [scripted_env delete_room]. unfold deletion_after.
    apply Nat.ltb_lt in Hh. rewrite Hh. eexists. reflexivity.
  - intros h room Hh. cbn in Hh. cbn [scripted_env delete_room]. unfold deletion_after.
    rewrite Hh. reflexivity.
  - exists new. split; [exact Hrun | exact Hview].
Defined.

(** ** The greeting dialogue, further *)

Section DialogueMore.

Variable U : Unicode.tables.
Variable E : Env.

(** Every way [on_start] can go: the user data is touched by the one
    increment only, and a run that ends with an exception has not reached
    the hang-up. *)
Lemma on_start_cases (w : World) :
  exists new cs',
    snd (on_start U E w) = {| trace := trace w ++ new; userdata := cs' |}
    /\ (cs' = userdata w
        \/ cs' = set_interaction_count (interaction_count (userdata w) + 1) (userdata w))
    /\ (fst (on_start U E w) = Ret tt
        \/ exists e, fst (on_start U E w) = Raise e /\ deleted_rooms new = []).
Proof.
  assert (Hfinish : forall (u : str) (w0 : World),
             (exists new2,
                 (let (r, w') := (say E (trace w0) u, record (Call (Say u)) w0) in
                  match r with
                  | Ret _ => hangup_call_with_retry E 3 (record (Call (Sleep 2)) w')
                  | Raise e => (Raise e, w')
                  end)
                 = (Ret tt, extend w0 new2))
             \/ (exists e,
                    (let (r, w') := (say E (trace w0) u, record (Call (Say u)) w0) in
                     match r with
                     | Ret _ => hangup_call_with_retry E 3 (record (Call (Sleep 2)) w')
                     | Raise e => (Raise e, w')
                     end)
                    = (Raise e, extend w0 [Call (Say u)]))).
  { intros u w0. destruct (say E (trace w0) u) as [[]|e].
    - left.
      destruct (hangup_run E 3 (record (Call (Sleep 2)) (record (Call (Say u)) w0)))
        as (new2 & Hrun & _).
      rewrite Hrun. eexists. f_equal.
      unfold extend, record. cbn [trace userdata].
      repeat rewrite <- app_assoc. reflexivity.
    - right. exists e. reflexivity. }
  unfold on_start, speak, bind, log, ask, modify_userdata, sleep.
  unfold record at 1 2. cbn [trace userdata].
  destruct (wait_for_connection E _) as [[]|e1].
  2:{ eexists. eexists. cbn [fst snd]. split; [|split; [left; reflexivity|]].
      - unfold record. cbn [trace userdata]. repeat rewrite <- app_assoc. reflexivity.
      - right. eexists. split; reflexivity. }
  cbn [trace userdata record].
  destruct (say E _ greeting) as [[]|e2].
  2:{ eexists. eexists. cbn [fst snd]. split; [|split; [left; reflexivity|]].
      - unfold record. cbn [trace userdata]. repeat rewrite <- app_assoc. reflexivity.
      - right. eexists. split; reflexivity. }
  cbn [trace userdata record].
  destruct (listen E _ 10) as [o|e3].
  2:{ eexists. eexists. cbn [fst snd]. split; [|split; [right; reflexivity|]].
      - unfold record. cbn [trace userdata]. repeat rewrite <- app_assoc. reflexivity.
      - right. eexists. split; reflexivity. }
  destruct o as [[[|c t]]|]; cbn [text truthy];
    [ | destruct (contains (lower U (c :: t)) (lit "yes"));
        [ | destruct (contains (lower U (c :: t)) (lit "no")) ] | ];
    match goal with
    | |- context [say E (trace ?w0) ?u] =>
        destruct (Hfinish u w0) as [(new2 & Hrun) | (e & Hrun)]
    end;
    rewrite Hrun; cbn [fst snd];
    (eexists; eexists; split;
     [ unfold extend, record; cbn [trace userdata];
       repeat rewrite <- app_assoc; reflexivity
     | split; [right; reflexivity|] ]);
    try (left; reflexivity);
    (right; eexists; split; [reflexivity|]; reflexivity).
Qed.

(** X13: when [on_start] ends with an exception, it has not asked for the
    room to be deleted. *)
Theorem on_start_raise_skips_hangup (w : World) (e : exn) :
  fst (on_start U E w) = Raise e ->
  deleted_rooms (trace (snd (on_start U E w))) = deleted_rooms (trace w).
Proof.
  intro Hraise.
  destruct (on_start_cases w) as (new & cs' & Hw & _ & [Hret | (e' & _ & Hdel)]).
  - rewrite Hret in Hraise. discriminate.
  - rewrite Hw. cbn [trace]. unfold deleted_rooms in *.
    rewrite view_app, Hdel. apply app_nil_r.
Qed.

(** X14: in every run [on_start] leaves the call state as it was, but for
    the interaction count, which it raises by one at most: the outcome
    fields of the dialogue are never written. *)
Theorem on_start_writes_the_count_only (w : World) :
  let before := userdata w in
  let after := userdata (snd (on_start U E w)) in
  customer_name after = customer_name before
  /\ phone_number after = phone_number before
  /\ is_interested after = is_interested before
  /\ payment_amount after = payment_amount before
  /\ payment_confirmed after = payment_confirmed before
  /\ call_start_time after = call_start_time before
  /\ (interaction_count after = interaction_count before
      \/ interaction_count after = (interaction_count before + 1)%Z).
Proof.
  cbv zeta.
  destruct (on_start_cases w) as (new & cs' & Hw & [-> | ->] & _);
    rewrite Hw; cbn [userdata set_interaction_count customer_name phone_number
                       is_interested payment_amount payment_confirmed
                       call_start_time interaction_count];
    repeat split; auto.
Qed.

(** X15: when the collaborators answer normally, the calls of a run are:
    wait for the audio, speak the greeting, listen for 10, speak one reply,
    sleep 2, and delete the room of the job once. *)
Theorem on_start_call_sequence (w : World) (o : option UserResponse) (job_ctx : JobContext) :
  (forall h, wait_for_connection E h = Ret tt) ->
  (forall h u, say E h u = Ret tt) ->
  (forall h, listen E h 10 = Ret o) ->
  (forall h, get_job_context E h = Ret job_ctx) ->
  (forall h room, delete_room E h room = Ret tt) ->
  exists reply new,
    on_start U E w
    = (Ret tt,
       {| trace := trace w ++ new;
          userdata := set_interaction_count (interaction_count (userdata w) + 1)
                                            (userdata w) |})
    /\ calls new = [WaitForConnection; Say greeting; Listen 10; Say reply; Sleep 2;
                    GetJobContext; DeleteRoom (room_name job_ctx)].
Proof.
  intros Hwait Hsay Hlisten Hget Hdel.
  assert (Hhang : forall w0,
             hangup_call_with_retry E 3 w0
             = (Ret tt, extend w0 [Call GetJobContext; Call (DeleteRoom (room_name job_ctx));
                                   Log LogHangupOk])).
  { intro w0. unfold hangup_call_with_retry.
    change (range 3) with [0; 1; 2]%Z. cbn [for_each]. unfold bind at 1.
    rewrite hangup_attempt_outcome, Hget. cbv zeta. rewrite Hdel. reflexivity. }
  unfold on_start, speak, bind, log, ask, modify_userdata, sleep.
  cbn [trace userdata record]. rewrite Hwait. cbn [trace userdata record].
  rewrite Hsay. cbn [trace userdata record]. rewrite Hlisten.
  destruct o as [[[|c t]]|]; cbn [text truthy];
    [ | destruct (contains (lower U (c :: t)) (lit "yes"));
        [ | destruct (contains (lower U (c :: t)) (lit "no")) ] | ];
    rewrite Hsay, Hhang;
    (eexists; eexists; split;
     [ f_equal; unfold extend, record; cbn [trace userdata];
       repeat rewrite <- app_assoc; reflexivity
     | reflexivity ]).
Qed.

End DialogueMore.

(** ** The entry point, further *)

Section EntrypointMore.

Variable U : Unicode.tables.
Variable E : Env.

Local Abbreviation handler :=
  (fun e : exn => log (LogUnexpected e) ;; ask Shutdown (shutdown E)).

(** X16: the only exception that can leave [entrypoint] is one raised by
    [ctx.shutdown()] itself; anything else is logged and swallowed. *)
Theorem entrypoint_swallows_exceptions (ctx : JobContext) (w : World) :
  fst (entrypoint U E ctx w) = Ret tt
  \/ exists h e, shutdown E h = Raise e /\ fst (entrypoint U E ctx w) = Raise e.
Proof.
  unfold entrypoint, try_except.
  match goal with
  | |- context [match ?body with _ => _ end] => destruct body as [[[]|e] w1]
  end.
  - left. reflexivity.
  - unfold bind, log, ask. cbn [fst].
    destruct (shutdown E (trace (record (Log (LogUnexpected e)) w1))) as [[]|e'] eqn:Hs.
    + left. reflexivity.
    + right. eexists. exists e'. split; [exact Hs | reflexivity].
Qed.

(** The steps of [entrypoint] up to the normalised number. *)
Lemma entrypoint_prefix (ctx : JobContext) (w : World) (dial_info : pyval) :
  fst (parse_metadata U E (metadata ctx) w) = Ret dial_info ->
  exists new,
    calls new = []
    /\ entrypoint U E ctx w
       = try_except
           (phone_number <- lift (get_first dial_info phone_keys) ;;
            phone_number <- lift (normalize_phone_number U phone_number) ;;
            if negb (truthy phone_number) then log (LogInvalidPhone phone_number)
            else match phone_number with
                 | PyStr p => place_call E ctx p
                 | _ => raise TypeError
                 end)
           (fun _ => true) handler (extend w new).
Proof.
  intro Hparse.
  set (w0 := record (Log (LogRawMetadata (metadata ctx))) w).
  destruct (parse_metadata_quiet U E (metadata ctx) w0) as (new1 & Hw1 & Hcalls).
  pose proof (parse_metadata_value U E (metadata ctx) w0 w) as Hval.
  rewrite Hparse in Hval.
  exists ([Log (LogRawMetadata (metadata ctx))] ++ new1). split.
  - unfold calls. rewrite view_app, Hcalls. reflexivity.
  - unfold entrypoint, try_except. unfold bind at 1. unfold log at 1.
    unfold bind at 1. fold w0.
    destruct (parse_metadata U E (metadata ctx) w0) as [r1 w1].
    cbn [fst snd] in *. subst r1 w1.
    subst w0. change (record ?e w) with (extend w [e]). rewrite extend_extend.
    reflexivity.
Qed.

(** X17: metadata that decodes to something other than an object, or a
    number that is neither false nor a string, ends the job on the error
    path: the error is logged, [ctx.shutdown()] is called, and no other
    collaborator has been called. *)
Theorem malformed_metadata_shuts_down (ctx : JobContext) (w : World) (dial_info : pyval) :
  fst (parse_metadata U E (metadata ctx) w) = Ret dial_info ->
  ((forall items, dial_info <> PyDict items) ->
   exists new,
     snd (entrypoint U E ctx w)
     = extend w (new ++ [Log (LogUnexpected AttributeError); Call Shutdown])
     /\ calls new = [])
  /\ (forall v,
        get_first dial_info phone_keys = Ret v ->
        truthy v = true ->
        (forall s, v <> PyStr s) ->
        exists new,
          snd (entrypoint U E ctx w)
          = extend w (new ++ [Log (LogUnexpected TypeError); Call Shutdown])
          /\ calls new = []).
Proof.
  intro Hparse.
  destruct (entrypoint_prefix ctx w Hparse) as (new & Hcalls & Hrun).
  rewrite Hrun. split.
  - intro Hnodict. exists new. split; [|exact Hcalls].
    assert (Hget : get_first dial_info phone_keys = Raise AttributeError).
    { destruct dial_info; try reflexivity. now destruct (Hnodict items). }
    unfold try_except, bind, lift. rewrite Hget. cbn [snd].
    unfold log, ask, record. cbn [snd trace userdata extend].
    unfold extend. cbn [trace userdata]. now rewrite <- !app_assoc.
  - intros v Hget Htruthy Hnostr. exists new. split; [|exact Hcalls].
    assert (Hnorm : normalize_phone_number U v = Raise TypeError).
    { unfold normalize_phone_number. rewrite Htruthy. cbn [negb].
      destruct v; try reflexivity. now destruct (Hnostr s). }
    unfold try_except, bind, lift. rewrite Hget, Hnorm. cbn [snd].
    unfold log, ask, record. cbn [snd trace userdata extend].
    unfold extend. cbn [trace userdata]. now rewrite <- !app_assoc.
Qed.

(** X18: a metadata string that is blank is not decoded at all, and one
    that cannot be decoded only adds a warning: either way the job ends after
    the "invalid phone number" record, with nothing but log records. *)
Theorem blank_or_undecodable_metadata (ctx : JobContext) (w : World) (s : str) :
  metadata ctx = PyStr s ->
  (strip U s = [] ->
   entrypoint U E ctx w
   = (Ret tt, extend w [Log (LogRawMetadata (PyStr s)); Log (LogInvalidPhone PyNone)]))
  /\ (strip U s <> [] ->
      json_loads E s = Raise JSONDecodeError ->
      entrypoint U E ctx w
      = (Ret tt, extend w [Log (LogRawMetadata (PyStr s)); Log LogInvalidJson;
                           Log (LogInvalidPhone PyNone)])).
Proof.
  intro Hmeta. unfold entrypoint. rewrite Hmeta. cbn [parse_metadata]. split.
  - intro Hblank. rewrite Hblank. cbn [truthy].
    unfold try_except, bind, log, ret, lift.
    change (get_first (PyDict []) phone_keys) with (@Ret pyval PyNone). cbv beta iota.
    change (normalize_phone_number U PyNone) with (@Ret pyval PyNone). cbv beta iota.
    cbn [truthy negb]. cbv beta iota. f_equal. same_world.
  - intros Hsome Hfail.
    destruct (strip U s) as [|c t]; [congruence|]. cbn [truthy].
    unfold try_except, bind, log, ret, lift. rewrite Hfail.
    cbn [is_JSONDecodeError].
    change (get_first (PyDict []) phone_keys) with (@Ret pyval PyNone). cbv beta iota.
    change (normalize_phone_number U PyNone) with (@Ret pyval PyNone). cbv beta iota.
    cbn [truthy negb]. cbv beta iota. f_equal. same_world.
Qed.

End EntrypointMore.

(** ** The entry point on its way to a call *)

Section CallPath.

Variable U : Unicode.tables.
Variable E : Env.

Lemma normalized_number_nonempty (v : pyval) (p : str) :
  normalize_phone_number U v = Ret (PyStr p) -> truthy (PyStr p) = true.
Proof.
  unfold normalize_phone_number.
  destruct (truthy v); cbn [negb]; [|discriminate].
  destruct v; try discriminate. intro H; injection H as H.
  apply normalize_str_shape in H. destruct p; [discriminate H | reflexivity].
Qed.

(** With an accepted number, [entrypoint] is [place_call] under the error
    handler, after log records only. *)
Lemma entrypoint_places_call (ctx : JobContext) (w : World) (dial_info v : pyval) (p : str) :
  fst (parse_metadata U E (metadata ctx) w) = Ret dial_info ->
  get_first dial_info phone_keys = Ret v ->
  normalize_phone_number U v = Ret (PyStr p) ->
  exists new,
    calls new = []
    /\ entrypoint U E ctx w
       = try_except (place_call E ctx p) (fun _ => true)
           (fun e => log (LogUnexpected e) ;; ask Shutdown (shutdown E))
           (extend w new).
Proof.
  intros Hparse Hget Hnorm.
  destruct (entrypoint_prefix U E ctx w Hparse) as (new & Hcalls & Hrun).
  exists new. split; [exact Hcalls|].
  rewrite Hrun. unfold try_except at 1 2. unfold bind at 1 2, lift.
  rewrite Hget, Hnorm, (normalized_number_nonempty _ Hnorm). reflexivity.
Qed.

Local Abbreviation model := (lit "sonic-english").
Local Abbreviation voice := (lit "6f84f4b8-58a2-430c-8c79-688dad597532").

(** X19: with an accepted number and collaborators that answer normally, the
    entry point joins the room, loads the audio components, starts the
    session, dials the normalised number once, waits for the participant of
    that identity, joins the session task and logs the summary from the user
    data the session left. *)
Theorem entrypoint_completes_call
    (ctx : JobContext) (w : World) (dial_info v : pyval) (p : str)
    (finish : CallState -> CallState) :
  fst (parse_metadata U E (metadata ctx) w) = Ret dial_info ->
  get_first dial_info phone_keys = Ret v ->
  normalize_phone_number U v = Ret (PyStr p) ->
  (forall h, connect E h = Ret tt) ->
  (forall h, vad_load E h = Ret tt) ->
  (forall h m vo, tts E h m vo = Ret tt) ->
  (forall h m, llm E h m = Ret tt) ->
  (forall h m l, stt E h m l = Ret tt) ->
  (forall h, session_start E h = Ret tt) ->
  (forall h r, create_sip_participant E h r = Ret tt) ->
  (forall h i, wait_for_participant E h i = Ret i) ->
  (forall h cs, session_task E h cs = Ret (finish cs)) ->
  exists new t0 t1 before,
    entrypoint U E ctx w
    = (Ret tt, {| trace := trace w ++ new; userdata := finish (new_CallState p t0) |})
    /\ calls new
       = [Connect; VadLoad; Tts model (Some voice); Llm (lit "gemini-2.5-flash");
          Stt (lit "nova-3") (lit "en-US"); Time; SessionStart;
          CreateSipParticipant (sip_request E ctx p);
          WaitForParticipant p; AwaitSessionTask; Time]
    /\ new = before
             ++ [Log (LogCallCompleted
                        (PrimFloat.sub t1 (call_start_time (finish (new_CallState p t0))))
                        (interaction_count (finish (new_CallState p t0))))].
Proof.
  intros Hparse Hget Hnorm Hconnect Hvad Htts Hllm Hstt Hstart Hsip Hjoin Htask.
  destruct (entrypoint_places_call ctx w Hparse Hget Hnorm) as (new0 & Hcalls0 & Hrun).
  rewrite Hrun. clear Hrun.
  unfold try_except at 1, place_call.
  unfold create_sip_participant_with_retry. change (range 3) with [0; 1; 2]%Z.
  cbn [for_each].
  unfold try_except, bind, log, ask, modify_userdata, ret.
  cbn [trace userdata record extend].
  rewrite Hconnect. cbn [trace userdata record].
  rewrite Hvad. cbn [trace userdata record].
  rewrite Htts. cbn [trace userdata record].
  rewrite Hllm. cbn [trace userdata record].
  rewrite Hstt. cbn [trace userdata record].
  rewrite Hstart. cbn [trace userdata record].
  rewrite dial_attempt_outcome, Hsip. cbn [trace userdata record extend].
  rewrite Hjoin. cbn [trace userdata record].
  rewrite Htask. unfold record. cbn [trace userdata].
  eexists. eexists. eexists. eexists. split; [|split].
  - repeat rewrite <- app_assoc. reflexivity.
  - unfold calls in *. rewrite view_app, Hcalls0. reflexivity.
  - repeat rewrite app_assoc. reflexivity.
Qed.

(** X20: when the three dial attempts each meet a [TwirpError], the entry
    point logs the terminal failure and calls [ctx.shutdown()]; it neither
    waits for a participant nor joins the session task it started. *)
Theorem entrypoint_dial_exhausted
    (ctx : JobContext) (w : World) (dial_info v : pyval) (p : str) :
  fst (parse_metadata U E (metadata ctx) w) = Ret dial_info ->
  get_first dial_info phone_keys = Ret v ->
  normalize_phone_number U v = Ret (PyStr p) ->
  (forall h, connect E h = Ret tt) ->
  (forall h, vad_load E h = Ret tt) ->
  (forall h m vo, tts E h m vo = Ret tt) ->
  (forall h m, llm E h m = Ret tt) ->
  (forall h m l, stt E h m l = Ret tt) ->
  (forall h, session_start E h = Ret tt) ->
  (forall h r, exists c m, create_sip_participant E h r = Raise (TwirpError c m)) ->
  exists new before,
    trace (snd (entrypoint U E ctx w)) = trace w ++ new
    /\ calls new
       = [Connect; VadLoad; Tts model (Some voice); Llm (lit "gemini-2.5-flash");
          Stt (lit "nova-3") (lit "en-US"); Time; SessionStart;
          CreateSipParticipant (sip_request E ctx p); Sleep 1;
          CreateSipParticipant (sip_request E ctx p); Sleep 2;
          CreateSipParticipant (sip_request E ctx p);
          Shutdown]
    /\ new = before
             ++ [Log (LogUnexpected
                        (RuntimeError
                           (lit "Failed to connect SIP participant after retries.")));
                 Call Shutdown].
Proof.
  intros Hparse Hget Hnorm Hconnect Hvad Htts Hllm Hstt Hstart Hsip.
  destruct (entrypoint_places_call ctx w Hparse Hget Hnorm) as (new0 & Hcalls0 & Hrun).
  rewrite Hrun. clear Hrun.
  unfold try_except at 1, place_call.
  unfold create_sip_participant_with_retry. change (range 3) with [0; 1; 2]%Z.
  cbn [for_each].
  unfold try_except, bind, log, ask, modify_userdata, ret, raise.
  cbn [trace userdata record extend].
  rewrite Hconnect. cbn [trace userdata record].
  rewrite Hvad. cbn [trace userdata record].
  rewrite Htts. cbn [trace userdata record].
  rewrite Hllm. cbn [trace userdata record].
  rewrite Hstt. cbn [trace userdata record].
  rewrite Hstart. cbn [trace userdata record].
  rewrite dial_attempt_outcome.
  match goal with
  | |- context [create_sip_participant E ?h ?r] =>
      destruct (Hsip h r) as (c1 & m1 & H1); rewrite H1
  end.
  change (0 <? 3 - 1)%Z with true. cbv iota.
  rewrite dial_attempt_outcome.
  match goal with
  | |- context [create_sip_participant E ?h ?r] =>
      destruct (Hsip h r) as (c2 & m2 & H2); rewrite H2
  end.
  change (1 <? 3 - 1)%Z with true. cbv iota.
  rewrite dial_attempt_outcome.
  match goal with
  | |- context [create_sip_participant E ?h ?r] =>
      destruct (Hsip h r) as (c3 & m3 & H3); rewrite H3
  end.
  change (2 <? 3 - 1)%Z with false. cbv iota.
  unfold extend, record. cbn [trace userdata snd].
  eexists. eexists. split; [|split].
  - repeat rewrite <- app_assoc. reflexivity.
  - unfold calls in *. rewrite view_app, Hcalls0. reflexivity.
  - repeat rewrite app_assoc. rewrite <- app_assoc. reflexivity.
Qed.

(** X21: when the voice cannot be built with the configured voice id, the
    failure is logged as a warning, the voice is built without an id, and
    the call goes on as usual. *)
Theorem entrypoint_falls_back_to_default_voice
    (ctx : JobContext) (w : World) (dial_info v : pyval) (p : str) (e : exn)
    (finish : CallState -> CallState) :
  fst (parse_metadata U E (metadata ctx) w) = Ret dial_info ->
  get_first dial_info phone_keys = Ret v ->
  normalize_phone_number U v = Ret (PyStr p) ->
  (forall h, connect E h = Ret tt) ->
  (forall h, vad_load E h = Ret tt) ->
  (forall h, tts E h model (Some voice) = Raise e) ->
  (forall h, tts E h model None = Ret tt) ->
  (forall h m, llm E h m = Ret tt) ->
  (forall h m l, stt E h m l = Ret tt) ->
  (forall h, session_start E h = Ret tt) ->
  (forall h r, create_sip_participant E h r = Ret tt) ->
  (forall h i, wait_for_participant E h i = Ret i) ->
  (forall h cs, session_task E h cs = Ret (finish cs)) ->
  exists new,
    fst (entrypoint U E ctx w) = Ret tt
    /\ trace (snd (entrypoint U E ctx w)) = trace w ++ new
    /\ calls new
       = [Connect; VadLoad; Tts model (Some voice); Tts model None;
          Llm (lit "gemini-2.5-flash");
          Stt (lit "nova-3") (lit "en-US"); Time; SessionStart;
          CreateSipParticipant (sip_request E ctx p);
          WaitForParticipant p; AwaitSessionTask; Time]
    /\ In (Log (LogTtsFallback e)) new.
Proof.
  intros Hparse Hget Hnorm Hconnect Hvad Htts Hfallback Hllm Hstt Hstart Hsip Hjoin Htask.
  destruct (entrypoint_places_call ctx w Hparse Hget Hnorm) as (new0 & Hcalls0 & Hrun).
  rewrite Hrun. clear Hrun.
  unfold try_except at 1, place_call.
  unfold create_sip_participant_with_retry. change (range 3) with [0; 1; 2]%Z.
  cbn [for_each].
  unfold try_except, bind, log, ask, modify_userdata, ret.
  cbn [trace userdata record extend].
  rewrite Hconnect. cbn [trace userdata record].
  rewrite Hvad. cbn [trace userdata record].
  rewrite Htts. cbn [trace userdata record].
  rewrite Hfallback. cbn [trace userdata record].
  rewrite Hllm. cbn [trace userdata record].
  rewrite Hstt. cbn [trace userdata record].
  rewrite Hstart. cbn [trace userdata record].
  rewrite dial_attempt_outcome, Hsip. cbn [trace userdata record extend].
  rewrite Hjoin. cbn [trace userdata record].
  rewrite Htask. unfold record. cbn [trace userdata fst snd].
  eexists. split; [reflexivity|]. split; [|split].
  - repeat rewrite <- app_assoc. reflexivity.
  - unfold calls in *. rewrite view_app, Hcalls0. reflexivity.
  - apply in_or_app. right. cbn. auto 10.
Qed.

End CallPath.

Lemma on_start_raise_skips_hangup_witness :
  deleted_rooms
    (trace (snd (on_start Unicode.ascii_only
                   (scripted_env (fun _ => Ret tt) (fun _ => Ret tt)
                      (Raise (OtherException (lit "STTError") (lit "stream closed")))
                      loads_empty_object)
                   fresh_world)))
  = deleted_rooms (trace fresh_world).
Proof.
  apply (@on_start_raise_skips_hangup Unicode.ascii_only
           (scripted_env (fun _ => Ret tt) (fun _ => Ret tt)
              (Raise (OtherException (lit "STTError") (lit "stream closed")))
              loads_empty_object)
           fresh_world (OtherException (lit "STTError") (lit "stream closed"))).
  reflexivity.
Defined.

Lemma on_start_call_sequence_witness :
  exists reply new,
    on_start Unicode.ascii_only
      (scripted_env (fun _ => Ret tt) (fun _ => Ret tt)
         (Ret (Some {| text := lit "maybe later" |})) loads_empty_object)
      fresh_world
    = (Ret tt,
       {| trace := trace fresh_world ++ new;
          userdata := set_interaction_count
                        (interaction_count (userdata fresh_world) + 1)
                        (userdata fresh_world) |})
    /\ calls new = [WaitForConnection; Say greeting; Listen 10; Say reply; Sleep 2;
                    GetJobContext; DeleteRoom (lit "room-1")].
Proof.
  apply (@on_start_call_sequence Unicode.ascii_only
           (scripted_env (fun _ => Ret tt) (fun _ => Ret tt)
              (Ret (Some {| text := lit "maybe later" |})) loads_empty_object)
           fresh_world (Some {| text := lit "maybe later" |})
           {| metadata := PyNone; room_name := lit "room-1" |});
    intros; reflexivity.
Defined.

Lemma malformed_metadata_shuts_down_witness :
  (exists new,
      snd (entrypoint Unicode.ascii_only
             (scripted_env (fun _ => Ret tt) (fun _ => Ret tt) (Ret None)
                (fun _ => Ret (PyList [PyInt 1])))
             (sample_job (PyStr (lit "[1]"))) fresh_world)
      = extend fresh_world (new ++ [Log (LogUnexpected AttributeError); Call Shutdown])
      /\ calls new = [])
  /\ (exists new,
        snd (entrypoint Unicode.ascii_only
               (scripted_env (fun _ => Ret tt) (fun _ => Ret tt) (Ret None)
                  loads_empty_object)
               (sample_job (PyDict [(lit "phone", PyInt 5)])) fresh_world)
        = extend fresh_world (new ++ [Log (LogUnexpected TypeError); Call Shutdown])
        /\ calls new = []).
Proof.
  split.
  - apply (proj1 (@malformed_metadata_shuts_down Unicode.ascii_only
                    (scripted_env (fun _ => Ret tt) (fun _ => Ret tt) (Ret None)
                       (fun _ => Ret (PyList [PyInt 1])))
                    (sample_job (PyStr (lit "[1]"))) fresh_world (PyList [PyInt 1])
                    eq_refl)).
    intros items H. discriminate H.
  - apply (proj2 (@malformed_metadata_shuts_down Unicode.ascii_only
                    (scripted_env (fun _ => Ret tt) (fun _ => Ret tt) (Ret None)
                       loads_empty_object)
                    (sample_job (PyDict [(lit "phone", PyInt 5)])) fresh_world
                    (PyDict [(lit "phone", PyInt 5)]) eq_refl) (PyInt 5)).
    + reflexivity.
    + reflexivity.
    + intros s H. discriminate H.
Defined.

Lemma blank_or_undecodable_metadata_witness :
  entrypoint Unicode.ascii_only
    (scripted_env (fun _ => Ret tt) (fun _ => Ret tt) (Ret None) loads_empty_object)
    (sample_job (PyStr (lit "  "))) fresh_world
  = (Ret tt, extend fresh_world [Log (LogRawMetadata (PyStr (lit "  ")));
                                 Log (LogInvalidPhone PyNone)])
  /\ entrypoint Unicode.ascii_only
       (scripted_env (fun _ => Ret tt) (fun _ => Ret tt) (Ret None) loads_empty_object)
       (sample_job (PyStr (lit "{phone"))) fresh_world
     = (Ret tt, extend fresh_world [Log (LogRawMetadata (PyStr (lit "{phone")));
                                    Log LogInvalidJson; Log (LogInvalidPhone PyNone)]).
Proof.
  split.
  - apply (proj1 (@blank_or_undecodable_metadata Unicode.ascii_only
                    (scripted_env (fun _ => Ret tt) (fun _ => Ret tt) (Ret None)
                       loads_empty_object)
                    (sample_job (PyStr (lit "  "))) fresh_world (lit "  ") eq_refl)).
    reflexivity.
  - apply (proj2 (@blank_or_undecodable_metadata Unicode.ascii_only
                    (scripted_env (fun _ => Ret tt) (fun _ => Ret tt) (Ret None)
                       loads_empty_object)
                    (sample_job (PyStr (lit "{phone"))) fresh_world (lit "{phone")
                    eq_refl)).
    + discriminate.
    + reflexivity.
Defined.

Lemma entrypoint_completes_call_witness :
  exists new t0 t1 before,
    entrypoint Unicode.ascii_only
      (scripted_env (fun _ => Ret tt) (fun _ => Ret tt) (Ret None) loads_empty_object)
      (sample_job (PyDict [(lit "phoneNumber", PyStr (lit "98765 43210"))])) fresh_world
    = (Ret tt, {| trace := trace fresh_world ++ new;
                  userdata := new_CallState (lit "+919876543210") t0 |})
    /\ calls new
       = [Connect; VadLoad;
          Tts (lit "sonic-english") (Some (lit "6f84f4b8-58a2-430c-8c79-688dad597532"));
          Llm (lit "gemini-2.5-flash"); Stt (lit "nova-3") (lit "en-US"); Time;
          SessionStart;
          CreateSipParticipant
            (sip_request
               (scripted_env (fun _ => Ret tt) (fun _ => Ret tt) (Ret None)
                  loads_empty_object)
               (sample_job (PyDict [(lit "phoneNumber", PyStr (lit "98765 43210"))]))
               (lit "+919876543210"));
          WaitForParticipant (lit "+919876543210"); AwaitSessionTask; Time]
    /\ new = before
             ++ [Log (LogCallCompleted
                        (PrimFloat.sub t1 (call_start_time
                                             (new_CallState (lit "+919876543210") t0)))
                        (interaction_count (new_CallState (lit "+919876543210") t0)))].
Proof.
  apply (@entrypoint_completes_call Unicode.ascii_only
           (scripted_env (fun _ => Ret tt) (fun _ => Ret tt) (Ret None) loads_empty_object)
           (sample_job (PyDict [(lit "phoneNumber", PyStr (lit "98765 43210"))]))
           fresh_world
           (PyDict [(lit "phoneNumber", PyStr (lit "98765 43210"))])
           (PyStr (lit "98765 43210")) (lit "+919876543210") (fun cs => cs));
    intros; reflexivity.
Defined.

Lemma entrypoint_dial_exhausted_witness :
  exists new before,
    trace (snd (entrypoint Unicode.ascii_only
                  (scripted_env (fun _ => busy) (fun _ => Ret tt) (Ret None)
                     loads_empty_object)
                  (sample_job (PyDict [(lit "phone", PyStr (lit "+14155552671"))]))
                  fresh_world))
    = trace fresh_world ++ new
    /\ List.length (calls new) = 13
    /\ new = before
             ++ [Log (LogUnexpected
                        (RuntimeError
                           (lit "Failed to connect SIP participant after retries.")));
                 Call Shutdown].
Proof.
  destruct (@entrypoint_dial_exhausted Unicode.ascii_only
              (scripted_env (fun _ => busy) (fun _ => Ret tt) (Ret None)
                 loads_empty_object)
              (sample_job (PyDict [(lit "phone", PyStr (lit "+14155552671"))]))
              fresh_world
              (PyDict [(lit "phone", PyStr (lit "+14155552671"))])
              (PyStr (lit "+14155552671")) (lit "+14155552671"))
    as (new & before & Htrace & Hcalls & Hlast);
    try (intros; reflexivity).
  - intros h r. eexists. eexists. reflexivity.
  - exists new, before. rewrite Hcalls. auto.
Defined.

Lemma entrypoint_falls_back_to_default_voice_witness :
  exists new,
    fst (entrypoint Unicode.ascii_only
           (with_tts (scripted_env (fun _ => Ret tt) (fun _ => Ret tt) (Ret None)
                        loads_empty_object) voice_id_refused)
           (sample_job (PyDict [(lit "number", PyStr (lit "+14155552671"))]))
           fresh_world)
    = Ret tt
    /\ In (Log (LogTtsFallback (OtherException (lit "APIError") (lit "unknown voice"))))
          new
    /\ trace (snd (entrypoint Unicode.ascii_only
                     (with_tts (scripted_env (fun _ => Ret tt) (fun _ => Ret tt) (Ret None)
                                  loads_empty_object) voice_id_refused)
                     (sample_job (PyDict [(lit "number", PyStr (lit "+14155552671"))]))
                     fresh_world))
       = trace fresh_world ++ new.
Proof.
  destruct (@entrypoint_falls_back_to_default_voice Unicode.ascii_only
              (with_tts (scripted_env (fun _ => Ret tt) (fun _ => Ret tt) (Ret None)
                           loads_empty_object) voice_id_refused)
              (sample_job (PyDict [(lit "number", PyStr (lit "+14155552671"))]))
              fresh_world
              (PyDict [(lit "number", PyStr (lit "+14155552671"))])
              (PyStr (lit "+14155552671")) (lit "+14155552671")
              (OtherException (lit "APIError") (lit "unknown voice")) (fun cs => cs))
    as (new & Hret & Htrace & _ & Hin);
    try (intros; reflexivity).
  exists new. auto.
Defined.

(** ** Start-up checks *)

Section Startup.

Variable getenv : environ.

Lemma env_missing_false (v : str) :
  env_missing getenv v = false <-> exists c t, getenv v = Some (c :: t).
Proof.
  unfold env_missing. destruct (getenv v) as [[|c t]|]; split;
    try discriminate; try (intros (c' & t' & H); discriminate H).
  - intros _. eauto.
  - reflexivity.
Qed.

(** X22: importing agent.py either raises a [ValueError] that names the
    required variables that are unset or empty, in the order in which
    [REQUIRED_ENV_VARS] lists them, or leaves [OUTBOUND_TRUNK_ID] a
    non-empty string. *)
Theorem import_checks_environment :
  (exists c t,
      module_OUTBOUND_TRUNK_ID getenv = Ret (Some (c :: t))
      /\ forall v, In v REQUIRED_ENV_VARS -> exists c' t', getenv v = Some (c' :: t'))
  \/ (exists missing,
         missing <> []
         /\ module_OUTBOUND_TRUNK_ID getenv = Raise (ValueError (missing_message missing))
         /\ (forall v, In v missing
                       <-> In v REQUIRED_ENV_VARS /\ env_missing getenv v = true)
         /\ missing
            = (if env_missing getenv (lit "LIVEKIT_API_KEY")
               then [lit "LIVEKIT_API_KEY"] else [])
              ++ (if env_missing getenv (lit "LIVEKIT_API_SECRET")
                  then [lit "LIVEKIT_API_SECRET"] else [])
              ++ (if env_missing getenv (lit "LIVEKIT_URL")
                  then [lit "LIVEKIT_URL"] else [])
              ++ (if env_missing getenv (lit "SIP_OUTBOUND_TRUNK_ID")
                  then [lit "SIP_OUTBOUND_TRUNK_ID"] else [])).
Proof.
  unfold module_OUTBOUND_TRUNK_ID, validate_environment.
  destruct (filter (env_missing getenv) REQUIRED_ENV_VARS) as [|m ms] eqn:Hmissing.
  - left.
    assert (Hall : forall v, In v REQUIRED_ENV_VARS -> env_missing getenv v = false).
    { intros v Hin. destruct (env_missing getenv v) eqn:Hv; [|reflexivity].
      assert (Hf : In v (filter (env_missing getenv) REQUIRED_ENV_VARS))
        by (apply filter_In; auto).
      rewrite Hmissing in Hf. destruct Hf. }
    destruct (proj1 (env_missing_false (lit "SIP_OUTBOUND_TRUNK_ID"))) as (c & t & Ht).
    { apply Hall. cbn. auto. }
    exists c, t. cbn [res_bind]. rewrite Ht. split; [reflexivity|].
    intros v Hin. apply env_missing_false, Hall, Hin.
  - right. exists (m :: ms). split; [discriminate|]. split; [reflexivity|]. split.
    + intro v. rewrite <- Hmissing. apply filter_In.
    + rewrite <- Hmissing. unfold REQUIRED_ENV_VARS. cbn [filter].
      destruct (env_missing getenv (lit "LIVEKIT_API_KEY"));
        destruct (env_missing getenv (lit "LIVEKIT_API_SECRET"));
        destruct (env_missing getenv (lit "LIVEKIT_URL"));
        destruct (env_missing getenv (lit "SIP_OUTBOUND_TRUNK_ID"));
        reflexivity.
Qed.

(** The loop of call.py gathers the same missing variables as the list
    comprehension of agent.py. *)
Lemma collect_missing (vars : list str) :
  forall env_vars missing_vars,
    snd (CallPy.collect getenv vars env_vars missing_vars)
    = missing_vars ++ filter (env_missing getenv) vars.
Proof.
  induction vars as [|v vars IH]; intros env_vars missing_vars.
  - cbn. now rewrite app_nil_r.
  - cbn [CallPy.collect filter]. unfold env_missing at 1.
    destruct (getenv v) as [[|c t]|]; rewrite IH.
    + now rewrite <- app_assoc.
    + reflexivity.
    + now rewrite <- app_assoc.
Qed.

(** X23: the two start-up checks agree: the one of call.py raises exactly
    when the one of agent.py does, with the same exception. *)
Theorem startup_checks_agree :
  (forall e, validate_environment getenv = Raise e
             <-> CallPy.validate_environment getenv = Raise e)
  /\ ((exists records, validate_environment getenv = Ret records)
      <-> exists env_vars, CallPy.validate_environment getenv = Ret env_vars).
Proof.
  unfold validate_environment, CallPy.validate_environment.
  pose proof (collect_missing REQUIRED_ENV_VARS [] []) as Hm.
  destruct (CallPy.collect getenv REQUIRED_ENV_VARS [] []) as [ev mv].
  cbn [snd app] in Hm. subst mv.
  destruct (filter (env_missing getenv) REQUIRED_ENV_VARS) as [|m ms].
  - split.
    + intro e. split; discriminate.
    + split; intros _; eexists; reflexivity.
  - split.
    + intro e. split; intro H; injection H as <-; reflexivity.
    + split; intros (x & Hx); discriminate Hx.
Qed.

(** X24: when the check of call.py returns, its dictionary holds the four
    required variables, in their order, each with the non-empty value the
    environment gives it. *)
Theorem validated_environment_is_complete (env_vars : list (str * str)) :
  CallPy.validate_environment getenv = Ret env_vars ->
  map fst env_vars = REQUIRED_ENV_VARS
  /\ forall k v, In (k, v) env_vars -> getenv k = Some v /\ v <> [].
Proof.
  unfold CallPy.validate_environment, REQUIRED_ENV_VARS. cbn [CallPy.collect].
  destruct (getenv (lit "LIVEKIT_API_KEY")) as [[|c1 t1]|] eqn:H1;
    destruct (getenv (lit "LIVEKIT_API_SECRET")) as [[|c2 t2]|] eqn:H2;
    destruct (getenv (lit "LIVEKIT_URL")) as [[|c3 t3]|] eqn:H3;
    destruct (getenv (lit "SIP_OUTBOUND_TRUNK_ID")) as [[|c4 t4]|] eqn:H4;
    cbn; try discriminate.
  intro H; injection H as <-. split; [reflexivity|].
  intros k v [Hin|[Hin|[Hin|[Hin|[]]]]]; injection Hin as <- <-;
    (split; [assumption | discriminate]).
Qed.

End Startup.

Lemma validated_environment_is_complete_witness :
  map fst [(lit "LIVEKIT_API_KEY", lit "key"); (lit "LIVEKIT_API_SECRET", lit "secret");
           (lit "LIVEKIT_URL", lit "wss://example.livekit.cloud");
           (lit "SIP_OUTBOUND_TRUNK_ID", lit "ST_trunk")]
  = REQUIRED_ENV_VARS.
Proof.
  apply (@validated_environment_is_complete
           (fun v => if str_eqb v (lit "LIVEKIT_API_KEY") then Some (lit "key")
                     else if str_eqb v (lit "LIVEKIT_API_SECRET") then Some (lit "secret")
                     else if str_eqb v (lit "LIVEKIT_URL")
                          then Some (lit "wss://example.livekit.cloud")
                     else if str_eqb v (lit "SIP_OUTBOUND_TRUNK_ID")
                          then Some (lit "ST_trunk")
                     else None)).
  reflexivity.
Defined.

(** ** The dispatching script and the agent together *)

Section DispatchAndAgent.

Variable U : Unicode.tables.

Local Abbreviation kept := (fun c => is_digit U c || N.eqb c (ch "+")).

Lemma newline_not_kept : kept 10%N = false.
Proof. reflexivity. Qed.

(** What survives the first step of the normaliser, for a number that
    passes the check of the dispatching script. *)
Lemma dispatchable_number_parts (phone : str) :
  CallPy.validate_phone_number U phone = true ->
  exists d a,
    filter kept phone = ch "+" :: d :: a
    /\ filter (is_digit U) phone = d :: a
    /\ (49 <= d)%N /\ (d <= 57)%N
    /\ forallb (is_digit U) a = true
    /\ 1 <= List.length a /\ List.length a <= 14.
Proof.
  unfold CallPy.validate_phone_number, CallPy.number_pattern. intro Hvalid.
  apply plus_number_iff in Hvalid.
  destruct Hvalid as (d & a & b & -> & Hd1 & Hd2 & Hall & Hlo & Hhi & Hb).
  assert (Hd : is_digit U d = true) by now apply ascii_digit_is_digit.
  exists d, a. repeat split; auto.
  - cbn [filter]. rewrite plus_not_digit, N.eqb_refl, Hd. cbn [orb].
    rewrite filter_app, (filter_all _ _ (digits_survive U a Hall)).
    destruct Hb as [->| ->]; cbn [filter]; [|rewrite newline_not_kept];
      now rewrite app_nil_r.
  - cbn [filter]. rewrite plus_not_digit, Hd.
    rewrite filter_app, (filter_all _ _ Hall).
    destruct Hb as [->| ->]; cbn [filter]; now rewrite app_nil_r.
Qed.

(** The final pattern of the normaliser refuses fewer than 7 digits. *)
Lemma e164_rejects_short (d : char) (a : str) :
  List.length a < 6 -> re_match U e164 (ch "+" :: d :: a) = false.
Proof.
  intro Hshort.
  destruct (re_match U e164 (ch "+" :: d :: a)) eqn:Hm; [|reflexivity].
  apply (proj1 (plus_number_iff U 6 14 _)) in Hm.
  destruct Hm as (d' & a' & b' & Heq & _ & _ & _ & Hlo' & _ & _).
  injection Heq as _ Ha. apply (f_equal (@List.length char)) in Ha.
  rewrite length_app in Ha. lia.
Qed.

(** X25: a number that passes the check of the dispatching script is
    returned by the agent's normaliser, without its final newline if it has
    one, when it has at least 7 digits, and rejected otherwise. *)
Theorem normalize_on_dispatchable_number (phone : str) :
  CallPy.validate_phone_number U phone = true ->
  normalize_phone_number U (PyStr phone)
  = Ret (if Nat.leb 7 (List.length (filter (is_digit U) phone))
         then PyStr (ch "+" :: filter (is_digit U) phone)
         else PyNone).
Proof.
  intro Hvalid.
  destruct (dispatchable_number_parts phone Hvalid)
    as (d & a & Hkept & Hdigits & Hd1 & Hd2 & Hall & Hlo & Hhi).
  rewrite normalize_nonempty by (intro; subst; discriminate).
  unfold normalize_str. rewrite strip_spec, Hkept, Hdigits.
  rewrite ten_digits_rejects_plus.
  change (startswith (ch "+" :: d :: a) (lit "+")) with true. cbn [negb List.length].
  destruct (Nat.leb_spec 7 (S (List.length a))) as [Hlong|Hshort].
  - now rewrite e164_accepts by (assumption || lia).
  - now rewrite e164_rejects_short by lia.
Qed.

Variable E : Env.

(** X26: the two scripts disagree on short numbers: a job whose metadata
    decodes to the dictionary that call.py builds, for a number that passed
    the check of call.py but has fewer than 7 digits, is ended by the agent
    after logging only, before any call. *)
Theorem short_dispatched_number_aborts
    (ctx : JobContext) (w : World) (phone : str) (timestamp : Z) :
  CallPy.validate_phone_number U phone = true ->
  List.length (filter (is_digit U) phone) < 7 ->
  fst (parse_metadata U E (metadata ctx) w)
  = Ret (CallPy.metadata_dict phone timestamp) ->
  exists new,
    entrypoint U E ctx w = (Ret tt, extend w new)
    /\ calls new = [].
Proof.
  intros Hvalid Hshort Hparse.
  assert (Hnorm : normalize_phone_number U (PyStr phone) = Ret PyNone).
  { destruct (dispatchable_number_parts phone Hvalid)
      as (d & a & Hkept & Hdigits & _ & _ & _ & _ & _).
    rewrite Hdigits in Hshort. cbn [List.length] in Hshort.
    rewrite normalize_nonempty by (intro; subst; discriminate).
    unfold normalize_str. rewrite strip_spec, Hkept, ten_digits_rejects_plus.
    change (startswith (ch "+" :: d :: a) (lit "+")) with true. cbn [negb].
    now rewrite e164_rejects_short by lia. }
  destruct (entrypoint_prefix U E ctx w Hparse) as (new & Hcalls & Hrun).
  assert (Hget : get_first (CallPy.metadata_dict phone timestamp) phone_keys
                 = Ret (PyStr phone)).
  { destruct phone as [|c t]; [discriminate Hvalid | reflexivity]. }
  rewrite Hrun. unfold try_except, bind, lift. rewrite Hget, Hnorm.
  cbn [truthy negb]. unfold log.
  exists (new ++ [Log (LogInvalidPhone PyNone)]). split.
  - f_equal. same_world.
  - unfold calls in *. rewrite view_app, Hcalls. reflexivity.
Qed.

End DispatchAndAgent.

Lemma normalize_on_dispatchable_number_witness :
  normalize_phone_number Unicode.ascii_only (PyStr (lit "+12345"))
  = Ret PyNone.
Proof.
  apply (@normalize_on_dispatchable_number Unicode.ascii_only (lit "+12345")).
  reflexivity.
Defined.

Lemma short_dispatched_number_aborts_witness :
  exists new,
    entrypoint Unicode.ascii_only
      (scripted_env (fun _ => Ret tt) (fun _ => Ret tt) (Ret None) loads_empty_object)
      (sample_job (CallPy.metadata_dict (lit "+12345") 1700000000)) fresh_world
    = (Ret tt, extend fresh_world new)
    /\ calls new = [].
Proof.
  apply (@short_dispatched_number_aborts Unicode.ascii_only
           (scripted_env (fun _ => Ret tt) (fun _ => Ret tt) (Ret None) loads_empty_object)
           (sample_job (CallPy.metadata_dict (lit "+12345") 1700000000)) fresh_world
           (lit "+12345") 1700000000).
  - reflexivity.
  - cbn. lia.
  - reflexivity.
Defined.

(** ** The log sanitiser *)

Section MaskingFacts.

Import Masking.

Variable U : Unicode.tables.
Variable alnum : char -> bool.

Local Abbreviation digits_of s := (filter (is_digit U) s).
Local Abbreviation has_dash s := (existsb (N.eqb (ch "-")) s).

Lemma has_dash_app (a b : str) : has_dash (a ++ b) = has_dash a || has_dash b.
Proof. apply existsb_app. Qed.

(** What any match consumes: at least [min_digits] digits, and a "-" when
    the pattern needs one. *)
Lemma pmatches_consumes (A : Type) (r : pattern) :
  forall (prev : option char) (s : str) (k : pcont A) (x : A),
    pmatches U alnum r prev s k = Some x ->
    exists pre rest prev',
      s = pre ++ rest
      /\ k prev' rest = Some x
      /\ min_digits r <= List.length (digits_of pre)
      /\ (needs_dash r = true -> has_dash pre = true).
Proof.
  induction r as [items | r1 IH1 r2 IH2 | r IH lo hi | ]; intros prev s k x H.
  - cbn [pmatches] in H. destruct s as [|c s]; [discriminate|].
    destruct (in_items U items c) eqn:Hc; [|discriminate].
    exists [c], s, (Some c). split; [reflexivity|]. split; [exact H|]. split.
    + destruct items as [|[| |a] [|i items]]; cbn [min_digits]; try lia.
      unfold in_items in Hc. cbn [existsb pitem_has] in Hc.
      rewrite orb_false_r in Hc. cbn [filter]. rewrite Hc. cbn. lia.
    + destruct items as [|[| |a] [|i items]]; cbn [needs_dash]; try discriminate.
      intro Ha. apply N.eqb_eq in Ha.
      unfold in_items in Hc. cbn [existsb pitem_has] in Hc.
      rewrite orb_false_r in Hc. apply N.eqb_eq in Hc. subst c.
      cbn [existsb]. rewrite Ha, N.eqb_refl. reflexivity.
  - cbn [pmatches] in H. apply IH1 in H.
    destruct H as (pre1 & rest1 & prev1 & -> & H & Hd1 & Hn1).
    apply IH2 in H. destruct H as (pre2 & rest2 & prev2 & -> & H & Hd2 & Hn2).
    exists (pre1 ++ pre2), rest2, prev2. rewrite <- app_assoc.
    split; [reflexivity|]. split; [exact H|]. split.
    + cbn [min_digits]. rewrite filter_app, length_app. lia.
    + cbn [needs_dash]. rewrite has_dash_app. intro Hn.
      apply orb_true_iff in Hn as [Hn|Hn]; [rewrite Hn1 | rewrite Hn2, orb_true_r]; auto.
  - cbn [pmatches] in H. cbn [min_digits needs_dash].
    revert lo prev s H. induction hi as [|hi IHhi]; intros lo prev s H.
    + cbn [prep] in H. destruct (Nat.eqb_spec lo 0) as [->|]; [|discriminate].
      exists [], s, prev. cbn. repeat split; auto; discriminate.
    + cbn [prep] in H.
      destruct (pmatches U alnum r prev s
                  (fun prev' s' => prep (pmatches U alnum r) hi (pred lo) prev' s' k))
        as [y|] eqn:Hm.
      * cbn [orelse] in H. rewrite H in Hm. clear H y.
        apply IH in Hm. destruct Hm as (pre1 & rest1 & prev1 & -> & Hm & Hd1 & Hn1).
        apply IHhi in Hm. destruct Hm as (pre2 & rest2 & prev2 & -> & Hm & Hd2 & Hn2).
        exists (pre1 ++ pre2), rest2, prev2. rewrite <- app_assoc.
        split; [reflexivity|]. split; [exact Hm|]. split.
        -- rewrite filter_app, length_app. destruct lo; cbn in *; lia.
        -- rewrite has_dash_app. intro Hn. apply andb_true_iff in Hn as [_ Hn].
           rewrite (Hn1 Hn). reflexivity.
      * cbn [orelse] in H. destruct (Nat.eqb_spec lo 0) as [->|]; [|discriminate].
        exists [], s, prev. cbn. repeat split; auto; discriminate.
  - cbn [pmatches] in H.
    destruct (xorb (word_before U alnum prev) (word_at U alnum s)); [|discriminate].
    exists [], s, prev. cbn. repeat split; auto; discriminate.
Qed.

Lemma digits_of_suffix (c : char) (s : str) :
  List.length (digits_of s) <= List.length (digits_of (c :: s)).
Proof. cbn [filter]. destruct (is_digit U c); cbn; lia. Qed.

(** A pattern finds nothing to replace in a string that has too few digits
    for it, or lacks the "-" it needs. *)
Lemma sub_replace_nothing (r : pattern) (repl : str) :
  forall (fuel : nat) (prev : option char) (s : str),
    List.length (digits_of s) < min_digits r
    \/ (needs_dash r = true /\ has_dash s = false) ->
    sub_replace U alnum fuel r repl prev s = s.
Proof.
  induction fuel as [|fuel IH]; intros prev s Hs; [destruct s; reflexivity|].
  destruct s as [|c s]; [reflexivity|]. cbn [sub_replace].
  destruct (pmatches U alnum r prev (c :: s) (fun prev' rest => Some (prev', rest)))
    as [[prev' rest]|] eqn:Hm.
  - exfalso. apply pmatches_consumes in Hm.
    destruct Hm as (pre & rest' & prev'' & Heq & _ & Hd & Hn).
    destruct Hs as [Hfew | [Hneeds Hnone]].
    + rewrite Heq, filter_app, length_app in Hfew. lia.
    + rewrite Heq, has_dash_app, (Hn Hneeds) in Hnone. discriminate.
  - f_equal. apply IH. destruct Hs as [Hfew | [Hneeds Hnone]].
    + left. pose proof (digits_of_suffix c s). lia.
    + right. split; [exact Hneeds|]. cbn [existsb] in Hnone.
      now apply orb_false_iff in Hnone.
Qed.

(** X27: a text with fewer than 16 digits and without "-" goes through the
    sanitiser unchanged. *)
Theorem sanitize_leaves_short_undashed_text (data : str) :
  List.length (filter (is_digit U) data) < 16 ->
  existsb (N.eqb (ch "-")) data = false ->
  sanitize_log_data U alnum data = data.
Proof.
  intros Hfew Hnodash. unfold sanitize_log_data.
  destruct data as [|c t]; [reflexivity|].
  remember (c :: t) as data eqn:Hdata. clear Hdata c t.
  cbn [fold_left fst snd]. unfold re_sub.
  rewrite (sub_replace_nothing card_number _ _ None data) by (left; exact Hfew).
  apply sub_replace_nothing. right. split; [reflexivity | exact Hnodash].
Qed.

(** X28: the number that the entry point logs when it starts a call, a
    result of the normaliser, is written in clear: the sanitiser does not
    mask it. *)
Theorem sanitize_shows_normalized_number (v : pyval) (p : str) :
  normalize_phone_number U v = Ret (PyStr p) ->
  sanitize_log_data U alnum p = p.
Proof.
  unfold normalize_phone_number.
  destruct (truthy v); cbn [negb]; [|discriminate].
  destruct v; try discriminate. intro H; injection H as H.
  apply normalize_str_shape, e164_shape_iff in H.
  destruct H as (d & a & -> & Hd1 & Hd2 & Hall & Hlo & Hhi).
  assert (Hd : is_digit U d = true) by now apply ascii_digit_is_digit.
  assert (Hnodash : forall l : str, forallb (is_digit U) l = true -> has_dash l = false).
  { induction l as [|c l IHl]; [reflexivity|]. cbn [forallb existsb]. intro Hl.
    apply andb_true_iff in Hl as [Hc Hl]. rewrite (IHl Hl), orb_false_r.
    apply N.eqb_neq. intros <-. discriminate Hc. }
  unfold sanitize_log_data. cbn [fold_left fst snd]. unfold re_sub.
  rewrite (sub_replace_nothing card_number _ _ None (ch "+" :: d :: a)).
  - apply sub_replace_nothing. right. split; [reflexivity|].
    cbn [existsb]. rewrite (Hnodash a Hall), orb_false_r.
    change (N.eqb (ch "-") (ch "+")) with false. cbn [orb].
    apply N.eqb_neq. intros <-. discriminate Hd.
  - left. cbn [filter]. rewrite plus_not_digit, Hd, (filter_all _ _ Hall).
    change (min_digits card_number) with 16. cbn [List.length]. lia.
Qed.

Lemma orelse_None_r (A : Type) (x : option A) : orelse x None = x.
Proof. destruct x; reflexivity. Qed.

Lemma ascii_digit_facts (c : char) :
  N.leb 48 c && N.leb c 57 = true ->
  is_digit U c = true /\ is_word U alnum c = true
  /\ in_items U [PChar "-"; PSpace] c = false.
Proof.
  intro H. apply andb_true_iff in H as [Hlo Hhi].
  pose proof Hlo as Hlo'. pose proof Hhi as Hhi'.
  apply N.leb_le in Hlo', Hhi'.
  assert (Hlt : N.ltb c 128 = true) by (apply N.ltb_lt; lia).
  unfold is_digit, is_word, in_items, is_space. cbn [existsb pitem_has].
  unfold is_space. rewrite Hlt, Hlo, Hhi. cbn [andb orb].
  repeat split.
  assert (H1 : N.eqb c (ch "-") = false) by (apply N.eqb_neq; cbn; lia).
  assert (H2 : N.leb c 13 = false) by (apply N.leb_gt; lia).
  assert (H3 : N.leb c 32 = false) by (apply N.leb_gt; lia).
  now rewrite H1, H2, H3, !andb_false_r.
Qed.

Local Abbreviation ascii_digit c := (N.leb 48 c && N.leb c 57).

Lemma four_digits_inv (g : str) :
  four_digits g = true ->
  exists a1 a2 a3 a4,
    g = [a1; a2; a3; a4]
    /\ ascii_digit a1 = true /\ ascii_digit a2 = true
    /\ ascii_digit a3 = true /\ ascii_digit a4 = true.
Proof.
  unfold four_digits. intro H. apply andb_true_iff in H as [Hlen Hall].
  destruct g as [|a1 [|a2 [|a3 [|a4 [|]]]]]; try discriminate Hlen.
  cbn [forallb] in Hall. rewrite andb_true_r in Hall.
  apply andb_true_iff in Hall as [H1 Hall].
  apply andb_true_iff in Hall as [H2 Hall].
  apply andb_true_iff in Hall as [H3 H4].
  exists a1, a2, a3, a4. auto.
Qed.

Lemma pmatches_PCat (A : Type) r1 r2 prev (s : str) (k : pcont A) :
  pmatches U alnum (PCat r1 r2) prev s k
  = pmatches U alnum r1 prev s (fun prev' s' => pmatches U alnum r2 prev' s' k).
Proof. reflexivity. Qed.

Lemma pmatches_PWordB (A : Type) prev (s : str) (k : pcont A) :
  pmatches U alnum PWordB prev s k
  = if xorb (word_before U alnum prev) (word_at U alnum s) then k prev s else None.
Proof. reflexivity. Qed.

(** Four digits are taken by [\d{4}]. *)
Lemma digit4_takes (A : Type) (a1 a2 a3 a4 : char) (rest : str) (prev : option char)
      (k : pcont A) :
  ascii_digit a1 = true -> ascii_digit a2 = true ->
  ascii_digit a3 = true -> ascii_digit a4 = true ->
  pmatches U alnum digit4 prev (a1 :: a2 :: a3 :: a4 :: rest) k = k (Some a4) rest.
Proof.
  intros H1 H2 H3 H4.
  destruct (ascii_digit_facts a1 H1) as (D1 & _ & _).
  destruct (ascii_digit_facts a2 H2) as (D2 & _ & _).
  destruct (ascii_digit_facts a3 H3) as (D3 & _ & _).
  destruct (ascii_digit_facts a4 H4) as (D4 & _ & _).
  unfold digit4. cbn [pmatches prep pred Nat.eqb].
  unfold in_items. cbn [existsb pitem_has].
  rewrite D1, D2, D3, D4. cbn [orb]. now rewrite !orelse_None_r.
Qed.

(** An optional separator before a digit is taken by [[-\s]?]. *)
Lemma separator_takes (A : Type) (s rest : str) (d : char) (prev : option char)
      (k : pcont A) (x : A) :
  optional_separator U s = true ->
  ascii_digit d = true ->
  k (match s with [] => prev | c :: _ => Some c end) (d :: rest) = Some x ->
  pmatches U alnum separator prev (s ++ d :: rest) k = Some x.
Proof.
  intros Hs Hd Hk. destruct (ascii_digit_facts d Hd) as (_ & _ & Hnosep).
  unfold separator. destruct s as [|c [|]]; try discriminate Hs.
  - cbn [app pmatches prep pred Nat.eqb]. rewrite Hnosep. cbn [orelse]. exact Hk.
  - cbn [optional_separator] in Hs.
    cbn [app pmatches prep pred Nat.eqb]. unfold in_items at 1.
    cbn [existsb pitem_has]. rewrite orb_false_r, Hs, Hk. reflexivity.
Qed.

(** X29: a card number alone, four groups of four ASCII digits, each group
    after the first preceded by nothing, a "-" or one white-space character,
    is replaced by the mask. *)
Theorem sanitize_masks_card_number (g1 s1 g2 s2 g3 s3 g4 : str) :
  four_digits g1 = true -> four_digits g2 = true ->
  four_digits g3 = true -> four_digits g4 = true ->
  optional_separator U s1 = true -> optional_separator U s2 = true ->
  optional_separator U s3 = true ->
  sanitize_log_data U alnum (g1 ++ s1 ++ g2 ++ s2 ++ g3 ++ s3 ++ g4)
  = lit "****-****-****-****".
Proof.
  intros G1 G2 G3 G4 S1 S2 S3.
  apply four_digits_inv in G1, G2, G3, G4.
  destruct G1 as (a1 & a2 & a3 & a4 & -> & A1 & A2 & A3 & A4).
  destruct G2 as (b1 & b2 & b3 & b4 & -> & B1 & B2 & B3 & B4).
  destruct G3 as (c1 & c2 & c3 & c4 & -> & C1 & C2 & C3 & C4).
  destruct G4 as (d1 & d2 & d3 & d4 & -> & D1 & D2 & D3 & D4).
  cbn [app].
  set (tail3 := s3 ++ [d1; d2; d3; d4]).
  set (tail2 := s2 ++ c1 :: c2 :: c3 :: c4 :: tail3).
  set (tail1 := s1 ++ b1 :: b2 :: b3 :: b4 :: tail2).
  assert (Hmatch :
            pmatches U alnum card_number None (a1 :: a2 :: a3 :: a4 :: tail1)
              (fun prev' rest => Some (prev', rest))
            = Some (Some d4, [])).
  { destruct (ascii_digit_facts a1 A1) as (_ & W1 & _).
    destruct (ascii_digit_facts d4 D4) as (_ & W4 & _).
    unfold card_number. rewrite pmatches_PCat, pmatches_PWordB.
    cbn [word_before word_at]. rewrite W1. cbn [xorb].
    rewrite pmatches_PCat, digit4_takes by assumption.
    rewrite pmatches_PCat. subst tail1. apply separator_takes; [assumption..|].
    rewrite pmatches_PCat, digit4_takes by assumption.
    rewrite pmatches_PCat. subst tail2. apply separator_takes; [assumption..|].
    rewrite pmatches_PCat, digit4_takes by assumption.
    rewrite pmatches_PCat. subst tail3. apply separator_takes; [assumption..|].
    rewrite pmatches_PCat, digit4_takes by assumption.
    rewrite pmatches_PWordB. cbn [word_before word_at]. rewrite W4. reflexivity. }
  unfold sanitize_log_data. cbn [fold_left fst snd]. unfold re_sub at 2.
  cbn [List.length sub_replace]. rewrite Hmatch.
  change (Nat.ltb (List.length (@nil char)) _) with true. cbv iota.
  rewrite app_nil_r. unfold re_sub.
  apply sub_replace_nothing. left. cbn. lia.
Qed.

End MaskingFacts.

Lemma sanitize_leaves_short_undashed_text_witness :
  Masking.sanitize_log_data Unicode.ascii_only (fun _ => false)
    (lit "call 4155552671 at 10:30")
  = lit "call 4155552671 at 10:30".
Proof.
  apply (@sanitize_leaves_short_undashed_text Unicode.ascii_only (fun _ => false)
           (lit "call 4155552671 at 10:30")).
  - cbn. lia.
  - reflexivity.
Defined.

Lemma sanitize_shows_normalized_number_witness :
  Masking.sanitize_log_data Unicode.ascii_only (fun _ => false) (lit "+919876543210")
  = lit "+919876543210".
Proof.
  apply (@sanitize_shows_normalized_number Unicode.ascii_only (fun _ => false)
           (PyStr (lit "98765 43210"))).
  reflexivity.
Defined.

Lemma sanitize_masks_card_number_witness :
  Masking.sanitize_log_data Unicode.ascii_only (fun _ => false)
    (lit "1234-5678 90123456")
  = lit "****-****-****-****".
Proof.
  apply (@sanitize_masks_card_number Unicode.ascii_only (fun _ => false)
           (lit "1234") (lit "-") (lit "5678") (lit " ") (lit "9012") [] (lit "3456"));
    reflexivity.
Defined.
